(** * Pythium, [plotting_misc/plot_classes.py]

    A shallow embedding of the histogram store, the derived series
    (stacked totals, Poisson error bars, ratio values), the grid-string
    parser and the tick-label planner of [plot_classes.py], with the
    properties of the specification stated about them.

    Conventions of the embedding
    - A plot object ([self]) is a record of its attributes; a method is a
      function in the monad [M], which threads the object and carries a
      Python exception.  The object survives an exception, as in Python.
    - [logging.error] appends its message to the [log] attribute of the
      record; calls into the plotting library append a [draw_call] to
      [canvas] and always return.  What the code itself evaluates for
      such a call (a key of [rcps], an attribute, a local variable) can
      raise before the call is made.
    - A Python [dict] is an association list in insertion order.
    - Bin contents are numbers of a type [F] with the operations of the
      class [Numeric]; the instance used is IEEE binary64 ([float], what
      numpy holds). *)

From Stdlib Require Import List String Ascii Bool ZArith Lia.
From Stdlib Require Import Uint63 Floats.PrimFloat Floats.FloatOps Floats.SpecFloat
  Floats.FloatAxioms.
Import ListNotations.

Set Implicit Arguments.

(* ================================================================== *)
(** * Part I: definitions *)
(* ================================================================== *)

(** ** Python exceptions and results *)

Inductive exn : Type :=
| IndexError
| KeyError
| StopIteration
| AttributeError
| TypeError
| ValueError
| ZeroDivisionError
| UnboundLocalError.

Inductive outcome (A : Type) : Type :=
| Ok (a : A)
| Raise (e : exn).

Arguments Ok {A} a.
Arguments Raise {A} e.

Definition obind {A B} (r : outcome A) (k : A -> outcome B) : outcome B :=
  match r with
  | Ok a => k a
  | Raise e => Raise e
  end.

(** [[f(x) for x in l]] where [f] may raise. *)
Fixpoint map_outcome {A B} (f : A -> outcome B) (l : list A) : outcome (list B) :=
  match l with
  | [] => Ok []
  | x :: l' => obind (f x) (fun y => obind (map_outcome f l') (fun ys => Ok (y :: ys)))
  end.

(** ** Strings *)

Definition str_eqb : string -> string -> bool := String.eqb.

(** [s[0]]: the first character as a one-character string. *)
Definition str_head (s : string) : outcome string :=
  match s with
  | EmptyString => Raise IndexError
  | String c _ => Ok (String c EmptyString)
  end.

(** [s[n:]] and [s[:n]]: slices never raise. *)
Fixpoint str_drop (n : nat) (s : string) : string :=
  match n, s with
  | O, _ => s
  | S n', String _ s' => str_drop n' s'
  | S _, EmptyString => EmptyString
  end.

Fixpoint str_take (n : nat) (s : string) : string :=
  match n, s with
  | O, _ => EmptyString
  | S n', String c s' => String c (str_take n' s')
  | S _, EmptyString => EmptyString
  end.

(** [x in l] for a list of strings. *)
Definition str_in (x : string) (l : list string) : bool :=
  existsb (str_eqb x) l.

(** [t in s] for two strings: [t] occurs in [s]. *)
Fixpoint str_contains (t s : string) : bool :=
  if String.prefix t s then true
  else match s with
       | EmptyString => false
       | String _ s' => str_contains t s'
       end.

(** [s.split(c)] for a one-character separator. *)
Fixpoint split_at (c : ascii) (s : string) : string * list string :=
  match s with
  | EmptyString => (EmptyString, [])
  | String a s' =>
      let '(hd, tl) := split_at c s' in
      if Ascii.eqb a c then (EmptyString, hd :: tl) else (String a hd, tl)
  end.

Definition str_split (c : ascii) (s : string) : list string :=
  let '(hd, tl) := split_at c s in hd :: tl.

(** ** Lists: indexing as Python does it *)

Definition list_first {A} (l : list A) : outcome A :=
  match l with
  | [] => Raise IndexError
  | x :: _ => Ok x
  end.

(** [l[-1]] *)
Definition list_last {A} (l : list A) : outcome A :=
  match rev l with
  | [] => Raise IndexError
  | x :: _ => Ok x
  end.

Definition list_index {A} (l : list A) (i : nat) : outcome A :=
  match nth_error l i with
  | Some x => Ok x
  | None => Raise IndexError
  end.

(** [l[1:-1]] *)
Definition interior {A} (l : list A) : list A := removelast (tl l).

(** [l[0] = x] *)
Definition set_first {A} (x : A) (l : list A) : outcome (list A) :=
  match l with
  | [] => Raise IndexError
  | _ :: l' => Ok (x :: l')
  end.

(** [l[-1] = x] *)
Definition set_last {A} (x : A) (l : list A) : outcome (list A) :=
  match l with
  | [] => Raise IndexError
  | _ :: _ => Ok (removelast l ++ [x])
  end.

(** [zip(a, b)] followed by a map: stops at the shorter one. *)
Fixpoint zip_with {A B C} (f : A -> B -> C) (a : list A) (b : list B) : list C :=
  match a, b with
  | x :: a', y :: b' => f x y :: zip_with f a' b'
  | _, _ => []
  end.

(** ** Dictionaries: insertion-ordered, keyed by strings *)

Definition dict (V : Type) : Type := list (string * V).

Fixpoint dict_get {V} (d : dict V) (k : string) : option V :=
  match d with
  | [] => None
  | (k', v) :: d' => if str_eqb k k' then Some v else dict_get d' k
  end.

(** [d[k] = v]: an existing key keeps its place. *)
Fixpoint dict_set {V} (d : dict V) (k : string) (v : V) : dict V :=
  match d with
  | [] => [(k, v)]
  | (k', v') :: d' =>
      if str_eqb k k' then (k', v) :: d' else (k', v') :: dict_set d' k v
  end.

Definition dict_keys {V} (d : dict V) : list string := map fst d.
Definition dict_values {V} (d : dict V) : list V := map snd d.
Definition dict_len {V} (d : dict V) : nat := List.length d.

(** [d[k]] *)
Definition dict_index {V} (d : dict V) (k : string) : outcome V :=
  match dict_get d k with
  | Some v => Ok v
  | None => Raise KeyError
  end.

(** [next(iter(d))] *)
Definition dict_first_key {V} (d : dict V) : outcome string :=
  match d with
  | [] => Raise StopIteration
  | (k, _) :: _ => Ok k
  end.

(** ** Numbers *)

Class Numeric (F : Type) : Type := {
  num_zero : F;
  num_one : F;
  num_two : F;
  num_add : F -> F -> F;
  num_sub : F -> F -> F;
  num_mul : F -> F -> F;
  num_div : F -> F -> F;
  num_sqrt : F -> F;
  (** [m != 0] *)
  num_ne0 : F -> bool
}.

(** numpy's float64: division is total, [x/0] is [inf] or [nan] and only
    warns; [nan != 0] holds. *)
#[export] Instance float_Numeric : Numeric float := {
  num_zero := 0%float;
  num_one := 1%float;
  num_two := 2%float;
  num_add := PrimFloat.add;
  num_sub := PrimFloat.sub;
  num_mul := PrimFloat.mul;
  num_div := PrimFloat.div;
  num_sqrt := PrimFloat.sqrt;
  num_ne0 := fun m => negb (PrimFloat.eqb m 0%float)
}.

(** What a numpy reduction or an array attribute can be. *)
Inductive npval (F : Type) : Type :=
| NpScalar (x : F)
| NpArray (xs : list F).

Arguments NpScalar {F} x.
Arguments NpArray {F} xs.

Definition np_map {F} (f : F -> F) (v : npval F) : npval F :=
  match v with
  | NpScalar x => NpScalar (f x)
  | NpArray xs => NpArray (map f xs)
  end.

(** ** Python values that reach the constructor *)

(** An element of a list argument: the code expects strings and checks. *)
Inductive pyitem : Type :=
| PStr (s : string)
| PInt (z : Z).

(** The [samples] and [data] arguments: a list or a single string, the
    two kinds of value the code is written for.  Another value (a numpy
    array of names, whose truth value [if self.samples:] cannot take) is
    not covered. *)
Inductive pyarg : Type :=
| AList (l : list pyitem)
| AStr (s : string).

Definition item_eqb (a b : pyitem) : bool :=
  match a, b with
  | PStr s, PStr t => str_eqb s t
  | PInt x, PInt y => Z.eqb x y
  | _, _ => false
  end.

Definition is_str (a : pyitem) : bool :=
  match a with PStr _ => true | PInt _ => false end.

Definition item_strs (l : list pyitem) : list string :=
  flat_map (fun a => match a with PStr s => [s] | PInt _ => [] end) l.

(** Truth value of an argument: an empty list and an empty string are false. *)
Definition arg_truthy (a : pyarg) : bool :=
  match a with
  | AList [] => false
  | AList (_ :: _) => true
  | AStr EmptyString => false
  | AStr (String _ _) => true
  end.

Definition arg_is_list (a : pyarg) : bool :=
  match a with AList _ => true | AStr _ => false end.

(** [len(a)] *)
Definition arg_len (a : pyarg) : nat :=
  match a with
  | AList l => List.length l
  | AStr s => String.length s
  end.

(** [a == 'all'] *)
Definition arg_is_all (a : pyarg) : bool :=
  match a with
  | AStr s => str_eqb s "all"
  | AList _ => false
  end.

(** [name in a]: membership in a list, occurrence in a string. *)
Definition arg_contains (name : string) (a : pyarg) : bool :=
  match a with
  | AList l => existsb (item_eqb (PStr name)) l
  | AStr s => str_contains name s
  end.

(** The names an argument stands for once it passed [type_checker]. *)
Definition arg_names (a : pyarg) : list string :=
  match a with
  | AList l => item_strs l
  | AStr s => [s]
  end.

(** ** Histograms, files, colours *)

(** A one-dimensional [bh.Histogram] as the code reads it: the edges,
    centers and widths of its axis, its bin values, and the axis metadata.
    Only histograms of one axis that has the attributes [name] and [label]
    (either may be [None]) are covered.  On another [bh.Histogram]
    [store_data] raises [ValueError] or [AttributeError]: a lemma that
    says that the constructor returns says so of files that hold
    histograms of this kind. *)
Record Histogram (F : Type) : Type := {
  h_edges : list F;
  h_centers : list F;
  h_widths : list F;
  h_values : list F;
  h_name : option string;
  h_label : option string
}.

(** What [open(path, 'rb')] and [pickle.load] give for a path. *)
Inductive pickled (F : Type) : Type :=
| Unreadable
| NotHist
| IsHist (h : Histogram F).

Arguments Unreadable {F}.
Arguments NotHist {F}.
Arguments IsHist {F} h.

Inductive color : Type :=
| Named (s : string)
| FromCmap (colormap : string) (x : float).

Definition color_is_black (c : color) : bool :=
  match c with
  | Named s => str_eqb s "black"
  | FromCmap _ _ => false
  end.

Inductive plot_type : Type := Histo | Data.

Inductive rcval : Type :=
| RcStr (s : string)
| RcNum (x : float).

(** The two axes a method is asked to draw on. *)
Inductive axes_id : Type := MainAx | BotAx.

(** Calls into the plotting library, as recorded on the canvas. *)
Inductive draw_call (F : Type) : Type :=
| Bar (ax : axes_id) (centers : list F) (heights : npval F) (widths : list F)
      (bottom : npval F) (edgecolor : option color) (label : option string)
| HistPlot (ax : axes_id) (H : list (Histogram F)) (histtype : string)
      (colors : list color)
| RatioSeries (kind : string) (values : list F) (c : color)
| Grid (ax : axes_id) (axis linestyle : string)
| YTicks (ticks : list float) (labels : list string)
| Decoration (ax : axes_id) (what : string).

Arguments Bar {F}.
Arguments HistPlot {F}.
Arguments RatioSeries {F}.
Arguments Grid {F}.
Arguments YTicks {F}.
Arguments Decoration {F}.

(** The environment of a run: the files, and the library functions whose
    results the code consumes.  Of [mpl.rcParams[key] = value]:
    [rc_valid key value] says whether the validator of [key] accepts
    [value], and [rc_stored key value] is the converted value that it
    returns and that is stored (for ['font.size'], ['12'] is stored as
    [12.0]). *)
Record Env (F : Type) : Type := {
  pickle_load : string -> pickled F;
  np_arange : float -> float -> float -> list float;
  mpl_colormaps : list string;
  rc_valid : string -> rcval -> bool;
  rc_stored : string -> rcval -> rcval
}.

(** ** The plot object *)

(** Attributes written by [check_input]. *)
Record Store (F : Type) : Type := {
  samples : pyarg;
  data : pyarg;
  samples_dict : dict (Histogram F);
  histos_dict : dict (Histogram F);
  histos_list : list (Histogram F);
  data_dict : dict (Histogram F);
  plot_types : dict plot_type;
  is_obj_bh : bool
}.

(** Attributes written by [store_data]; [edges] does not exist before. *)
Record Meta (F : Type) : Type := {
  datasize : option nat;
  edges : option (list F);
  values : list (list F);
  names : list string;
  labels : list string;
  histolabels : list (option string);
  scatterlabels : list (option string)
}.

(** Styling attributes; [gridaxis] and [gridline] exist only once the
    grid-string parser has accepted a string ([None]: no such attribute).
    [hep_style] is the attribute [self.style] of the code, the name of the
    experiment style, named apart from the field [style] of the object. *)
Record Style : Type := {
  hep_style : string;
  shape : string;
  need_grid : bool;
  gridaxis : option string;
  gridline : option string;
  legend_ncols : Z;
  colors_dict : dict color;
  rcps : dict rcval;
  markerstyles : list string
}.

(** Attributes of [RatioPlot]. *)
Record Ratio (F : Type) : Type := {
  reference : option string;
  numerators : dict (Histogram F);
  denominator : dict (Histogram F);
  dvals : npval F;
  ratiovalues : dict (list F);
  custom_ylims : bool;
  ylims : list float;
  ystep : option float;
  ybotrange : list float;
  ybotlabels : list string
}.

Record obj (F : Type) : Type := {
  dir : string;
  is_stack : bool;
  errors : option string;
  store : Store F;
  meta : Meta F;
  style : Style;
  rp : Ratio F;
  (** messages of [logging.error], oldest first *)
  errlog : list string;
  (** calls into the plotting library, oldest first *)
  canvas : list (draw_call F);
  (** the global [mpl.rcParams] *)
  mpl_rcParams : dict rcval
}.

Section Updates.
Context {F : Type}.

Definition with_store (f : Store F -> Store F) (o : obj F) : obj F :=
  {| dir := dir o; is_stack := is_stack o; errors := errors o;
     store := f (store o); meta := meta o; style := style o; rp := rp o;
     errlog := errlog o; canvas := canvas o; mpl_rcParams := mpl_rcParams o |}.

Definition with_meta (f : Meta F -> Meta F) (o : obj F) : obj F :=
  {| dir := dir o; is_stack := is_stack o; errors := errors o;
     store := store o; meta := f (meta o); style := style o; rp := rp o;
     errlog := errlog o; canvas := canvas o; mpl_rcParams := mpl_rcParams o |}.

Definition with_style (f : Style -> Style) (o : obj F) : obj F :=
  {| dir := dir o; is_stack := is_stack o; errors := errors o;
     store := store o; meta := meta o; style := f (style o); rp := rp o;
     errlog := errlog o; canvas := canvas o; mpl_rcParams := mpl_rcParams o |}.

Definition with_rp (f : Ratio F -> Ratio F) (o : obj F) : obj F :=
  {| dir := dir o; is_stack := is_stack o; errors := errors o;
     store := store o; meta := meta o; style := style o; rp := f (rp o);
     errlog := errlog o; canvas := canvas o; mpl_rcParams := mpl_rcParams o |}.

Definition with_errlog (f : list string -> list string) (o : obj F) : obj F :=
  {| dir := dir o; is_stack := is_stack o; errors := errors o;
     store := store o; meta := meta o; style := style o; rp := rp o;
     errlog := f (errlog o); canvas := canvas o; mpl_rcParams := mpl_rcParams o |}.

Definition with_canvas (f : list (draw_call F) -> list (draw_call F))
    (o : obj F) : obj F :=
  {| dir := dir o; is_stack := is_stack o; errors := errors o;
     store := store o; meta := meta o; style := style o; rp := rp o;
     errlog := errlog o; canvas := f (canvas o); mpl_rcParams := mpl_rcParams o |}.

Definition with_mpl (f : dict rcval -> dict rcval) (o : obj F) : obj F :=
  {| dir := dir o; is_stack := is_stack o; errors := errors o;
     store := store o; meta := meta o; style := style o; rp := rp o;
     errlog := errlog o; canvas := canvas o; mpl_rcParams := f (mpl_rcParams o) |}.

(** *** Store *)

Definition set_samples (v : pyarg) (s : Store F) : Store F :=
  {| samples := v; data := data s; samples_dict := samples_dict s;
     histos_dict := histos_dict s; histos_list := histos_list s;
     data_dict := data_dict s; plot_types := plot_types s;
     is_obj_bh := is_obj_bh s |}.

Definition set_data (v : pyarg) (s : Store F) : Store F :=
  {| samples := samples s; data := v; samples_dict := samples_dict s;
     histos_dict := histos_dict s; histos_list := histos_list s;
     data_dict := data_dict s; plot_types := plot_types s;
     is_obj_bh := is_obj_bh s |}.

(** The statements of the loader for a sample routed to the data role:
    [is_obj_bh = True], [samples_dict[k] = h], [data_dict[k] = h],
    [plot_types[k] = 'data']. *)
Definition register_data (k : string) (h : Histogram F) (s : Store F) : Store F :=
  {| samples := samples s; data := data s;
     samples_dict := dict_set (samples_dict s) k h;
     histos_dict := histos_dict s; histos_list := histos_list s;
     data_dict := dict_set (data_dict s) k h;
     plot_types := dict_set (plot_types s) k Data;
     is_obj_bh := true |}.

(** The same for the histogram role: [samples_dict[k] = h],
    [histos_dict[k] = h], [histos_list.append(h)],
    [plot_types[k] = 'histo']. *)
Definition register_histo (k : string) (h : Histogram F) (s : Store F) : Store F :=
  {| samples := samples s; data := data s;
     samples_dict := dict_set (samples_dict s) k h;
     histos_dict := dict_set (histos_dict s) k h;
     histos_list := histos_list s ++ [h];
     data_dict := data_dict s;
     plot_types := dict_set (plot_types s) k Histo;
     is_obj_bh := true |}.

(** *** Style *)

Definition set_shape (v : string) (s : Style) : Style :=
  {| hep_style := hep_style s; shape := v; need_grid := need_grid s; gridaxis := gridaxis s;
     gridline := gridline s; legend_ncols := legend_ncols s;
     colors_dict := colors_dict s; rcps := rcps s;
     markerstyles := markerstyles s |}.

Definition set_need_grid (v : bool) (s : Style) : Style :=
  {| hep_style := hep_style s; shape := shape s; need_grid := v; gridaxis := gridaxis s;
     gridline := gridline s; legend_ncols := legend_ncols s;
     colors_dict := colors_dict s; rcps := rcps s;
     markerstyles := markerstyles s |}.

(** [self.gridaxis = a; self.gridline = l] *)
Definition set_grid (a l : string) (s : Style) : Style :=
  {| hep_style := hep_style s; shape := shape s; need_grid := need_grid s; gridaxis := Some a;
     gridline := Some l; legend_ncols := legend_ncols s;
     colors_dict := colors_dict s; rcps := rcps s;
     markerstyles := markerstyles s |}.

Definition set_legend_ncols (v : Z) (s : Style) : Style :=
  {| hep_style := hep_style s; shape := shape s; need_grid := need_grid s; gridaxis := gridaxis s;
     gridline := gridline s; legend_ncols := v;
     colors_dict := colors_dict s; rcps := rcps s;
     markerstyles := markerstyles s |}.

Definition set_colors_dict (v : dict color) (s : Style) : Style :=
  {| hep_style := hep_style s; shape := shape s; need_grid := need_grid s; gridaxis := gridaxis s;
     gridline := gridline s; legend_ncols := legend_ncols s;
     colors_dict := v; rcps := rcps s; markerstyles := markerstyles s |}.

Definition set_rcps (v : dict rcval) (s : Style) : Style :=
  {| hep_style := hep_style s; shape := shape s; need_grid := need_grid s; gridaxis := gridaxis s;
     gridline := gridline s; legend_ncols := legend_ncols s;
     colors_dict := colors_dict s; rcps := v; markerstyles := markerstyles s |}.

End Updates.

Section RatioUpdates.
Context {F : Type}.

Definition set_numerators (v : dict (Histogram F)) (r : Ratio F) : Ratio F :=
  {| reference := reference r; numerators := v; denominator := denominator r;
     dvals := dvals r; ratiovalues := ratiovalues r;
     custom_ylims := custom_ylims r; ylims := ylims r; ystep := ystep r;
     ybotrange := ybotrange r; ybotlabels := ybotlabels r |}.

Definition set_denominator (v : dict (Histogram F)) (r : Ratio F) : Ratio F :=
  {| reference := reference r; numerators := numerators r; denominator := v;
     dvals := dvals r; ratiovalues := ratiovalues r;
     custom_ylims := custom_ylims r; ylims := ylims r; ystep := ystep r;
     ybotrange := ybotrange r; ybotlabels := ybotlabels r |}.

Definition set_dvals (v : npval F) (r : Ratio F) : Ratio F :=
  {| reference := reference r; numerators := numerators r;
     denominator := denominator r; dvals := v; ratiovalues := ratiovalues r;
     custom_ylims := custom_ylims r; ylims := ylims r; ystep := ystep r;
     ybotrange := ybotrange r; ybotlabels := ybotlabels r |}.

Definition set_ratiovalues (v : dict (list F)) (r : Ratio F) : Ratio F :=
  {| reference := reference r; numerators := numerators r;
     denominator := denominator r; dvals := dvals r; ratiovalues := v;
     custom_ylims := custom_ylims r; ylims := ylims r; ystep := ystep r;
     ybotrange := ybotrange r; ybotlabels := ybotlabels r |}.

(** [self.custom_ylims = True; self.ylims = l; self.ystep = s] *)
Definition set_ylims (l : list float) (s : option float) (r : Ratio F) : Ratio F :=
  {| reference := reference r; numerators := numerators r;
     denominator := denominator r; dvals := dvals r;
     ratiovalues := ratiovalues r;
     custom_ylims := true; ylims := l; ystep := s;
     ybotrange := ybotrange r; ybotlabels := ybotlabels r |}.

Definition set_ybotrange (v : list float) (r : Ratio F) : Ratio F :=
  {| reference := reference r; numerators := numerators r;
     denominator := denominator r; dvals := dvals r;
     ratiovalues := ratiovalues r;
     custom_ylims := custom_ylims r; ylims := ylims r; ystep := ystep r;
     ybotrange := v; ybotlabels := ybotlabels r |}.

Definition set_ybotlabels (v : list string) (r : Ratio F) : Ratio F :=
  {| reference := reference r; numerators := numerators r;
     denominator := denominator r; dvals := dvals r;
     ratiovalues := ratiovalues r;
     custom_ylims := custom_ylims r; ylims := ylims r; ystep := ystep r;
     ybotrange := ybotrange r; ybotlabels := v |}.

End RatioUpdates.

(** ** Methods as computations on the object *)

Definition M (F A : Type) : Type := obj F -> outcome A * obj F.

Definition ret {F A} (a : A) : M F A := fun o => (Ok a, o).

Definition bind {F A B} (m : M F A) (k : A -> M F B) : M F B :=
  fun o =>
    match m o with
    | (Ok a, o') => k a o'
    | (Raise e, o') => (Raise e, o')
    end.

Definition raise {F A} (e : exn) : M F A := fun o => (Raise e, o).

(** A Python expression that may raise, evaluated for its value. *)
Definition lift {F A} (r : outcome A) : M F A := fun o => (r, o).

Definition gets {F A} (f : obj F -> A) : M F A := fun o => (Ok (f o), o).

Definition modify {F} (f : obj F -> obj F) : M F unit := fun o => (Ok tt, f o).

Notation "x <- m ;; k" := (bind m (fun x => k))
  (at level 61, m at next level, right associativity).
Notation "m ;; k" := (bind m (fun _ => k))
  (at level 61, right associativity).

(** [logging.error(msg)] *)
Definition logging_error {F} (msg : string) : M F unit :=
  modify (with_errlog (fun l => l ++ [msg])).

(** A call into the plotting library. *)
Definition draw {F} (c : draw_call F) : M F unit :=
  modify (with_canvas (fun l => l ++ [c])).

(** Reading an attribute that may not exist. *)
Definition getattr {F A} (f : obj F -> option A) : M F A :=
  fun o =>
    match f o with
    | Some a => (Ok a, o)
    | None => (Raise AttributeError, o)
    end.

(** [for x in l: body(x)] *)
Fixpoint for_each {F A} (l : list A) (body : A -> M F unit) : M F unit :=
  match l with
  | [] => ret tt
  | x :: l' => body x ;; for_each l' body
  end.

(** [for x in l: ...] whose body may [break]: the body answers whether the
    loop goes on. *)
Fixpoint for_break {F A} (l : list A) (body : A -> M F bool) : M F unit :=
  match l with
  | [] => ret tt
  | x :: l' => go <- body x ;; if go then for_break l' body else ret tt
  end.

(** [enumerate(l)] *)
Definition enumerate {A} (l : list A) : list (nat * A) :=
  combine (seq 0 (List.length l)) l.

(** ** EmptyPlot *)

Section EmptyPlot.
Context {F : Type}.

(** [type_checker(obj, str)] on a list or a string. *)
Definition type_checker (a : pyarg) : M F bool :=
  match a with
  | AList l =>
      if forallb is_str l then ret true
      else logging_error "All elements in list must be <class 'str'> objects" ;;
           ret false
  | AStr _ => ret true
  end.

Definition linestyles : list string := ["-"; "--"; "-."; ":"]%string.

(** [gridstring_converter(string)] *)
Definition gridstring_converter (s : string) : M F unit :=
  c0 <- lift (str_head s) ;;
  if (str_eqb c0 "x" || str_eqb c0 "y") && str_in (str_drop 1 s) linestyles
  then modify (with_style (set_grid c0 (str_drop 1 s)))
  else if str_eqb (str_take 4 s) "both" && str_in (str_drop 4 s) linestyles
  then modify (with_style (set_grid (str_take 4 s) (str_drop 4 s)))
  else logging_error
         "Invalid grid string argument. Please enter 'axis'+'linestyle' string, e.g. 'y:' or 'x--'".

(** [config_rcParams(settings_dict)]: [mpl.rcParams[key] = value] for
    every entry; an unknown key and a refused value raise, and an accepted
    value is stored as its validator converts it. *)
Definition config_rcParams (env : Env F) (settings : dict rcval) : M F unit :=
  for_each settings (fun kv =>
    g <- gets (@mpl_rcParams F) ;;
    match dict_get g (fst kv) with
    | None => raise KeyError
    | Some _ =>
        if rc_valid env (fst kv) (snd kv)
        then modify (with_mpl (fun g =>
               dict_set g (fst kv) (rc_stored env (fst kv) (snd kv))))
        else raise ValueError
    end).

End EmptyPlot.

(** ** Hist1D *)

Section MetaUpdates.
Context {F : Type}.

(** [self.datasize, = first.axes.size; self.edges = list(first.axes[0].edges)] *)
Definition set_first_info (first : Histogram F) (m : Meta F) : Meta F :=
  {| datasize := Some (List.length (h_values first));
     edges := Some (h_edges first);
     values := values m; names := names m; labels := labels m;
     histolabels := histolabels m; scatterlabels := scatterlabels m |}.

Definition set_values (v : list (list F)) (m : Meta F) : Meta F :=
  {| datasize := datasize m; edges := edges m; values := v;
     names := names m; labels := labels m;
     histolabels := histolabels m; scatterlabels := scatterlabels m |}.

(** [self.names.append(n); self.labels.append(l)] *)
Definition push_name_label (n l : string) (m : Meta F) : Meta F :=
  {| datasize := datasize m; edges := edges m; values := values m;
     names := names m ++ [n]; labels := labels m ++ [l];
     histolabels := histolabels m; scatterlabels := scatterlabels m |}.

Definition push_scatterlabel (l : option string) (m : Meta F) : Meta F :=
  {| datasize := datasize m; edges := edges m; values := values m;
     names := names m; labels := labels m;
     histolabels := histolabels m; scatterlabels := scatterlabels m ++ [l] |}.

Definition push_histolabel (l : option string) (m : Meta F) : Meta F :=
  {| datasize := datasize m; edges := edges m; values := values m;
     names := names m; labels := labels m;
     histolabels := histolabels m ++ [l]; scatterlabels := scatterlabels m |}.

End MetaUpdates.

Definition str_truthy (s : string) : bool :=
  match s with
  | EmptyString => false
  | String _ _ => true
  end.

(** [x if x else ''] for a string or [None]. *)
Definition str_or_empty (x : option string) : string :=
  match x with
  | Some s => s
  | None => EmptyString
  end.

Definition opt_str_truthy (x : option string) : bool :=
  match x with
  | Some (String _ _) => true
  | _ => false
  end.

Definition opt_str_is (x : option string) (s : string) : bool :=
  match x with
  | Some t => str_eqb t s
  | None => false
  end.

Definition nonempty {A} (l : list A) : bool :=
  match l with [] => false | _ :: _ => true end.

Definition float_of_nat (n : nat) : float :=
  PrimFloat.of_uint63 (Uint63.of_Z (Z.of_nat n)).

(** What [get_samples_colors] returns for the colours: one colour when
    there is exactly one, a list otherwise. *)
Inductive colors_ret : Type :=
| OneColor (c : color)
| ColorList (l : list color).

(** [if type(_clist) != list: _clist = [_clist]] *)
Definition as_color_list (c : colors_ret) : list color :=
  match c with
  | OneColor c => [c]
  | ColorList l => l
  end.

Definition color_order : list color :=
  map Named ["black"; "red"; "blue"; "limegreen"; "orangered"; "magenta";
             "yellow"; "aqua"; "chocolate"; "darkviolet"]%string.

Section Hist1D.
Context {F : Type} {num : Numeric F}.
Variable env : Env F.

(** *** Loading: [check_input] *)

(** The body of the loop over [self.samples], with its [try]: the answer
    is [false] where the code says [break]. *)
Definition load_sample (samplename : string) : M F bool :=
  d <- gets (@dir F) ;;
  match pickle_load env (d ++ samplename ++ ".pkl")%string with
  | Unreadable =>
      logging_error ("There is no file named " ++ samplename
                       ++ ".pkl containing a hist object")%string ;;
      ret false
  | NotHist =>
      logging_error ("The file " ++ samplename
                       ++ ".pkl does not contain a hist object")%string ;;
      ret false
  | IsHist h =>
      dat <- gets (fun o => data (store o)) ;;
      (if arg_contains samplename dat || arg_is_all dat
       then modify (with_store (register_data samplename h))
       else modify (with_store (register_histo samplename h))) ;;
      ret true
  end.

(** The block of [check_input] on [self.data]: a single name becomes a
    list, and every name that is not among the samples is reported. *)
Definition check_data_names (smp : pyarg) : M F unit :=
  dat <- gets (fun o => data (store o)) ;;
  okd <- (if arg_truthy dat then type_checker dat else ret false) ;;
  if okd && negb (arg_is_all dat) then
    (if arg_is_list dat then ret tt
     else modify (with_store (set_data (AList (map PStr (arg_names dat)))))) ;;
    dat' <- gets (fun o => data (store o)) ;;
    for_each (arg_names dat') (fun samplename =>
      if negb (arg_contains samplename smp)
      then logging_error ("There is no variable named " ++ samplename
                            ++ " in 'samples'")%string
      else ret tt)
  else ret tt.

Definition check_input : M F unit :=
  smp <- gets (fun o => samples (store o)) ;;
  if arg_truthy smp then
    ok <- type_checker smp ;;
    if ok then
      check_data_names smp ;;
      (if arg_is_list smp then ret tt
       else modify (with_store (set_samples (AList (map PStr (arg_names smp)))))) ;;
      smp' <- gets (fun o => samples (store o)) ;;
      for_break (arg_names smp') load_sample
    else logging_error "Sample entry must be strings"
  else logging_error "Enter a non-empty list of samples to plot.".

(** *** Colours *)

(** [colorlist_gen(n, colormap, reverse)] *)
Definition colorlist_gen (n : nat) (colormap : string) (reverse : bool)
  : outcome (list color) :=
  if str_in colormap (mpl_colormaps env) then
    match n with
    | O => Raise ZeroDivisionError
    | S _ =>
        let sequence :=
          map (fun i => PrimFloat.div i 100%float)
              (np_arange env 2%float 98%float
                 (PrimFloat.div 96%float (float_of_nat n))) in
        Ok (map (FromCmap colormap) (if reverse then rev sequence else sequence))
    end
  else Raise ValueError.

Definition set_color (samplename : string) (c : color) : M F unit :=
  modify (with_style (fun s =>
    set_colors_dict (dict_set (colors_dict s) samplename c) s)).

(** [assign_colors(custom)] *)
Definition assign_colors (custom : option (list color)) : M F unit :=
  keys <- gets (fun o => dict_keys (samples_dict (store o))) ;;
  for_each (enumerate keys) (fun p =>
    let '(i, samplename) := p in
    match custom with
    | Some (c0 :: cs) =>
        c <- lift (list_index (c0 :: cs) i) ;;
        set_color samplename c
    | _ =>
        smp <- gets (fun o => samples (store o)) ;;
        stack <- gets (@is_stack F) ;;
        if (10 <? arg_len smp)%nat || stack then
          cmaplist <- lift (colorlist_gen (arg_len smp) "gist_rainbow" false) ;;
          c <- lift (list_index cmaplist i) ;;
          set_color samplename c
        else
          c <- lift (list_index color_order i) ;;
          set_color samplename c
    end).

(** [get_samples_colors(d)] *)
Definition get_samples_colors (d : dict (Histogram F))
  : M F (list (Histogram F) * colors_ret) :=
  cd <- gets (fun o => colors_dict (style o)) ;;
  colors <- lift (map_outcome (dict_index cd) (dict_keys d)) ;;
  match colors with
  | [c] => ret (dict_values d, OneColor c)
  | _ => ret (dict_values d, ColorList colors)
  end.

(** *** [store_data] *)

Definition store_data : M F unit :=
  hd <- gets (fun o => histos_dict (store o)) ;;
  first_sample <-
    (if nonempty hd then
       k <- lift (dict_first_key hd) ;; lift (dict_index hd k)
     else
       dd <- gets (fun o => data_dict (store o)) ;;
       k <- lift (dict_first_key dd) ;; lift (dict_index dd k)) ;;
  modify (with_meta (set_first_info first_sample)) ;;
  sd <- gets (fun o => samples_dict (store o)) ;;
  modify (with_meta (set_values (map (@h_values F) (dict_values sd)))) ;;
  for_each sd (fun kv =>
    let '(samplename, sample) := kv in
    modify (with_meta (push_name_label (str_or_empty (h_name sample))
                                       (str_or_empty (h_label sample)))) ;;
    dat <- gets (fun o => data (store o)) ;;
    if arg_contains samplename dat || arg_is_all dat
    then modify (with_meta (push_scatterlabel (h_label sample)))
    else modify (with_meta (push_histolabel (h_label sample)))).

(** *** The constructor *)

Definition default_rcps : dict rcval :=
  [("xaxis.labellocation", RcStr "right"); ("yaxis.labellocation", RcStr "top");
   ("axes.labelpad", RcNum 1); ("axes.titlesize", RcNum 20);
   ("font.size", RcNum 10); ("lines.linewidth", RcNum 1);
   ("lines.marker", RcStr "."); ("lines.markersize", RcNum 8);
   ("legend.handletextpad", RcNum 0x1.3333333333333p-2);
   ("legend.columnspacing", RcNum 0.5);
   ("legend.labelspacing", RcNum 0x1.999999999999ap-4);
   ("legend.markerscale", RcNum 0x1.199999999999ap+0)]%string.

(** The object as the first statements of [EmptyPlot.__init__] and
    [Hist1D.__init__] leave it, before [check_input] runs.  [markers] is
    the key set of [mpl.markers.MarkerStyle.markers]; [mpl] and [lg] are
    the global [rcParams] and the log at that moment.  The attributes that
    the constructor assigns only later ([shape], [need_grid],
    [legend_ncols], and those of [store_data] and [RatioPlot]) start with
    the value of that first assignment, or as absent.  The keyword
    [style] is left at its default, ['ATLAS']. *)
Definition new_Hist1D (directory : string) (smp dat : pyarg)
    (errs : option string) (stack : bool)
    (markers : list string) (mpl : dict rcval) (lg : list string) : obj F :=
  {| dir := directory; is_stack := stack; errors := errs;
     store := {| samples := smp; data := dat; samples_dict := [];
                 histos_dict := []; histos_list := []; data_dict := [];
                 plot_types := []; is_obj_bh := false |};
     meta := {| datasize := None; edges := None; values := []; names := [];
                labels := []; histolabels := []; scatterlabels := [] |};
     style := {| hep_style := "ATLAS";
                 shape := if stack then "full" else "hollow";
                 need_grid := false; gridaxis := None; gridline := None;
                 legend_ncols := 1; colors_dict := []; rcps := default_rcps;
                 markerstyles := markers |};
     rp := {| reference := None; numerators := []; denominator := [];
              dvals := NpArray []; ratiovalues := []; custom_ylims := false;
              ylims := []; ystep := None; ybotrange := []; ybotlabels := [] |};
     errlog := lg; canvas := []; mpl_rcParams := mpl |}.

(** The rest of [Hist1D.__init__]. *)
Definition Hist1D_init : M F unit :=
  check_input ;;
  stack <- gets (@is_stack F) ;;
  modify (with_style (set_shape (if stack then "full" else "hollow")%string)) ;;
  modify (with_style (set_need_grid false)) ;;
  modify (with_style (set_legend_ncols 1)) ;;
  assign_colors None ;;
  store_data.

End Hist1D.

(** ** Derived series *)

Section Derived.
Context {F : Type} {num : Numeric F}.

(** [np.sum(rows, axis=0)]: no row gives the scalar [0.0]; rows of one
    length are added bin by bin, first row first; rows of different
    lengths are refused. *)
Definition np_sum_axis0 (rows : list (list F)) : outcome (npval F) :=
  match rows with
  | [] => Ok (NpScalar num_zero)
  | r :: rs =>
      if forallb (fun r' => Nat.eqb (List.length r') (List.length r)) rs
      then Ok (NpArray (fold_left (zip_with num_add) rs r))
      else Raise ValueError
  end.

(** [get_stackvalues(listofhist)] *)
Definition get_stackvalues (listofhist : list (Histogram F)) : outcome (npval F) :=
  match listofhist with
  | [h] => Ok (NpArray (h_values h))
  | _ =>
      let valueslist := map (@h_values F) listofhist in
      np_sum_axis0 valueslist
  end.

(** The two branches that [histbins_errs] computes for one bin value:
    [(heights, _bottom)]. *)
Definition errbars_at (ratio : bool) (v : F) : F * F :=
  let poisson := num_sqrt v in
  if ratio then
    (num_mul num_two (num_sub (num_div (num_add poisson v) v) num_one),
     num_sub num_one (num_sub (num_div (num_add poisson v) v) num_one))
  else
    (num_mul num_two poisson, num_sub v poisson).

Definition errbars (ratio : bool) (vals : npval F) : npval F * npval F :=
  (np_map (fun v => fst (errbars_at ratio v)) vals,
   np_map (fun v => snd (errbars_at ratio v)) vals).

(** The inner loop of [ratiovalues_calculator]: appends one ratio per
    pair of [zip(sample.values(), self.dvals)]. *)
Fixpoint ratio_loop (pairs : list (F * F)) (acc : list F) : list F :=
  match pairs with
  | [] => acc
  | (n, m) :: rest =>
      if num_ne0 m
      then ratio_loop rest (acc ++ [num_div n m])
      else ratio_loop rest (acc ++ [num_zero])
  end.

Definition ratio_of (nvals dv : list F) : list F :=
  ratio_loop (combine nvals dv) [].

(** The band a bar covers: from [bottom] to [bottom + height]. *)
Definition np_add (a b : npval F) : npval F :=
  match a, b with
  | NpScalar x, NpScalar y => NpScalar (num_add x y)
  | NpScalar x, NpArray ys => NpArray (map (num_add x) ys)
  | NpArray xs, NpScalar y => NpArray (map (fun x => num_add x y) xs)
  | NpArray xs, NpArray ys => NpArray (zip_with num_add xs ys)
  end.

Definition band_lower (heights bottom : npval F) : npval F := bottom.
Definition band_upper (heights bottom : npval F) : npval F := np_add bottom heights.

End Derived.

Section Hist1DPlot.
Context {F : Type} {num : Numeric F}.
Variable env : Env F.

(** The body of the loop of [histbins_errs] over [enumerate(histlist)]. *)
Definition errs_loop_body (ax : axes_id) (ratio : bool) (_centers _width : list F)
    (_clist : list color) (iH : nat * Histogram F) : M F unit :=
  let '(i, H) := iH in
  let '(heights, _bottom) := errbars ratio (NpArray (h_values H)) in
  c <- lift (list_index _clist i) ;;
  draw (Bar ax _centers heights _width _bottom (Some c)
            (if color_is_black c then Some "Uncertainty"%string else None)).

(** [histbins_errs(ax, ratio)] *)
Definition histbins_errs (ax : axes_id) (ratio : bool) : M F unit :=
  hd <- gets (fun o => histos_dict (store o)) ;;
  p <- get_samples_colors hd ;;
  let histlist := fst p in
  let _clist := as_color_list (snd p) in
  h0 <- lift (list_first histlist) ;;
  let _centers := h_centers h0 in
  let _width := h_widths h0 in
  stack <- gets (@is_stack F) ;;
  if stack then
    vals <- lift (get_stackvalues histlist) ;;
    let '(heights, _bottom) := errbars ratio vals in
    draw (Bar ax _centers heights _width _bottom None (Some "Uncertainty"%string))
  else
    for_each (enumerate histlist) (errs_loop_body ax ratio _centers _width _clist).

(** [self.rcps[k]], read for an argument of a call into the plotting
    library. *)
Definition rcps_index (k : string) : M F rcval :=
  rc <- gets (fun o => rcps (style o)) ;;
  lift (dict_index rc k).

(** [histbins_plotter(ax)] *)
Definition histbins_plotter (ax : axes_id) : M F unit :=
  hd <- gets (fun o => histos_dict (store o)) ;;
  p <- get_samples_colors hd ;;
  sh <- gets (fun o => shape (style o)) ;;
  if str_eqb sh "hollow" then
    _ <- rcps_index "lines.linewidth" ;;
    draw (HistPlot ax (fst p) "step" (as_color_list (snd p)))
  else if str_eqb sh "full" then
    _ <- rcps_index "lines.linewidth" ;;
    draw (HistPlot ax (fst p) "fill" (as_color_list (snd p)))
  else ret tt.

(** [scatterdata_plotter(ax)] *)
Definition scatterdata_plotter (ax : axes_id) : M F unit :=
  dd <- gets (fun o => data_dict (store o)) ;;
  p <- get_samples_colors dd ;;
  _ <- rcps_index "lines.marker" ;;
  _ <- rcps_index "lines.markersize" ;;
  draw (HistPlot ax (fst p) "errorbar" (as_color_list (snd p))).

(** [if self.need_grid: ax.grid(axis=self.gridaxis, linestyle=self.gridline, ...)] *)
Definition draw_grid (ax : axes_id) : M F unit :=
  ng <- gets (fun o => need_grid (style o)) ;;
  if ng then
    a <- getattr (fun o => gridaxis (style o)) ;;
    l <- getattr (fun o => gridline (style o)) ;;
    draw (Grid ax a l)
  else ret tt.

(** The statements of [hist_plot] before the grid is drawn. *)
Definition hist_plot_body (ax : axes_id) : M F unit :=
  hd <- gets (fun o => histos_dict (store o)) ;;
  (if nonempty hd then histbins_plotter ax else ret tt) ;;
  dat <- gets (fun o => data (store o)) ;;
  (if arg_truthy dat then scatterdata_plotter ax else ret tt) ;;
  errs <- gets (@errors F) ;;
  (if opt_str_is errs "hist" || opt_str_is errs "all"
   then histbins_errs ax false else ret tt) ;;
  _ <- rcps_index "font.size" ;;
  draw (Decoration ax "tick_params") ;;
  draw (Decoration ax "ticklabel_format").

(** [set_explabel(ax)]: the label text is bound for the styles ['ATLAS'],
    ['LHCb1'] and ['LHCb2'] only; for another style [for label in text]
    reads a local variable that was never assigned. *)
Definition has_label_text (st : string) : bool :=
  str_eqb st "ATLAS" || str_eqb st "LHCb1" || str_eqb st "LHCb2".

Definition set_explabel (ax : axes_id) : M F unit :=
  st <- gets (fun o => hep_style (style o)) ;;
  if has_label_text st then draw (Decoration ax "explabel")
  else raise UnboundLocalError.

(** The statements of [hist_plot] after the grid: legend, experiment
    label, title and axis labels; but for the test of the style in
    [set_explabel], all handed to the plotting library. *)
Definition hist_plot_finish (ax : axes_id) : M F unit :=
  draw (Decoration ax "legend") ;;
  set_explabel ax ;;
  draw (Decoration ax "yscale_legend") ;;
  draw (Decoration ax "title") ;;
  draw (Decoration ax "xlabel") ;;
  draw (Decoration ax "ylabel").

(** [hist_plot(ax)] *)
Definition hist_plot (ax : axes_id) : M F unit :=
  hist_plot_body ax ;;
  draw_grid ax ;;
  hist_plot_finish ax.

(** *** [plot_options] *)

Definition float_truthy (x : float) : bool := negb (PrimFloat.eqb x 0%float).

Definition set_rc (k : string) (v : rcval) : M F unit :=
  modify (with_style (fun s => set_rcps (dict_set (rcps s) k v) s)).

(** The three blocks of [plot_options]: the shape, the grid, and the
    remaining options. *)
Definition plot_options_shape (shp : option string) : M F unit :=
  if opt_str_truthy shp then
    stack <- gets (@is_stack F) ;;
    hd <- gets (fun o => histos_dict (store o)) ;;
    if opt_str_is shp "full" && negb stack && (1 <? dict_len hd)%nat then
      logging_error "Cannot select a full shape if it's not a stack plot"
    else if opt_str_is shp "full" || opt_str_is shp "hollow" then
      modify (with_style (set_shape (str_or_empty shp)))
    else logging_error "'shape' must be either 'full' or 'hollow'"
  else ret tt.

Definition plot_options_grid (gridstring : string) : M F unit :=
  if str_truthy gridstring then
    gridstring_converter gridstring ;;
    modify (with_style (set_need_grid true))
  else ret tt.

Definition plot_options_rest (shp : option string)
    (marker : option string) (markersize : option float)
    (legendcols : option Z) (rcp_kw : dict rcval) : M F unit :=
  g <- gets (@mpl_rcParams F) ;;
  for_each (filter (fun kv => match dict_get g (fst kv) with
                              | Some _ => true | None => false end) rcp_kw)
           (fun kv => set_rc (fst kv) (snd kv)) ;;
  r <- gets (fun o => rcps (style o)) ;;
  config_rcParams env r ;;
  (if opt_str_truthy marker then
     ms <- gets (fun o => markerstyles (style o)) ;;
     if str_in (str_or_empty marker) ms
     then set_rc "lines.marker" (RcStr (str_or_empty marker))
     else ret tt
   else ret tt) ;;
  (match markersize with
   | Some x => if float_truthy x then set_rc "lines.markersize" (RcNum x) else ret tt
   | None => ret tt
   end) ;;
  (match legendcols with
   | Some n => if Z.eqb n 0 then ret tt else modify (with_style (set_legend_ncols n))
   | None => ret tt
   end) ;;
  stack <- gets (@is_stack F) ;;
  smp <- gets (fun o => samples (store o)) ;;
  if stack && opt_str_is shp "hollow" && (arg_len smp <=? 10)%nat
  then assign_colors env (Some color_order)
  else ret tt.

(** [plot_options(shape, gridstring, marker, markersize, legendcols, rcp_kw)] *)
Definition plot_options (shp : option string) (gridstring : string)
    (marker : option string) (markersize : option float)
    (legendcols : option Z) (rcp_kw : dict rcval) : M F unit :=
  plot_options_shape shp ;;
  plot_options_grid gridstring ;;
  plot_options_rest shp marker markersize legendcols rcp_kw.

End Hist1DPlot.

(** ** Formatting a float with [f'{x:.pf}']

    Python prints the decimal expansion of the exact binary value,
    correctly rounded to [p] places with ties to even; the sign is kept
    also when the digits round to zero; [nan] and the infinities print as
    words.  [Prim2SF] gives the exact value as [m * 2^e]. *)

Definition digit_char (d : Z) : ascii := ascii_of_nat (48 + Z.to_nat d).

Fixpoint digits_loop (fuel : nat) (n : Z) (acc : string) : string :=
  match fuel with
  | O => acc
  | S fuel' =>
      let acc' := String (digit_char (n mod 10)) acc in
      if (n / 10 =? 0)%Z then acc' else digits_loop fuel' (n / 10) acc'
  end.

(** Decimal digits of a natural number, without leading zeros. *)
Definition str_of_Z (n : Z) : string :=
  digits_loop (S (Z.to_nat (Z.log2 n))) n EmptyString.

(** The last [p] decimal digits of [n], padded with zeros, before [acc]. *)
Fixpoint fixed_digits (p : nat) (n : Z) (acc : string) : string :=
  match p with
  | O => acc
  | S p' => fixed_digits p' (n / 10) (String (digit_char (n mod 10)) acc)
  end.

(** [a / b] rounded to the nearest integer, ties to even. *)
Definition round_half_even (a b : Z) : Z :=
  let q := (a / b)%Z in
  let r := (a mod b)%Z in
  match (2 * r ?= b)%Z with
  | Lt => q
  | Gt => (q + 1)%Z
  | Eq => if Z.even q then q else (q + 1)%Z
  end.

(** [m * 2^e * 10^p] rounded to an integer. *)
Definition scaled_round (p : nat) (m : positive) (e : Z) : Z :=
  if (0 <=? e)%Z then (Z.pos m * 2 ^ e * 10 ^ Z.of_nat p)%Z
  else round_half_even (Z.pos m * 10 ^ Z.of_nat p) (2 ^ (- e)).

Definition format_digits (p : nat) (neg : bool) (q : Z) : string :=
  ((if neg then "-" else "")
     ++ str_of_Z (q / 10 ^ Z.of_nat p)
     ++ match p with
        | O => ""
        | S _ => String "." (fixed_digits p (q mod 10 ^ Z.of_nat p) "")
        end)%string.

Definition format_spec (p : nat) (x : spec_float) : string :=
  match x with
  | S754_nan => "nan"
  | S754_infinity s => if s then "-inf" else "inf"
  | S754_zero s => format_digits p s 0
  | S754_finite s m e => format_digits p s (scaled_round p m e)
  end.

Definition format_fixed (p : nat) (x : float) : string :=
  format_spec p (Prim2SF x).

(** [s[i]] *)
Definition str_index (s : string) (i : nat) : outcome string :=
  match String.get i s with
  | Some c => Ok (String c EmptyString)
  | None => Raise IndexError
  end.

(** ** Tick labels of the ratio panel *)

(** [decimals = num.split('.')[1]; d1 = decimals[0]; d2 = decimals[1]] *)
Definition decimals_of (num : string) : outcome (string * string) :=
  obind (list_index (str_split "." num) 1) (fun decimals =>
  obind (str_index decimals 0) (fun d1 =>
  obind (str_index decimals 1) (fun d2 =>
  Ok (d1, d2)))).

(** The loop over [temprange[1:-1]], started with [need1]; the answer is
    [(need1, need2)]. *)
Fixpoint need_loop (nums : list string) (need1 : bool) : outcome (bool * bool) :=
  match nums with
  | [] => Ok (need1, false)
  | num :: rest =>
      obind (decimals_of num) (fun d =>
        if negb (str_eqb (snd d) "0") then Ok (need1, true)
        else need_loop rest (if negb (str_eqb (fst d) "0") then true else need1))
  end.

(** The labels as first assigned to [self.ybotlabels]. *)
Definition format_labels (ybotrange : list float) : outcome (list string) :=
  let temprange := map (format_fixed 2) ybotrange in
  obind (need_loop (interior temprange) false) (fun n =>
    if snd n then Ok (map (format_fixed 2) ybotrange)
    else if fst n then Ok (map (format_fixed 1) ybotrange)
    else Ok (map (format_fixed 0) ybotrange)).

(** [if not edges: labels[0] = ''; labels[-1] = ''] *)
Definition blank_edges (edges : bool) (labels : list string) : outcome (list string) :=
  if edges then Ok labels
  else obind (set_first EmptyString labels) (set_last EmptyString).

(** Lines 912 to 938 of [custom_yaxis], from the ticks to the labels. *)
Definition tick_labels (ybotrange : list float) (edges : bool) : outcome (list string) :=
  obind (format_labels ybotrange) (blank_edges edges).

(** ** RatioPlot *)

Section RatioPlot.
Context {F : Type} {num : Numeric F}.
Variable env : Env F.

(** [check_reference()] *)
Definition check_reference : M F unit :=
  ref <- gets (fun o => reference (rp o)) ;;
  if opt_str_truthy ref then
    smp <- gets (fun o => samples (store o)) ;;
    if arg_contains (str_or_empty ref) smp then
      sd <- gets (fun o => samples_dict (store o)) ;;
      for_each sd (fun kv =>
        let '(samplename, sample) := kv in
        if str_eqb samplename (str_or_empty ref) then
          modify (with_rp (fun r =>
            set_denominator (dict_set (denominator r) samplename sample) r)) ;;
          den <- gets (fun o => denominator (rp o)) ;;
          k <- lift (dict_first_key den) ;;
          first <- lift (dict_index den k) ;;
          modify (with_rp (set_dvals (NpArray (h_values first))))
        else
          modify (with_rp (fun r =>
            set_numerators (dict_set (numerators r) samplename sample) r)))
    else if opt_str_is ref "total" then
      dat <- gets (fun o => data (store o)) ;;
      if arg_truthy dat && Nat.eqb (arg_len dat) 1 then
        dd <- gets (fun o => data_dict (store o)) ;;
        modify (with_rp (set_numerators dd)) ;;
        hl <- gets (fun o => histos_list (store o)) ;;
        v <- lift (get_stackvalues hl) ;;
        modify (with_rp (set_dvals v))
      else
        logging_error
          "Please specify one (and only one) sample that will be plotted as data using the 'data' argument"
    else logging_error "Selected reference is not in 'samples'"
  else
    logging_error
      "Specify a reference sample which will act as the denominator for the ratio plot".

(** [ratiovalues_calculator()] *)
Definition ratiovalues_calculator : M F unit :=
  modify (with_rp (set_ratiovalues [])) ;;
  nums <- gets (fun o => numerators (rp o)) ;;
  for_each nums (fun kv =>
    let '(samplename, sample) := kv in
    modify (with_rp (fun r =>
      set_ratiovalues (dict_set (ratiovalues r) samplename []) r)) ;;
    dv <- gets (fun o => dvals (rp o)) ;;
    match dv with
    | NpScalar _ => raise TypeError
    | NpArray ds =>
        modify (with_rp (fun r =>
          set_ratiovalues
            (dict_set (ratiovalues r) samplename (ratio_of (h_values sample) ds)) r))
    end).

(** [RatioPlot.__init__] up to and including [check_reference()]. *)
Definition RatioPlot_prepare (ref : option string) : M F unit :=
  Hist1D_init env ;;
  modify (with_rp (fun r =>
    {| reference := ref; numerators := []; denominator := [];
       dvals := NpArray []; ratiovalues := ratiovalues r;
       custom_ylims := custom_ylims r; ylims := ylims r; ystep := ystep r;
       ybotrange := ybotrange r; ybotlabels := ybotlabels r |})) ;;
  check_reference.

(** [RatioPlot.__init__] *)
Definition RatioPlot_init (ref : option string) : M F unit :=
  RatioPlot_prepare ref ;;
  ratiovalues_calculator ;;
  modify (with_rp (fun r =>
    {| reference := reference r; numerators := numerators r;
       denominator := denominator r; dvals := dvals r;
       ratiovalues := ratiovalues r;
       custom_ylims := false; ylims := ylims r; ystep := ystep r;
       ybotrange := ybotrange r; ybotlabels := ybotlabels r |})).

(** [custom_yaxis(ylims, step, edges)] *)
Definition custom_yaxis (yl : list float) (step : option float) (edges : bool)
  : M F unit :=
  modify (with_rp (set_ylims yl step)) ;;
  lo <- lift (list_first yl) ;;
  hi <- lift (list_last yl) ;;
  st <- match step with
        | Some s => ret s
        | None => raise TypeError
        end ;;
  modify (with_rp (set_ybotrange (np_arange env lo (PrimFloat.add hi st) st))) ;;
  ticks <- gets (fun o => ybotrange (rp o)) ;;
  labels <- lift (format_labels ticks) ;;
  modify (with_rp (set_ybotlabels labels)) ;;
  if edges then ret tt
  else
    l0 <- gets (fun o => ybotlabels (rp o)) ;;
    l1 <- lift (set_first EmptyString l0) ;;
    modify (with_rp (set_ybotlabels l1)) ;;
    l2 <- lift (set_last EmptyString l1) ;;
    modify (with_rp (set_ybotlabels l2)).

(** [ratio_scatters] and [ratio_histbins] for one numerator. *)
Definition ratio_series_plot (samplename : string) (c : color) : M F unit :=
  rv <- gets (fun o => ratiovalues (rp o)) ;;
  dat <- gets (fun o => data (store o)) ;;
  if arg_contains samplename dat || arg_is_all dat then
    vals <- lift (dict_index rv samplename) ;;
    draw (RatioSeries "errorbar" vals c)
  else
    sh <- gets (fun o => shape (style o)) ;;
    vals <- lift (dict_index rv samplename) ;;
    draw (RatioSeries (if str_eqb sh "hollow" then "stairs" else "stairs_fill") vals c).

(** The statements of [bot_plot] before the grid is drawn. *)
Definition bot_plot_body : M F unit :=
  nums <- gets (fun o => numerators (rp o)) ;;
  p <- get_samples_colors nums ;;
  let _clist := as_color_list (snd p) in
  for_each (enumerate (dict_keys nums)) (fun ik =>
    let '(i, samplename) := ik in
    c <- lift (list_index _clist i) ;;
    ratio_series_plot samplename c) ;;
  errs <- gets (@errors F) ;;
  (if opt_str_is errs "hist" || opt_str_is errs "all"
   then histbins_errs BotAx true else ret tt) ;;
  _ <- rcps_index "font.size" ;;
  draw (Decoration BotAx "tick_params") ;;
  e <- getattr (fun o => edges (meta o)) ;;
  _ <- lift (list_first e) ;;
  _ <- lift (list_last e) ;;
  draw (Decoration BotAx "xticks") ;;
  draw (Decoration BotAx "xlabel") ;;
  draw (Decoration BotAx "ylabel") ;;
  draw (Decoration BotAx "axhline") ;;
  cy <- gets (fun o => custom_ylims (rp o)) ;;
  if cy then
    t <- gets (fun o => ybotrange (rp o)) ;;
    l <- gets (fun o => ybotlabels (rp o)) ;;
    draw (YTicks t l)
  else ret tt.

(** [bot_plot()] *)
Definition bot_plot : M F unit :=
  bot_plot_body ;;
  draw_grid BotAx.

End RatioPlot.

(** ** The specification's side of the refinements *)

(** The grid strings of the specification: an axis name followed by a line
    style. *)
Definition grid_axes : list string := ["x"; "y"; "both"]%string.

Definition grid_strings : list (string * string) :=
  list_prod grid_axes linestyles.

Definition in_grid_grammar (s : string) : Prop :=
  exists a l, In (a, l) grid_strings /\ s = (a ++ l)%string.

Definition grid_error_message : string :=
  "Invalid grid string argument. Please enter 'axis'+'linestyle' string, e.g. 'y:' or 'x--'".

(** The character [c] occurs in [s]. *)
Fixpoint str_has (c : ascii) (s : string) : bool :=
  match s with
  | EmptyString => false
  | String a s' => Ascii.eqb a c || str_has c s'
  end.

(** The binary64 number that the literal [1.05] denotes. *)
Definition tick_1_05 : float := 0x1.0cccccccccccdp+0%float.

(** A tick is a number: not [nan], not an infinity. *)
Definition is_number (x : float) : Prop :=
  match Prim2SF x with
  | S754_zero _ | S754_finite _ _ _ => True
  | S754_infinity _ | S754_nan => False
  end.

(** [|x| * 100] rounded to an integer: the digits that a two-decimal
    rendering of [x] shows. *)
Definition hundredths (x : float) : Z :=
  match Prim2SF x with
  | S754_finite _ m e => scaled_round 2 m e
  | _ => 0%Z
  end.

Definition second_decimal (x : float) : Z := (hundredths x mod 10)%Z.
Definition first_decimal (x : float) : Z := ((hundredths x / 10) mod 10)%Z.

(** The precision the specification selects for a tick set. *)
Definition spec_precision (ticks : list float) : nat :=
  if existsb (fun x => negb (second_decimal x =? 0)%Z) (interior ticks) then 2
  else if existsb (fun x => negb (first_decimal x =? 0)%Z) (interior ticks) then 1
  else 0.

(** First and last entry replaced by the empty string. *)
Definition blanked (labels : list string) : list string :=
  match labels with
  | [] => []
  | _ :: rest => removelast (EmptyString :: rest) ++ [EmptyString]
  end.

Definition spec_labels (ticks : list float) (edges : bool) : list string :=
  let labels := map (format_fixed (spec_precision ticks)) ticks in
  if edges then labels else blanked labels.

(** A method leaves a part of the object alone: whatever it returns or
    raises, the part read by [proj] is as before. *)
Definition preserves {F A B} (proj : obj F -> B) (m : M F A) : Prop :=
  forall o, proj (snd (m o)) = proj o.

(** A method returns normally from every object. *)
Definition returns {F A} (m : M F A) : Prop :=
  forall o, exists a, fst (m o) = Ok a.

(** The loader keeps the two roles apart: the keys of [samples_dict] are
    distinct, [data_dict] holds those of them with the data role, in
    order, and [histos_dict] the others. *)
Definition partitioned {F} (o : obj F) : Prop :=
  let dat := data (store o) in
  let keys := dict_keys (samples_dict (store o)) in
  NoDup keys /\
  dict_keys (data_dict (store o))
  = filter (fun k => arg_contains k dat || arg_is_all dat) keys /\
  dict_keys (histos_dict (store o))
  = filter (fun k => negb (arg_contains k dat || arg_is_all dat)) keys.

(** The grid attributes of an object. *)
Definition grid_attrs {F} (o : obj F) : bool * option string * option string :=
  (need_grid (style o), gridaxis (style o), gridline (style o)).

(** The dictionaries and the list filled by the loader. *)
Definition loaded {F} (o : obj F)
  : dict (Histogram F) * dict (Histogram F) * dict (Histogram F)
    * list (Histogram F) * dict plot_type :=
  (samples_dict (store o), histos_dict (store o), data_dict (store o),
   histos_list (store o), plot_types (store o)).

(** What the loader logs when it stops at a name. *)
Definition load_error_message {F} (env : Env F) (directory name : string) : string :=
  match pickle_load env (directory ++ name ++ ".pkl")%string with
  | Unreadable =>
      ("There is no file named " ++ name ++ ".pkl containing a hist object")%string
  | NotHist =>
      ("The file " ++ name ++ ".pkl does not contain a hist object")%string
  | IsHist _ => EmptyString
  end.

Definition stops_loading {F} (env : Env F) (directory name : string) : Prop :=
  match pickle_load env (directory ++ name ++ ".pkl")%string with
  | IsHist _ => False
  | _ => True
  end.

Definition loads {F} (env : Env F) (directory name : string) (h : Histogram F) : Prop :=
  pickle_load env (directory ++ name ++ ".pkl")%string = IsHist h.

(** The ratio of one bin as the specification defines it. *)
Definition ratio_at {F} {num : Numeric F} (n m : F) : F :=
  if num_ne0 m then num_div n m else num_zero.

(** Adding bin [i] of one more value sequence to a running total. *)
Definition add_bin {F} {num : Numeric F} (i : nat) (acc : option F) (row : list F)
  : option F :=
  match acc, nth_error row i with
  | Some a, Some x => Some (num_add a x)
  | _, _ => None
  end.

(** The total of bin [i] over a list of value sequences, first one first. *)
Definition bin_total {F} {num : Numeric F} (rows : list (list F)) (i : nat) : option F :=
  match rows with
  | [] => None
  | r :: rs => fold_left (add_bin i) rs (nth_error r i)
  end.

(** The object after further calls into the plotting library. *)
Definition drawn {F} (calls : list (draw_call F)) (o : obj F) : obj F :=
  with_canvas (fun c => c ++ calls) o.

(** Bin [i] of a numpy value; a scalar has the single bin 0. *)
Definition np_nth {F} (v : npval F) (i : nat) : option F :=
  match v with
  | NpScalar x => match i with O => Some x | S _ => None end
  | NpArray xs => nth_error xs i
  end.

(** Every bin satisfies [P]. *)
Definition np_all {F} (P : F -> Prop) (v : npval F) : Prop :=
  match v with
  | NpScalar x => P x
  | NpArray xs => Forall P xs
  end.

(** The bar that [histbins_errs] draws over the values [vals]. *)
Definition err_bar {F} {num : Numeric F} (ax : axes_id) (ratio : bool)
    (centers widths : list F) (vals : npval F) (edgecolor : option color)
    (label : option string) : draw_call F :=
  Bar ax centers (fst (errbars ratio vals)) widths (snd (errbars ratio vals))
      edgecolor label.

(** The bars of the loop over the histograms, one per histogram, with
    the colour of its position. *)
Definition loop_bars {F} {num : Numeric F} (ax : axes_id) (ratio : bool)
    (centers widths : list F) (hs : list (Histogram F)) (cols : list color)
  : list (draw_call F) :=
  zip_with (fun H c =>
              err_bar ax ratio centers widths (NpArray (h_values H)) (Some c)
                      (if color_is_black c then Some "Uncertainty"%string else None))
           hs cols.

(** The band of a drawn bar: its lower and its upper edge. *)
Definition bar_band {F} {num : Numeric F} (b : draw_call F)
  : option (npval F * npval F) :=
  match b with
  | Bar _ _ heights _ bottom _ _ =>
      Some (band_lower heights bottom, band_upper heights bottom)
  | _ => None
  end.

(** The values that [histbins_errs] puts a bar on: the stacked total, or
    each histogram in turn. *)
Definition err_inputs {F} {num : Numeric F} (o : obj F) : outcome (list (npval F)) :=
  let histlist := dict_values (histos_dict (store o)) in
  if is_stack o
  then obind (get_stackvalues histlist) (fun v => Ok [v])
  else Ok (map (fun h => NpArray (h_values h)) histlist).

(** ** Objects and environments used to run the methods on concrete inputs *)

Definition hist_of (vals : list float) : Histogram float :=
  {| h_edges := map float_of_nat (seq 0 (S (List.length vals)));
     h_centers := map (fun i => PrimFloat.add (float_of_nat i) 0.5%float)
                      (seq 0 (List.length vals));
     h_widths := map (fun _ => 1%float) vals;
     h_values := vals;
     h_name := Some "x"%string;
     h_label := Some "x"%string |}.

(** A directory with three histogram files, [a.pkl], [b.pkl] and [c.pkl],
    a file [notes.pkl] that holds something else, and nothing more; of
    [np.arange] only the call [arange(1.0, 2.5, 0.5)], which gives
    [1.0, 1.5, 2.0]; of the validators of [mpl.rcParams] only that the one
    of ['font.size'] refuses the string ['abc'] and turns the string
    ['12'] into the number [12.0]. *)
Definition example_env : Env float :=
  {| pickle_load := fun path =>
       if str_eqb path "a.pkl" then IsHist (hist_of [4; 0; 9]%float)
       else if str_eqb path "b.pkl" then IsHist (hist_of [2; 0; 3]%float)
       else if str_eqb path "c.pkl" then IsHist (hist_of [10]%float)
       else if str_eqb path "notes.pkl" then NotHist
       else Unreadable;
     np_arange := fun start stop step =>
       if PrimFloat.eqb start 1 && PrimFloat.eqb stop 2.5 && PrimFloat.eqb step 0.5
       then [1; 1.5; 2]%float else [];
     mpl_colormaps := ["gist_rainbow"; "viridis"]%string;
     rc_valid := fun k v =>
       match v with
       | RcStr s => negb (str_eqb k "font.size" && str_eqb s "abc")
       | RcNum _ => true
       end;
     rc_stored := fun k v =>
       match v with
       | RcStr s => if str_eqb k "font.size" && str_eqb s "12" then RcNum 12 else v
       | RcNum _ => v
       end |}.

Definition example_new (smp dat : pyarg) (errs : option string) : obj float :=
  new_Hist1D EmptyString smp dat errs false ["."; "o"]%string
             default_rcps [].

(** [Hist1D(samples=['a'], errors='hist')] after its constructor. *)
Definition example_obj : obj float :=
  snd (Hist1D_init example_env (example_new (AList [PStr "a"]) (AList []) (Some "hist"%string))).

(** [Hist1D(samples=['c'], errors='hist')] after its constructor: one bin,
    of value 10. *)
Definition example_ten : obj float :=
  snd (Hist1D_init example_env (example_new (AList [PStr "c"]) (AList []) (Some "hist"%string))).

(** [RatioPlot(samples=['a', 'b'], reference='b')] when its constructor
    reaches [ratiovalues_calculator()], and once it is built. *)
Definition example_ratio_pre : obj float :=
  snd (RatioPlot_prepare example_env (Some "b"%string)
         (example_new (AList [PStr "a"; PStr "b"]) (AList []) None)).

Definition example_ratio_obj : obj float :=
  snd (RatioPlot_init example_env (Some "b"%string)
         (example_new (AList [PStr "a"; PStr "b"]) (AList []) None)).

(** ** Further methods *)

Section MoreMethods.
Context {F : Type} {num : Numeric F}.
Variable env : Env F.

(** [Hist1D.color_options(colors, colormap, reverse)] *)
Definition color_options (colors : pyarg) (colormap : string) (reverse : bool)
  : M F unit :=
  okc <- (if arg_truthy colors then type_checker colors else ret false) ;;
  if okc then
    let colors' := if arg_is_list colors then colors
                   else AList (map PStr (arg_names colors)) in
    smp <- gets (fun o => samples (store o)) ;;
    if negb (Nat.eqb (arg_len colors') (arg_len smp)) then
      logging_error "Length mismatch between color list and total samples list"
    else assign_colors env (Some (map Named (arg_names colors')))
  else
    okm <- (if str_truthy colormap then type_checker (AStr colormap) else ret false) ;;
    if okm then
      if str_in colormap (mpl_colormaps env) then
        smp <- gets (fun o => samples (store o)) ;;
        cl <- lift (colorlist_gen env (arg_len smp) colormap reverse) ;;
        assign_colors env (Some cl)
      else
        logging_error
          "Invalid matplotlib colormap; choose from https://matplotlib.org/stable/gallery/color/colormap_reference.html"
    else ret tt.

(** [RatioPlot.ratio_options(ylims, step, edges)] *)
Definition ratio_options (yl : list float) (step : option float) (edges : bool)
  : M F unit :=
  custom_yaxis env yl step edges.

End MoreMethods.

(** The axis titles of [EmptyPlot] and what [set_axislabels] prints. *)
Record Titles : Type := {
  xtitles_dict : dict string;
  ytitles_dict : dict string;
  fontsize : float;
  printed : list string
}.

Definition default_titles : Titles :=
  {| xtitles_dict := [("xmain", ""); ("xtop", ""); ("xbot", ""); ("xleft", "");
                      ("xright", "")]%string;
     ytitles_dict := [("ymain", ""); ("ytop", ""); ("ybot", ""); ("yleft", "");
                      ("yright", "")]%string;
     fontsize := 15;
     printed := [] |}.

Definition dict_has {V} (d : dict V) (k : string) : bool :=
  match dict_get d k with
  | Some _ => true
  | None => false
  end.

(** One turn of the loop of [set_axislabels] over [labels_kw.items()]. *)
Definition set_axislabel (t : Titles) (kv : string * string) : Titles :=
  if dict_has (xtitles_dict t) (fst kv) then
    {| xtitles_dict := dict_set (xtitles_dict t) (fst kv) (snd kv);
       ytitles_dict := ytitles_dict t; fontsize := fontsize t; printed := printed t |}
  else if dict_has (ytitles_dict t) (fst kv) then
    {| xtitles_dict := xtitles_dict t;
       ytitles_dict := dict_set (ytitles_dict t) (fst kv) (snd kv);
       fontsize := fontsize t; printed := printed t |}
  else
    {| xtitles_dict := xtitles_dict t; ytitles_dict := ytitles_dict t;
       fontsize := fontsize t; printed := printed t ++ ["Key not valid"%string] |}.

(** [EmptyPlot.set_axislabels(fontsize, **labels_kw)] *)
Definition set_axislabels (size : option float) (labels_kw : dict string) (t : Titles)
  : Titles :=
  let t1 := match size with
            | Some x =>
                if negb (PrimFloat.eqb x 0%float)
                then {| xtitles_dict := xtitles_dict t; ytitles_dict := ytitles_dict t;
                        fontsize := x; printed := printed t |}
                else t
            | None => t
            end in
  fold_left set_axislabel labels_kw t1.

(** [self.xtitles_dict[axis_key]], as [set_xtitles] reads it. *)
Definition xtitle (t : Titles) (axis_key : string) : outcome string :=
  dict_index (xtitles_dict t) axis_key.

Definition ytitle (t : Titles) (axis_key : string) : outcome string :=
  dict_index (ytitles_dict t) axis_key.

(** [Hist1D(samples=['a', 'b'])] after its constructor. *)
Definition example_two : obj float :=
  snd (Hist1D_init example_env (example_new (AList [PStr "a"; PStr "b"]) (AList []) None)).

(** The assignments of [RatioPlot.__init__] between the constructor of
    [Hist1D] and [check_reference()]. *)
Definition ratio_start {F} (ref : option string) (o : obj F) : obj F :=
  with_rp (fun r =>
    {| reference := ref; numerators := []; denominator := [];
       dvals := NpArray []; ratiovalues := ratiovalues r;
       custom_ylims := custom_ylims r; ylims := ylims r; ystep := ystep r;
       ybotrange := ybotrange r; ybotlabels := ybotlabels r |}) o.

(** [RatioPlot(samples=['a', 'gone', 'b'], reference='b')] at that point:
    the file of the second name is missing. *)
Definition example_broken : obj float :=
  ratio_start (Some "b"%string)
    (snd (Hist1D_init example_env
            (example_new (AList [PStr "a"; PStr "gone"; PStr "b"]) (AList []) None))).

(** [RatioPlot(samples=['a'], data=['a'], reference='total')] at that
    point. *)
Definition example_total : obj float :=
  ratio_start (Some "total"%string)
    (snd (Hist1D_init example_env
            (example_new (AList [PStr "a"]) (AList [PStr "a"]) None))).

(** The call is [ax.grid(...)]. *)
Definition is_grid_call {F} (c : draw_call F) : bool :=
  match c with
  | Grid _ _ _ => true
  | _ => false
  end.

(** What [check_data_names] logs for a data name that is no sample. *)
Definition missing_message (samplename : string) : string :=
  ("There is no variable named " ++ samplename ++ " in 'samples'")%string.

(** ** Settings of [mpl.rcParams] *)

(** [k in mpl.rcParams] *)
Definition rc_known (g : dict rcval) (k : string) : bool :=
  match dict_get g k with
  | Some _ => true
  | None => false
  end.

(** The assignment [mpl.rcParams[k] = v] goes through. *)
Definition rc_ok {F} (env : Env F) (g : dict rcval) (kv : string * rcval) : bool :=
  rc_known g (fst kv) && rc_valid env (fst kv) (snd kv).

(** The assignments [g[k] = v] for the items of [settings], in order,
    each value as its validator converts it. *)
Definition rc_update {F} (env : Env F) (g : dict rcval) (settings : dict rcval)
  : dict rcval :=
  fold_left (fun g kv => dict_set g (fst kv) (rc_stored env (fst kv) (snd kv)))
            settings g.

(** ** The list the colour loop indexes *)

Section Palette.
Context {F : Type} {num : Numeric F}.
Variable env : Env F.

(** The list [assign_colors(custom)] takes [...[i]] from: [custom] when it
    is truthy, else the colour-map list for a stack or more than ten
    names, else [color_order]. *)
Definition palette (custom : option (list color)) (o : obj F) : outcome (list color) :=
  match custom with
  | Some (c0 :: cs) => Ok (c0 :: cs)
  | _ =>
      if (10 <? arg_len (samples (store o)))%nat || is_stack o
      then colorlist_gen env (arg_len (samples (store o))) "gist_rainbow" false
      else Ok color_order
  end.

(** One pass of the loop of [assign_colors]. *)
Definition assign_step (custom : option (list color)) (p : nat * string) : M F unit :=
  let '(i, samplename) := p in
  pal <- (fun o => (palette custom o, o)) ;;
  c <- lift (list_index pal i) ;;
  set_color samplename c.

(** Every loaded sample has a colour. *)
Definition all_colored (o : obj F) : Prop :=
  forall k, In k (dict_keys (samples_dict (store o))) ->
            dict_get (colors_dict (style o)) k <> None.

(** No sample that had a colour in [o] is without one in [o']. *)
Definition colors_kept (o o' : obj F) : Prop :=
  forall k, dict_get (colors_dict (style o)) k <> None ->
            dict_get (colors_dict (style o')) k <> None.

End Palette.

(* ================================================================== *)
(** * Part II: properties *)
(* ================================================================== *)

Unset Implicit Arguments.

(** ** Strings and lists *)

Lemma str_eqb_eq (a b : string) : str_eqb a b = true <-> a = b.
Proof. apply String.eqb_eq. Qed.

Lemma str_eqb_refl (a : string) : str_eqb a a = true.
Proof. apply String.eqb_refl. Qed.

Lemma str_in_In (x : string) (l : list string) : str_in x l = true <-> In x l.
Proof.
  unfold str_in. rewrite existsb_exists. split.
  - intros (y & Hy & Heq). apply str_eqb_eq in Heq. now subst.
  - intros Hin. exists x. split; [assumption | apply str_eqb_refl].
Qed.

Lemma str_take_drop (n : nat) (s : string) :
  (str_take n s ++ str_drop n s)%string = s.
Proof.
  revert s. induction n as [|n IH]; intros s.
  - reflexivity.
  - destruct s as [|c s]; simpl; [reflexivity | now rewrite IH].
Qed.

Lemma one_char_eq (c : ascii) (t : string) :
  str_eqb (String c EmptyString) t = true -> t = String c EmptyString.
Proof. intros H. apply str_eqb_eq in H. now subst. Qed.

(** ** The grid-string parser *)

Lemma grid_strings_In (a l : string) :
  In a grid_axes -> In l linestyles -> In (a, l) grid_strings.
Proof. intros Ha Hl. unfold grid_strings. now apply in_prod. Qed.

Lemma gridstring_accepts F (o : obj F) (a l : string) :
  In (a, l) grid_strings ->
  gridstring_converter (a ++ l) o = (Ok tt, with_style (set_grid a l) o).
Proof.
  intros Hin. simpl in Hin.
  repeat (destruct Hin as [Hin | Hin];
          [injection Hin as <- <-; reflexivity |]).
  contradiction.
Qed.

Lemma gridstring_rejects F (o : obj F) (s : string) :
  s <> EmptyString -> ~ in_grid_grammar s ->
  gridstring_converter s o
  = (Ok tt, with_errlog (fun lg => lg ++ [grid_error_message]) o).
Proof.
  intros Hne Hnot. destruct s as [|c s']; [congruence |].
  unfold gridstring_converter, bind, lift. cbn [str_head].
  destruct ((str_eqb (String c "") "x" || str_eqb (String c "") "y")
            && str_in (str_drop 1 (String c s')) linestyles) eqn:C1.
  - exfalso. apply Hnot. apply andb_true_iff in C1 as [Hax Hls].
    apply str_in_In in Hls. cbn [str_drop] in Hls.
    exists (String c ""), s'. split; [| reflexivity].
    apply grid_strings_In; [| assumption].
    apply orb_true_iff in Hax as [Hx | Hy].
    + apply one_char_eq in Hx. rewrite <- Hx. simpl. auto.
    + apply one_char_eq in Hy. rewrite <- Hy. simpl. auto.
  - destruct (str_eqb (str_take 4 (String c s')) "both"
              && str_in (str_drop 4 (String c s')) linestyles) eqn:C2.
    + exfalso. apply Hnot. apply andb_true_iff in C2 as [Hax Hls].
      apply str_in_In in Hls. apply str_eqb_eq in Hax.
      exists (str_take 4 (String c s')), (str_drop 4 (String c s')).
      split; [| symmetry; apply str_take_drop].
      apply grid_strings_In; [| assumption].
      rewrite Hax. simpl. auto.
    + reflexivity.
Qed.

(** C9, as amended.  For every non-empty string: if it is an axis name in
    x, y, both followed by a line style in -, --, -., : then the parser
    returns normally with [gridaxis] and [gridline] set to the two parts;
    otherwise it returns normally, logs one error and leaves the object
    otherwise unchanged, so neither attribute is assigned.  So "y:",
    "x--" and "both-." are accepted, "z:" and "x@" are rejected. *)
Theorem gridstring_converter_nonempty F (o : obj F) (s : string)
    (Hne : s <> EmptyString) :
  (forall a l, In (a, l) grid_strings -> s = (a ++ l)%string ->
     gridstring_converter s o = (Ok tt, with_style (set_grid a l) o)) /\
  (~ in_grid_grammar s ->
     gridstring_converter s o
     = (Ok tt, with_errlog (fun lg => lg ++ [grid_error_message]) o)) /\
  gridstring_converter "y:" o = (Ok tt, with_style (set_grid "y" ":") o) /\
  gridstring_converter "x--" o = (Ok tt, with_style (set_grid "x" "--") o) /\
  gridstring_converter "both-." o = (Ok tt, with_style (set_grid "both" "-.") o) /\
  gridstring_converter "z:" o
  = (Ok tt, with_errlog (fun lg => lg ++ [grid_error_message]) o) /\
  gridstring_converter "x@" o
  = (Ok tt, with_errlog (fun lg => lg ++ [grid_error_message]) o).
Proof.
  split; [| split; [| repeat split]].
  - intros a l Hin ->. now apply gridstring_accepts.
  - intros Hnot. now apply gridstring_rejects.
Qed.

Lemma not_grammar_z_colon : ~ in_grid_grammar "z:".
Proof.
  intros (a & l & Hin & Heq). simpl in Hin.
  repeat (destruct Hin as [Hin | Hin]; [injection Hin as <- <-; discriminate |]).
  contradiction.
Defined.

Lemma gridstring_converter_nonempty_witness :
  "z:"%string <> EmptyString /\
  gridstring_converter "z:" example_obj
  = (Ok tt, with_errlog (fun lg => lg ++ [grid_error_message]) example_obj).
Proof.
  split; [discriminate |].
  apply (proj1 (proj2 (gridstring_converter_nonempty float example_obj "z:"
                         ltac:(discriminate)))).
  exact not_grammar_z_colon.
Defined.

(** C9, the remaining case: on the empty string the parser raises
    [IndexError] at [string[0]]; it does not return, nothing is logged
    and nothing is assigned. *)
Lemma gridstring_converter_empty_raises :
  ~ in_grid_grammar EmptyString /\
  gridstring_converter EmptyString example_obj = (Raise IndexError, example_obj) /\
  gridstring_converter EmptyString example_obj
  <> (Ok tt, with_errlog (fun lg => lg ++ [grid_error_message]) example_obj) /\
  errlog (snd (gridstring_converter EmptyString example_obj)) = errlog example_obj.
Proof.
  split; [| split; [reflexivity | split; [discriminate | reflexivity]]].
  intros (a & l & Hin & Heq). simpl in Hin.
  repeat (destruct Hin as [Hin | Hin]; [injection Hin as <- <-; discriminate |]).
  contradiction.
Qed.

(** ** Dictionaries *)

Lemma dict_get_set_same V (d : dict V) (k : string) (v : V) :
  dict_get (dict_set d k v) k = Some v.
Proof.
  induction d as [|[k' v'] d IH]; simpl.
  - now rewrite str_eqb_refl.
  - destruct (str_eqb k k') eqn:E; simpl; rewrite E; [reflexivity | exact IH].
Qed.

Lemma dict_get_set_other V (d : dict V) (k k' : string) (v : V) :
  k' <> k -> dict_get (dict_set d k v) k' = dict_get d k'.
Proof.
  intros Hne. induction d as [|[k0 v0] d IH]; simpl.
  - destruct (str_eqb k' k) eqn:E; [apply str_eqb_eq in E; congruence | reflexivity].
  - destruct (str_eqb k k0) eqn:E; simpl.
    + apply str_eqb_eq in E. subst k0.
      destruct (str_eqb k' k) eqn:E'; [apply str_eqb_eq in E'; congruence | reflexivity].
    + destruct (str_eqb k' k0); [reflexivity | exact IH].
Qed.

Lemma dict_keys_set V (d : dict V) (k : string) (v : V) :
  dict_keys (dict_set d k v)
  = if str_in k (dict_keys d) then dict_keys d else (dict_keys d ++ [k])%list.
Proof.
  induction d as [|[k' v'] d IH]; simpl; [reflexivity |].
  destruct (str_eqb k k') eqn:E; simpl.
  - reflexivity.
  - unfold dict_keys in *. rewrite IH. unfold str_in.
    destruct (existsb (str_eqb k) (map fst d)); reflexivity.
Qed.

(** ** The ratio series *)

Section RatioFacts.
Context {F : Type} {num : Numeric F}.

Lemma ratio_loop_map (pairs : list (F * F)) (acc : list F) :
  ratio_loop pairs acc = (acc ++ map (fun p => ratio_at (fst p) (snd p)) pairs)%list.
Proof.
  revert acc. induction pairs as [|[n m] pairs IH]; intros acc; simpl.
  - now rewrite app_nil_r.
  - unfold ratio_at at 1. simpl.
    destruct (num_ne0 m); rewrite IH, <- app_assoc; reflexivity.
Qed.

Lemma ratio_of_length (ns ds : list F) :
  List.length ns = List.length ds -> List.length (ratio_of ns ds) = List.length ds.
Proof.
  intros Hlen. unfold ratio_of. rewrite ratio_loop_map. simpl.
  rewrite length_map, length_combine, Hlen. apply Nat.min_id.
Qed.

Lemma ratio_of_nth (ns ds : list F) (i : nat) (n m : F) :
  nth_error ns i = Some n -> nth_error ds i = Some m ->
  nth_error (ratio_of ns ds) i = Some (ratio_at n m).
Proof.
  unfold ratio_of. rewrite ratio_loop_map. simpl.
  revert ds i. induction ns as [|n0 ns IH]; intros ds i Hn Hm.
  - destruct i; discriminate.
  - destruct ds as [|m0 ds]; [destruct i; discriminate |].
    destruct i as [|i]; simpl in *.
    + now injection Hn as ->; injection Hm as ->.
    + now apply IH.
Qed.

(** One turn of the loop of [ratiovalues_calculator]. *)
Lemma ratio_loop_run (ds : list F) (l : dict (Histogram F)) :
  forall o : obj F,
    dvals (rp o) = NpArray ds ->
    NoDup (dict_keys l) ->
    exists o',
      for_each l (fun kv =>
        let '(samplename, sample) := kv in
        modify (with_rp (fun r =>
          set_ratiovalues (dict_set (ratiovalues r) samplename []) r)) ;;
        dv <- gets (fun o => dvals (rp o)) ;;
        match dv with
        | NpScalar _ => raise TypeError
        | NpArray ds =>
            modify (with_rp (fun r =>
              set_ratiovalues
                (dict_set (ratiovalues r) samplename (ratio_of (h_values sample) ds)) r))
        end) o = (Ok tt, o')
      /\ (forall k sample, In (k, sample) l ->
            dict_get (ratiovalues (rp o')) k = Some (ratio_of (h_values sample) ds))
      /\ (forall k, ~ In k (dict_keys l) ->
            dict_get (ratiovalues (rp o')) k = dict_get (ratiovalues (rp o)) k).
Proof.
  induction l as [|[k0 s0] l IH]; intros o Hdv Hnd.
  - exists o. split; [reflexivity |]. split; [intros k s [] | reflexivity].
  - simpl in Hnd. apply NoDup_cons_iff in Hnd as [Hnotin Hnd].
    cbn [for_each]. unfold bind at 1. unfold bind at 1.
    unfold modify at 1. unfold bind at 1. unfold gets at 1.
    cbn [rp with_rp dvals set_ratiovalues]. rewrite Hdv.
    unfold modify at 1.
    match goal with
    | |- exists o', for_each l ?body ?o1 = _ /\ _ =>
        destruct (IH o1) as (o' & Hrun & Hin & Hout)
    end; [exact Hdv | exact Hnd |].
    exists o'. split; [exact Hrun |]. split.
    + intros k s [Heq | Hin'].
      * injection Heq as <- <-. rewrite (Hout k0 Hnotin). cbn.
        apply dict_get_set_same.
      * now apply Hin.
    + intros k Hk. simpl in Hk. rewrite Hout by tauto. cbn.
      rewrite !dict_get_set_other by (intros ->; tauto). reflexivity.
Qed.

End RatioFacts.

(** C1.  When the denominator series [dvals] is in place, the calculator
    returns normally and stores, for every numerator sample with as many
    bins as [dvals], a series of that many bins whose bin [i] is
    numerator/denominator when the denominator bin differs from 0 and is 0
    when the denominator bin equals 0; on binary64 numbers the series of
    [4, 0, 9] over [2, 0, 3] is [2, 0, 3], also as stored by the
    constructor of a ratio plot of these two samples. *)
Theorem ratiovalues_calculator_ratio F (num : Numeric F) (o : obj F) (ds : list F)
    (Hdv : dvals (rp o) = NpArray ds)
    (Hnd : NoDup (dict_keys (numerators (rp o))))
    (Hlen : Forall (fun kv => List.length (h_values (snd kv)) = List.length ds)
                   (numerators (rp o))) :
  (exists o',
     ratiovalues_calculator o = (Ok tt, o') /\
     forall k sample, In (k, sample) (numerators (rp o)) ->
       exists series,
         dict_get (ratiovalues (rp o')) k = Some series /\
         List.length series = List.length ds /\
         forall i n m,
           nth_error (h_values sample) i = Some n ->
           nth_error ds i = Some m ->
           nth_error series i = Some (if num_ne0 m then num_div n m else num_zero))
  /\ ratio_of [4; 0; 9]%float [2; 0; 3]%float = [2; 0; 3]%float
  /\ dict_get (ratiovalues (rp example_ratio_obj)) "a" = Some [2; 0; 3]%float.
Proof.
  split; [| split; [reflexivity | vm_compute; reflexivity]].
  unfold ratiovalues_calculator.
  unfold bind at 1. unfold modify at 1. unfold bind at 1. unfold gets at 1.
  cbn [rp with_rp numerators set_ratiovalues].
  destruct (ratio_loop_run ds (numerators (rp o))
              (with_rp (set_ratiovalues []) o) Hdv Hnd)
    as (o' & Hrun & Hin & _).
  exists o'. split; [exact Hrun |].
  intros k sample Hk.
  exists (ratio_of (h_values sample) ds). split; [now apply Hin |]. split.
  - apply ratio_of_length.
    rewrite Forall_forall in Hlen. exact (Hlen (k, sample) Hk).
  - intros i n m Hn Hm. exact (ratio_of_nth _ _ _ _ _ Hn Hm).
Qed.

Lemma ratiovalues_calculator_ratio_witness :
  dvals (rp example_ratio_pre) = NpArray [2; 0; 3]%float /\
  NoDup (dict_keys (numerators (rp example_ratio_pre))) /\
  exists o',
    ratiovalues_calculator example_ratio_pre = (Ok tt, o') /\
    forall k sample, In (k, sample) (numerators (rp example_ratio_pre)) ->
      exists series,
        dict_get (ratiovalues (rp o')) k = Some series /\
        List.length series = 3 /\
        forall i n m,
          nth_error (h_values sample) i = Some n ->
          nth_error [2; 0; 3]%float i = Some m ->
          nth_error series i = Some (if num_ne0 m then num_div n m else num_zero).
Proof.
  assert (Hdv : dvals (rp example_ratio_pre) = NpArray [2; 0; 3]%float)
    by (vm_compute; reflexivity).
  assert (Hnd : NoDup (dict_keys (numerators (rp example_ratio_pre)))).
  { vm_compute. constructor; [intros [] | constructor]. }
  split; [exact Hdv |]. split; [exact Hnd |].
  refine (proj1 (ratiovalues_calculator_ratio float _ example_ratio_pre _ Hdv Hnd _)).
  vm_compute. repeat constructor.
Defined.

(** ** The constructor on an empty sample list *)

(** C4, evaluated.  With an empty sample list [check_input] logs its
    message and returns, and then [store_data] raises [StopIteration] at
    [next(iter(self.data_dict))]: the constructor does not return an
    object.  The same holds for an empty string. *)
Theorem Hist1D_init_empty_samples F (num : Numeric F) (env : Env F)
    (directory : string) (dat : pyarg) (errs : option string) (stack : bool)
    (markers : list string) (mpl : dict rcval) (lg : list string) :
  (Hist1D_init env (new_Hist1D directory (AList []) dat errs stack markers mpl lg)
   = (Raise StopIteration,
      with_errlog (fun l => l ++ ["Enter a non-empty list of samples to plot."%string])
        (new_Hist1D directory (AList []) dat errs stack markers mpl lg)))
  /\ fst (check_input env (new_Hist1D directory (AList []) dat errs stack markers mpl lg))
     = Ok tt
  /\ fst (Hist1D_init env
            (new_Hist1D directory (AStr EmptyString) dat errs stack markers mpl lg))
     = Raise StopIteration.
Proof. destruct stack; repeat split. Qed.

(** ** Stacked totals *)

Section StackFacts.
Context {F : Type} {num : Numeric F}.

Lemma zip_with_length {A B C} (f : A -> B -> C) (a : list A) (b : list B) :
  List.length (zip_with f a b) = Nat.min (List.length a) (List.length b).
Proof.
  revert b. induction a as [|x a IH]; intros [|y b]; simpl; auto.
Qed.

Lemma zip_with_nth {A B C} (f : A -> B -> C) (a : list A) (b : list B) (i : nat) :
  nth_error (zip_with f a b) i
  = match nth_error a i, nth_error b i with
    | Some x, Some y => Some (f x y)
    | _, _ => None
    end.
Proof.
  revert b i. induction a as [|x a IH]; intros [|y b] [|i]; simpl; auto.
  - destruct (nth_error a i); reflexivity.
Qed.

Lemma fold_zip_length (rs : list (list F)) :
  forall r,
    Forall (fun r' => List.length r' = List.length r) rs ->
    List.length (fold_left (zip_with num_add) rs r) = List.length r.
Proof.
  induction rs as [|r1 rs IH]; intros r Hall; simpl; [reflexivity |].
  inversion Hall as [|? ? H1 Hrest]; subst.
  assert (Hz : List.length (zip_with num_add r r1) = List.length r)
    by (rewrite zip_with_length, H1; apply Nat.min_id).
  rewrite IH; [exact Hz |].
  eapply Forall_impl; [| exact Hrest]. intros a Ha. simpl in Ha. congruence.
Qed.

Lemma fold_zip_nth (rs : list (list F)) (i : nat) :
  forall r,
    nth_error (fold_left (zip_with num_add) rs r) i
    = fold_left (add_bin i) rs (nth_error r i).
Proof.
  induction rs as [|r1 rs IH]; intros r; simpl; [reflexivity |].
  rewrite IH, zip_with_nth. reflexivity.
Qed.

Lemma same_length_forallb (r : list F) (rs : list (list F)) :
  Forall (fun r' => List.length r' = List.length r) rs ->
  forallb (fun r' => Nat.eqb (List.length r') (List.length r)) rs = true.
Proof.
  intros Hall. apply forallb_forall. intros x Hx.
  rewrite Forall_forall in Hall. apply Nat.eqb_eq. now apply Hall.
Qed.

Lemma get_stackvalues_rows (h : Histogram F) (hs : list (Histogram F)) :
  Forall (fun h' => List.length (h_values h') = List.length (h_values h)) hs ->
  get_stackvalues (h :: hs)
  = Ok (NpArray (fold_left (zip_with num_add) (map (@h_values F) hs) (h_values h))).
Proof.
  intros Hall. destruct hs as [|h1 hs]; [reflexivity |].
  unfold get_stackvalues, np_sum_axis0. cbn [map].
  rewrite same_length_forallb; [reflexivity |].
  apply Forall_forall. intros x Hx.
  change (h_values h1 :: map (@h_values F) hs) with (map (@h_values F) (h1 :: hs)) in Hx.
  apply in_map_iff in Hx as (h' & <- & Hin).
  rewrite Forall_forall in Hall. now apply Hall.
Qed.

End StackFacts.

(** C6.  For a histogram [h] and further histograms [hs] whose value
    sequences are as long as that of [h]: the stacked total of [h] alone
    is the value sequence of [h], unchanged; the stacked total of
    [h :: hs] is a sequence of the same length whose bin [i] is the sum of
    bin [i] over all the histograms, first one first; for a pair [h, b]
    bin [i] is [h[i] + b[i]]. *)
Theorem get_stackvalues_total F (num : Numeric F)
    (h : Histogram F) (hs : list (Histogram F))
    (Hlen : Forall (fun h' => List.length (h_values h') = List.length (h_values h)) hs) :
  get_stackvalues [h] = Ok (NpArray (h_values h)) /\
  (exists t,
     get_stackvalues (h :: hs) = Ok (NpArray t) /\
     List.length t = List.length (h_values h) /\
     forall i, nth_error t i = bin_total (map (@h_values F) (h :: hs)) i) /\
  (forall b, hs = [b] ->
     exists t,
       get_stackvalues [h; b] = Ok (NpArray t) /\
       forall i x y,
         nth_error (h_values h) i = Some x ->
         nth_error (h_values b) i = Some y ->
         nth_error t i = Some (num_add x y)).
Proof.
  split; [reflexivity |]. split.
  - exists (fold_left (zip_with num_add) (map (@h_values F) hs) (h_values h)).
    split; [now apply get_stackvalues_rows |]. split.
    + apply fold_zip_length.
      apply Forall_forall. intros x Hx.
      apply in_map_iff in Hx as (h' & <- & Hin).
      rewrite Forall_forall in Hlen. now apply Hlen.
    + intros i. apply fold_zip_nth.
  - intros b ->. exists (zip_with num_add (h_values h) (h_values b)).
    split.
    + rewrite (get_stackvalues_rows h [b] Hlen). reflexivity.
    + intros i x y Hx Hy. rewrite zip_with_nth, Hx, Hy. reflexivity.
Qed.

Lemma get_stackvalues_total_witness :
  Forall (fun h' => List.length (h_values h') = List.length (h_values (hist_of [4; 0; 9]%float)))
         [hist_of [2; 0; 3]%float] /\
  exists t,
    get_stackvalues [hist_of [4; 0; 9]%float; hist_of [2; 0; 3]%float] = Ok (NpArray t) /\
    List.length t = 3 /\
    forall i, nth_error t i
              = bin_total [[4; 0; 9]%float; [2; 0; 3]%float] i.
Proof.
  assert (H : Forall (fun h' => List.length (h_values h')
                                = List.length (h_values (hist_of [4; 0; 9]%float)))
                     [hist_of [2; 0; 3]%float]) by (repeat constructor).
  split; [exact H |].
  exact (proj1 (proj2 (get_stackvalues_total float _ (hist_of [4; 0; 9]%float)
                         [hist_of [2; 0; 3]%float] H))).
Defined.

(** ** What a method leaves alone *)

Section Frames.
Context {F B : Type} (proj : obj F -> B).

Lemma preserves_ret {A} (a : A) : preserves proj (ret a).
Proof. intros o. reflexivity. Qed.

Lemma preserves_raise {A} (e : exn) : preserves proj (@raise F A e).
Proof. intros o. reflexivity. Qed.

Lemma preserves_lift {A} (r : outcome A) : preserves proj (lift r).
Proof. intros o. reflexivity. Qed.

Lemma preserves_gets {A} (f : obj F -> A) : preserves proj (gets f).
Proof. intros o. reflexivity. Qed.

Lemma preserves_getattr {A} (f : obj F -> option A) : preserves proj (getattr f).
Proof. intros o. unfold getattr. destruct (f o); reflexivity. Qed.

Lemma preserves_modify (f : obj F -> obj F) :
  (forall o, proj (f o) = proj o) -> preserves proj (modify f).
Proof. intros H o. apply H. Qed.

Lemma preserves_bind {A C} (m : M F A) (k : A -> M F C) :
  preserves proj m -> (forall a, preserves proj (k a)) -> preserves proj (bind m k).
Proof.
  intros Hm Hk o. unfold bind. specialize (Hm o).
  destruct (m o) as [[a | e] o']; simpl in *.
  - now rewrite Hk.
  - exact Hm.
Qed.

Lemma preserves_for_each {A} (l : list A) (body : A -> M F unit) :
  (forall x, preserves proj (body x)) -> preserves proj (for_each l body).
Proof.
  intros Hb. induction l as [|x l IH]; simpl.
  - apply preserves_ret.
  - apply preserves_bind; [apply Hb | intros _; exact IH].
Qed.

Lemma preserves_for_break {A} (l : list A) (body : A -> M F bool) :
  (forall x, preserves proj (body x)) -> preserves proj (for_break l body).
Proof.
  intros Hb. induction l as [|x l IH]; simpl.
  - apply preserves_ret.
  - apply preserves_bind; [apply Hb |].
    intros [|]; [exact IH | apply preserves_ret].
Qed.

End Frames.

(** One step of a frame proof: descend through the monad, split the
    branches, and check an update by computation. *)
Ltac frame_step :=
  match goal with
  | |- preserves _ (bind _ _) => apply preserves_bind; [| intros ?]
  | |- preserves _ (ret _) => apply preserves_ret
  | |- preserves _ (raise _) => apply preserves_raise
  | |- preserves _ (lift _) => apply preserves_lift
  | |- preserves _ (gets _) => apply preserves_gets
  | |- preserves _ (getattr _) => apply preserves_getattr
  | |- preserves _ (for_each _ _) => apply preserves_for_each; intros ?
  | |- preserves _ (for_break _ _) => apply preserves_for_break; intros ?
  | |- preserves _ (modify _) => apply preserves_modify; intros ?; reflexivity
  | |- preserves _ (logging_error _) => apply preserves_modify; intros ?; reflexivity
  | |- preserves _ (draw _) => apply preserves_modify; intros ?; reflexivity
  | |- preserves _ (if ?b then _ else _) => destruct b
  | |- preserves _ (match ?x with _ => _ end) => destruct x
  end.

Ltac frame := repeat frame_step.

Section FrameFacts.
Context {F : Type} {num : Numeric F}.
Variable env : Env F.

Lemma type_checker_loaded (a : pyarg) : preserves (@loaded F) (@type_checker F a).
Proof. unfold type_checker. frame. Qed.

Lemma check_data_names_loaded (smp : pyarg) :
  preserves (@loaded F) (@check_data_names F smp).
Proof. unfold check_data_names, type_checker. frame. Qed.

Lemma check_data_names_dir (smp : pyarg) :
  preserves (@dir F) (@check_data_names F smp).
Proof. unfold check_data_names, type_checker. frame. Qed.

Lemma assign_colors_store (custom : option (list color)) :
  preserves (@store F) (assign_colors env custom).
Proof. unfold assign_colors, set_color. frame. Qed.

Lemma store_data_store : preserves (@store F) (@store_data F).
Proof. unfold store_data. frame. Qed.

Lemma get_samples_colors_grid (d : dict (Histogram F)) :
  preserves (@grid_attrs F) (get_samples_colors d).
Proof. unfold get_samples_colors. frame. Qed.

Lemma histbins_errs_grid (ax : axes_id) (ratio : bool) :
  preserves (@grid_attrs F) (histbins_errs ax ratio).
Proof. unfold histbins_errs, errs_loop_body, get_samples_colors. frame. Qed.

Lemma hist_plot_body_grid (ax : axes_id) :
  preserves (@grid_attrs F) (hist_plot_body ax).
Proof.
  unfold hist_plot_body, histbins_plotter, scatterdata_plotter, rcps_index.
  frame; try apply histbins_errs_grid; try apply get_samples_colors_grid.
Qed.

Lemma bot_plot_body_grid : preserves (@grid_attrs F) (@bot_plot_body F num).
Proof.
  unfold bot_plot_body, ratio_series_plot, rcps_index.
  frame; try apply histbins_errs_grid; try apply get_samples_colors_grid.
Qed.

Lemma plot_options_shape_grid (shp : option string) :
  preserves (@grid_attrs F) (@plot_options_shape F shp).
Proof. unfold plot_options_shape. frame. Qed.

Lemma plot_options_rest_grid (shp marker : option string)
    (markersize : option float) (legendcols : option Z) (rcp_kw : dict rcval) :
  preserves (@grid_attrs F)
            (plot_options_rest env shp marker markersize legendcols rcp_kw).
Proof.
  unfold plot_options_rest, config_rcParams, set_rc, assign_colors, set_color.
  frame.
Qed.

End FrameFacts.

(** ** A rejected grid string and the renders after it *)

Section GridFacts.
Context {F : Type} {num : Numeric F}.
Variable env : Env F.

Lemma plot_options_shape_returns (shp : option string) (o : obj F) :
  fst (@plot_options_shape F shp o) = Ok tt.
Proof.
  unfold plot_options_shape, bind, gets, modify, logging_error.
  repeat match goal with
         | |- context [if ?b then _ else _] => destruct b
         end; reflexivity.
Qed.

Lemma plot_options_grid_rejected (gs : string) (o : obj F) :
  gs <> EmptyString -> ~ in_grid_grammar gs ->
  plot_options_grid gs o
  = (Ok tt, with_style (set_need_grid true)
              (with_errlog (fun lg => lg ++ [grid_error_message]) o)).
Proof.
  intros Hne Hrej. unfold plot_options_grid.
  destruct gs as [|c gs']; [congruence |]. cbn [str_truthy].
  unfold bind at 1. rewrite (gridstring_rejects F o _ Hne Hrej). reflexivity.
Qed.

Lemma draw_grid_missing (ax : axes_id) (o : obj F) :
  grid_attrs o = (true, None, None) ->
  @draw_grid F ax o = (Raise AttributeError, o).
Proof.
  unfold grid_attrs. intros H. injection H as Hng Hax Hln.
  unfold draw_grid, bind, gets, getattr. cbn. rewrite Hng, Hax. reflexivity.
Qed.

(** A render is a body, then the grid, then the rest: with the flag set
    and the attributes missing it cannot return. *)
Lemma render_raises (body finish : M F unit) (ax : axes_id) (o : obj F) :
  preserves (@grid_attrs F) body ->
  grid_attrs o = (true, None, None) ->
  (exists e, fst ((body ;; draw_grid ax ;; finish) o) = Raise e) /\
  (fst (body o) = Ok tt ->
   fst ((body ;; draw_grid ax ;; finish) o) = Raise AttributeError).
Proof.
  intros Hbody Hgrid. unfold bind at 1 3.
  specialize (Hbody o). destruct (body o) as [[[] | e] o1]; simpl in Hbody.
  - unfold bind. rewrite draw_grid_missing by congruence. simpl.
    split; [now exists AttributeError | reflexivity].
  - simpl. split; [now exists e | discriminate].
Qed.

End GridFacts.

(** C10, as amended.  Let [plot_options] be called with a non-empty grid
    string that is not an axis name followed by a line style.  The call
    gets past its grid block: it goes on with the remaining options from
    the object in which one error was logged and [need_grid] is [True].
    Whatever the remaining options do, afterwards [need_grid] is [True]
    and [gridaxis] and [gridline] are what they were before the call.
    So on an object on which the two attributes were never assigned,
    drawing the grid raises [AttributeError], and [hist_plot] and
    [bot_plot] cannot return: they raise, and raise [AttributeError]
    whenever their statements before the grid succeed.  On an object on
    which an earlier call assigned them, drawing the grid raises nothing:
    it draws the grid of that earlier call. *)
Theorem rejected_gridstring_breaks_render F (num : Numeric F) (env : Env F)
    (o : obj F) (shp : option string) (gs : string) (marker : option string)
    (markersize : option float) (legendcols : option Z) (rcp_kw : dict rcval)
    (ax : axes_id)
    (Hne : gs <> EmptyString) (Hrej : ~ in_grid_grammar gs) :
  let o1 := snd (@plot_options_shape F shp o) in
  let o2 := with_style (set_need_grid true)
              (with_errlog (fun lg => lg ++ [grid_error_message]) o1) in
  let o' := snd (plot_options env shp gs marker markersize legendcols rcp_kw o) in
  plot_options env shp gs marker markersize legendcols rcp_kw o
  = plot_options_rest env shp marker markersize legendcols rcp_kw o2 /\
  need_grid (style o') = true /\
  gridaxis (style o') = gridaxis (style o) /\
  gridline (style o') = gridline (style o) /\
  (gridaxis (style o) = None -> gridline (style o) = None ->
   @draw_grid F ax o' = (Raise AttributeError, o') /\
   (exists e, fst (hist_plot ax o') = Raise e) /\
   (fst (hist_plot_body ax o') = Ok tt -> fst (hist_plot ax o') = Raise AttributeError) /\
   (exists e, fst (bot_plot o') = Raise e) /\
   (fst (bot_plot_body o') = Ok tt -> fst (bot_plot o') = Raise AttributeError)) /\
  (forall a l, gridaxis (style o) = Some a -> gridline (style o) = Some l ->
   @draw_grid F ax o' = (Ok tt, drawn [Grid ax a l] o')).
Proof.
  intros o1 o2 o'.
  assert (Hrun : plot_options env shp gs marker markersize legendcols rcp_kw o
                 = plot_options_rest env shp marker markersize legendcols rcp_kw o2).
  { unfold plot_options. unfold bind at 1.
    pose proof (plot_options_shape_returns shp o) as Hs.
    subst o2 o1. destruct (plot_options_shape shp o) as [r oa]. simpl in Hs. subst r.
    unfold bind at 1. cbn [snd].
    rewrite (plot_options_grid_rejected gs oa Hne Hrej). reflexivity. }
  assert (Hgrid : grid_attrs o' = (true, gridaxis (style o), gridline (style o))).
  { subst o'. rewrite Hrun.
    rewrite (plot_options_rest_grid env shp marker markersize legendcols rcp_kw o2).
    subst o2. unfold grid_attrs. cbn.
    pose proof (plot_options_shape_grid shp o) as Hs. unfold grid_attrs in Hs.
    fold o1 in Hs. injection Hs as _ Ha Hl. now rewrite Ha, Hl. }
  split; [exact Hrun |].
  pose proof Hgrid as Hg. unfold grid_attrs in Hg. injection Hg as Hng Hga Hgl.
  repeat (split; [assumption |]).
  split.
  - intros Hax Hln.
    assert (Hnone : grid_attrs o' = (true, None, None))
      by (rewrite Hgrid, Hax, Hln; reflexivity).
    split; [now apply draw_grid_missing |].
    destruct (render_raises (hist_plot_body ax) (hist_plot_finish ax) ax o'
                (hist_plot_body_grid ax) Hnone) as [H1 H2].
    destruct (render_raises (@bot_plot_body F num) (ret tt) BotAx o'
                bot_plot_body_grid Hnone) as [H3 H4].
    split; [exact H1 |]. split; [exact H2 |].
    assert (Hbot : forall x : obj F,
               fst (bot_plot x) = fst ((bot_plot_body ;; draw_grid BotAx ;; ret tt) x)).
    { intros x. unfold bot_plot, bind.
      destruct (bot_plot_body x) as [[[] | e] x1]; [| reflexivity].
      destruct (draw_grid BotAx x1) as [[[] | e] x2]; reflexivity. }
    rewrite Hbot. split; [exact H3 | exact H4].
  - intros a l Hax Hln. rewrite Hax in Hga. rewrite Hln in Hgl.
    clearbody o'. unfold draw_grid, bind, gets, getattr. cbn.
    rewrite Hng, Hga, Hgl. reflexivity.
Qed.

Lemma rejected_gridstring_breaks_render_witness :
  "z:"%string <> EmptyString /\
  gridaxis (style example_obj) = None /\
  gridline (style example_obj) = None /\
  let o' := snd (plot_options example_env None "z:" None None None [] example_obj) in
  need_grid (style o') = true /\
  gridaxis (style o') = None /\
  fst (hist_plot MainAx o') = Raise AttributeError.
Proof.
  split; [discriminate |]. split; [reflexivity |]. split; [reflexivity |].
  pose proof (rejected_gridstring_breaks_render float _ example_env example_obj
                None "z:" None None None [] MainAx
                ltac:(discriminate) not_grammar_z_colon) as H.
  cbv zeta in H.
  destruct H as (_ & Hng & Hga & _ & Hmiss & _).
  destruct (Hmiss eq_refl eq_refl) as (_ & _ & Hhp & _).
  intros o'. split; [exact Hng |]. split; [exact Hga |].
  apply Hhp. vm_compute. reflexivity.
Defined.

(** C10, as stated, fails when an earlier call has set the grid: after
    [plot_options(gridstring='y:')] and then [plot_options(gridstring='z:')],
    the second string is rejected and logged, [need_grid] is [True], the
    two attributes exist with the values of the first call, and
    [hist_plot] returns normally, after drawing the grid of the first
    call. *)
Lemma rejected_after_accepted_draws_old_grid :
  let o1 := snd (plot_options example_env None "y:" None None None [] example_obj) in
  let o2 := snd (plot_options example_env None "z:" None None None [] o1) in
  "z:"%string <> EmptyString /\
  ~ in_grid_grammar "z:" /\
  plot_options example_env None "z:" None None None [] o1
  = (Ok tt, with_errlog (fun lg => lg ++ [grid_error_message]) o1) /\
  grid_attrs o2 = (true, Some "y", Some ":")%string /\
  draw_grid MainAx o2 = (Ok tt, drawn [Grid MainAx "y" ":"] o2) /\
  fst (hist_plot MainAx o2) = Ok tt /\
  In (Grid MainAx "y" ":") (canvas (snd (hist_plot MainAx o2))).
Proof.
  cbv zeta.
  split; [discriminate |]. split; [exact not_grammar_z_colon |].
  split; [vm_compute; reflexivity |]. split; [vm_compute; reflexivity |].
  split; [vm_compute; reflexivity |]. split; [vm_compute; reflexivity |].
  vm_compute. repeat (first [left; reflexivity | right]).
Qed.

(** ** Methods that always return *)

Section Returns.
Context {F : Type}.

Lemma returns_ret {A} (a : A) : returns (@ret F A a).
Proof. intros o. now exists a. Qed.

Lemma returns_gets {A} (f : obj F -> A) : returns (gets f).
Proof. intros o. now exists (f o). Qed.

Lemma returns_modify (f : obj F -> obj F) : returns (modify f).
Proof. intros o. now exists tt. Qed.

Lemma returns_bind {A C} (m : M F A) (k : A -> M F C) :
  returns m -> (forall a, returns (k a)) -> returns (bind m k).
Proof.
  intros Hm Hk o. unfold bind. destruct (Hm o) as [a Ha].
  destruct (m o) as [r o']. simpl in Ha. subst r. apply Hk.
Qed.

Lemma returns_for_each {A} (l : list A) (body : A -> M F unit) :
  (forall x, returns (body x)) -> returns (for_each l body).
Proof.
  intros Hb. induction l as [|x l IH]; simpl.
  - apply returns_ret.
  - apply returns_bind; [apply Hb | intros _; exact IH].
Qed.

Lemma returns_unit (m : M F unit) (o : obj F) : returns m -> fst (m o) = Ok tt.
Proof. intros H. destruct (H o) as [[] Ha]. exact Ha. Qed.

End Returns.

Ltac returns_step :=
  match goal with
  | |- returns (bind _ _) => apply returns_bind; [| intros ?]
  | |- returns (ret _) => apply returns_ret
  | |- returns (gets _) => apply returns_gets
  | |- returns (modify _) => apply returns_modify
  | |- returns (logging_error _) => apply returns_modify
  | |- returns (for_each _ _) => apply returns_for_each; intros ?
  | |- returns (if ?b then _ else _) => destruct b
  | |- returns (match ?x with _ => _ end) => destruct x
  end.

(** ** The loader *)

Section LoaderFacts.
Context {F : Type} {num : Numeric F}.
Variable env : Env F.

Lemma check_data_names_returns (smp : pyarg) : returns (@check_data_names F smp).
Proof. unfold check_data_names, type_checker. repeat returns_step. Qed.

Lemma check_data_names_samples (smp : pyarg) :
  preserves (fun o : obj F => samples (store o)) (@check_data_names F smp).
Proof. unfold check_data_names, type_checker. frame. Qed.

Lemma forallb_is_str_names (names : list string) :
  forallb is_str (map PStr names) = true.
Proof. induction names; simpl; auto. Qed.

Lemma item_strs_names (names : list string) : item_strs (map PStr names) = names.
Proof. induction names as [|n l IH]; simpl; [reflexivity | now rewrite IH]. Qed.

(** With a non-empty list of names, [check_input] is its block on
    [self.data] followed by the loading loop. *)
Lemma check_input_loop (o : obj F) (names : list string) :
  samples (store o) = AList (map PStr names) -> names <> [] ->
  check_input env o
  = for_break names (load_sample env) (snd (check_data_names (AList (map PStr names)) o)).
Proof.
  intros Hs Hne. unfold check_input.
  unfold bind at 1. unfold gets at 1. rewrite Hs.
  assert (Ht : arg_truthy (AList (map PStr names)) = true)
    by (destruct names; [congruence | reflexivity]).
  rewrite Ht. unfold type_checker. rewrite forallb_is_str_names.
  unfold bind at 1. unfold ret at 1. unfold bind at 1.
  pose proof (returns_unit _ o (check_data_names_returns (AList (map PStr names)))) as Hr.
  pose proof (check_data_names_samples (AList (map PStr names)) o) as Hp.
  destruct (check_data_names (AList (map PStr names)) o) as [r o1].
  simpl in Hr, Hp. subst r. cbn [arg_is_list snd].
  unfold bind at 1. unfold ret at 1. unfold bind at 1. unfold gets at 1.
  rewrite Hp, Hs. cbn [arg_names]. now rewrite item_strs_names.
Qed.

Lemma load_sample_loads (n : string) (h : Histogram F) (o : obj F) :
  loads env (dir o) n h ->
  load_sample env n o
  = (Ok true,
     with_store (if arg_contains n (data (store o)) || arg_is_all (data (store o))
                 then register_data n h else register_histo n h) o).
Proof.
  unfold loads, load_sample. intros Hl.
  unfold bind at 1. unfold gets at 1. rewrite Hl.
  unfold bind, gets, modify, ret.
  destruct (arg_contains n (data (store o)) || arg_is_all (data (store o))); reflexivity.
Qed.

Lemma load_sample_stops (n : string) (o : obj F) :
  stops_loading env (dir o) n ->
  load_sample env n o
  = (Ok false, with_errlog (fun l => l ++ [load_error_message env (dir o) n])%list o).
Proof.
  unfold stops_loading, load_sample, load_error_message. intros Hs.
  unfold bind at 1. unfold gets at 1.
  destruct (pickle_load env (dir o ++ n ++ ".pkl")%string); [reflexivity | reflexivity | contradiction].
Qed.

End LoaderFacts.

Section LoadingLoop.
Context {F : Type} {num : Numeric F}.
Variable env : Env F.

(** The loop stops at the first name that does not load: the names after
    it are never looked at. *)
Lemma load_abort (pre : list string) (bad : string) (post : list string) :
  forall o : obj F,
    Forall (fun n => exists h, loads env (dir o) n h) pre ->
    stops_loading env (dir o) bad ->
    for_break (pre ++ bad :: post) (load_sample env) o
    = (Ok tt,
       with_errlog (fun l => l ++ [load_error_message env (dir o) bad])%list
                   (snd (for_break pre (load_sample env) o))).
Proof.
  induction pre as [|n pre IH]; intros o Hpre Hbad.
  - cbn [app for_break]. unfold bind at 1.
    rewrite (load_sample_stops env bad o Hbad). reflexivity.
  - inversion Hpre as [|? ? [h Hh] Hrest]; subst.
    cbn [app for_break]. unfold bind at 1 2.
    rewrite (load_sample_loads env n h o Hh).
    match goal with
    | |- for_break _ _ ?o1 = _ => exact (IH o1 Hrest Hbad)
    end.
Qed.

Lemma for_break_continue {A} (x : A) (l : list A) (body : A -> M F bool)
    (o o1 : obj F) :
  body x o = (Ok true, o1) -> for_break (x :: l) body o = for_break l body o1.
Proof. intros H. cbn [for_break]. unfold bind at 1. now rewrite H. Qed.

(** Loading names that all load. *)
Lemma load_all (pre : list string) :
  forall o : obj F,
    Forall (fun n => exists h, loads env (dir o) n h) pre ->
    let o' := snd (for_break pre (load_sample env) o) in
    fst (for_break pre (load_sample env) o) = Ok tt /\
    errlog o' = errlog o /\
    (forall n, In n (dict_keys (samples_dict (store o'))) ->
               In n (dict_keys (samples_dict (store o))) \/ In n pre) /\
    (forall n h, In n pre -> loads env (dir o) n h ->
                 dict_get (samples_dict (store o')) n = Some h) /\
    (forall n, ~ In n pre ->
               dict_get (samples_dict (store o')) n
               = dict_get (samples_dict (store o)) n).
Proof.
  induction pre as [|n0 pre IH]; intros o Hpre.
  - cbn. repeat split; auto. intros n h [].
  - inversion Hpre as [|? ? [h0 Hh0] Hrest]; subst.
    cbn zeta.
    rewrite !(for_break_continue n0 pre _ o _ (load_sample_loads env n0 h0 o Hh0)).
    set (o1 := with_store _ o).
    assert (Hsd : samples_dict (store o1) = dict_set (samples_dict (store o)) n0 h0).
    { subst o1. destruct (arg_contains n0 (data (store o)) || arg_is_all (data (store o)));
        reflexivity. }
    assert (Herr : errlog o1 = errlog o) by reflexivity.
    destruct (IH o1 Hrest) as (Hok & Hlog & Hkeys & Hget & Hother).
    split; [exact Hok |]. split; [congruence |]. split; [| split].
    + intros n Hn. apply Hkeys in Hn as [Hn | Hn]; [| right; now right].
      rewrite Hsd, dict_keys_set in Hn.
      destruct (str_in n0 (dict_keys (samples_dict (store o)))); [now left |].
      apply in_app_or in Hn as [Hn | [-> | []]]; [now left | right; now left].
    + intros n h Hin Hl.
      destruct (in_dec string_dec n pre) as [Hp | Hp].
      * now apply Hget.
      * destruct Hin as [-> | Hin]; [| contradiction].
        rewrite (Hother n Hp), Hsd, dict_get_set_same.
        unfold loads in Hl, Hh0. congruence.
    + intros n Hn. rewrite Hother by (intros Hp; apply Hn; now right).
      rewrite Hsd. apply dict_get_set_other. intros ->. apply Hn. now left.
Qed.

(** With distinct fresh names that all load, the keys of [samples_dict]
    grow by exactly these names, in order. *)
Lemma load_all_keys (pre : list string) :
  forall o : obj F,
    Forall (fun n => exists h, loads env (dir o) n h) pre ->
    NoDup (dict_keys (samples_dict (store o)) ++ pre) ->
    dict_keys (samples_dict (store (snd (for_break pre (load_sample env) o))))
    = (dict_keys (samples_dict (store o)) ++ pre)%list.
Proof.
  induction pre as [|n0 pre IH]; intros o Hpre Hnd.
  - cbn. now rewrite app_nil_r.
  - inversion Hpre as [|? ? [h0 Hh0] Hrest]; subst.
    rewrite (for_break_continue n0 pre _ o _ (load_sample_loads env n0 h0 o Hh0)).
    set (o1 := with_store _ o).
    assert (Hsd : dict_keys (samples_dict (store o1))
                  = (dict_keys (samples_dict (store o)) ++ [n0])%list).
    { assert (Hs : samples_dict (store o1) = dict_set (samples_dict (store o)) n0 h0).
      { subst o1.
        destruct (arg_contains n0 (data (store o)) || arg_is_all (data (store o)));
          reflexivity. }
      rewrite Hs, dict_keys_set.
      destruct (str_in n0 (dict_keys (samples_dict (store o)))) eqn:E; [| reflexivity].
      exfalso. apply str_in_In in E.
      apply NoDup_remove_2 in Hnd. apply Hnd. apply in_or_app. now left. }
    rewrite (IH o1 Hrest); rewrite Hsd, <- app_assoc; [reflexivity | exact Hnd].
Qed.

End LoadingLoop.

(** C8.  Let the sample list be [pre], then [bad], then [post], where
    every name of [pre] names a file holding a histogram and [bad] names a
    file that is missing, unreadable or holds something else.  Then
    [check_input] returns normally; the last message it logs is the error
    for [bad]; every sample of [pre] is in [samples_dict] with the
    histogram of its file; [samples_dict] has no key outside [pre], so no
    sample after [bad] is loaded; and the dictionaries are exactly those
    that loading [pre] alone leaves. *)
Theorem check_input_aborts_batch F (num : Numeric F) (env : Env F)
    (directory : string) (pre : list string) (bad : string) (post : list string)
    (dat : pyarg) (errs : option string) (stack : bool)
    (markers : list string) (mpl : dict rcval) (lg : list string)
    (Hpre : Forall (fun n => exists h, loads env directory n h) pre)
    (Hbad : stops_loading env directory bad) :
  let smp := AList (map PStr (pre ++ bad :: post)) in
  let o := new_Hist1D directory smp dat errs stack markers mpl lg in
  let o' := snd (check_input env o) in
  fst (check_input env o) = Ok tt /\
  (exists earlier,
     errlog o' = (earlier ++ [load_error_message env directory bad])%list) /\
  (forall n h, In n pre -> loads env directory n h ->
     dict_get (samples_dict (store o')) n = Some h) /\
  (forall n, In n (dict_keys (samples_dict (store o'))) -> In n pre) /\
  loaded o'
  = loaded (snd (for_break pre (load_sample env) (snd (check_data_names smp o)))).
Proof.
  intros smp o o'.
  assert (Hne : pre ++ bad :: post <> []) by (destruct pre; discriminate).
  assert (Hrun := check_input_loop env o (pre ++ bad :: post) eq_refl Hne).
  fold smp in Hrun.
  pose proof (check_data_names_dir smp o) as Hdir.
  pose proof (check_data_names_loaded smp o) as Hld.
  set (o1 := snd (check_data_names smp o)) in *.
  change (dir o) with directory in Hdir.
  assert (Hpre1 : Forall (fun n => exists h, loads env (dir o1) n h) pre)
    by (rewrite Hdir; exact Hpre).
  assert (Hbad1 : stops_loading env (dir o1) bad) by (rewrite Hdir; exact Hbad).
  rewrite (load_abort env pre bad post o1 Hpre1 Hbad1) in Hrun.
  destruct (load_all env pre o1 Hpre1) as (_ & Hlog & Hkeys & Hget & _).
  subst o'. rewrite Hrun. cbn [fst snd].
  split; [reflexivity |]. split; [| split; [| split]].
  - exists (errlog (snd (for_break pre (load_sample env) o1))).
    cbn. now rewrite Hdir.
  - intros n h Hin Hl. cbn. apply Hget; [exact Hin | now rewrite Hdir].
  - intros n Hn. cbn in Hn. apply Hkeys in Hn as [Hn | Hn]; [| exact Hn].
    unfold loaded in Hld. injection Hld as Hsd _ _ _ _. rewrite Hsd in Hn.
    destruct Hn.
  - reflexivity.
Qed.

Lemma check_input_aborts_batch_witness :
  Forall (fun n => exists h, loads example_env EmptyString n h) ["a"%string] /\
  stops_loading example_env EmptyString "notes" /\
  let o := example_new (AList [PStr "a"; PStr "notes"; PStr "b"]) (AList []) None in
  let o' := snd (check_input example_env o) in
  fst (check_input example_env o) = Ok tt /\
  (forall n, In n (dict_keys (samples_dict (store o'))) -> In n ["a"%string]).
Proof.
  assert (Hpre : Forall (fun n => exists h, loads example_env EmptyString n h)
                        ["a"%string]).
  { constructor; [| constructor]. eexists. reflexivity. }
  assert (Hbad : stops_loading example_env EmptyString "notes") by exact I.
  split; [exact Hpre |]. split; [exact Hbad |].
  pose proof (check_input_aborts_batch float _ example_env EmptyString
                ["a"%string] "notes"%string ["b"%string] (AList []) None false
                ["."; "o"]%string default_rcps [] Hpre Hbad) as H.
  cbv zeta in H. destruct H as (Hok & _ & _ & Hkeys & _).
  intros o o'. split; [exact Hok | exact Hkeys].
Defined.

(** ** The two roles partition the loaded samples *)

Lemma str_in_false (x : string) (l : list string) : str_in x l = false <-> ~ In x l.
Proof.
  rewrite <- str_in_In. destruct (str_in x l); split; intros; congruence.
Qed.

Lemma NoDup_snoc {A} (l : list A) (x : A) : NoDup l -> ~ In x l -> NoDup (l ++ [x]).
Proof.
  intros Hl Hx. apply NoDup_app; [exact Hl | repeat constructor; intros [] |].
  intros a Ha [<- | []]. contradiction.
Qed.

(** Setting a key in two dictionaries whose keys are a list and one of
    its filters keeps them so. *)
Lemma keys_set_filter {V W} (f : string -> bool) (d : dict V) (e : dict W)
    (k : string) (v : V) (w : W) :
  dict_keys e = filter f (dict_keys d) -> f k = true ->
  dict_keys (dict_set e k w) = filter f (dict_keys (dict_set d k v)).
Proof.
  intros He Hf. rewrite !dict_keys_set, He.
  destruct (str_in k (dict_keys d)) eqn:Ek.
  - assert (Hin : str_in k (filter f (dict_keys d)) = true).
    { apply str_in_In, filter_In. split; [now apply str_in_In | exact Hf]. }
    now rewrite Hin.
  - assert (Hin : str_in k (filter f (dict_keys d)) = false).
    { apply str_in_false. intros H. apply filter_In in H as [H _].
      apply str_in_false in Ek. contradiction. }
    rewrite Hin, filter_app. simpl. now rewrite Hf.
Qed.

Lemma keys_set_filter_out {V W} (f : string -> bool) (d : dict V) (e : dict W)
    (k : string) (v : V) :
  dict_keys e = filter f (dict_keys d) -> f k = false ->
  dict_keys e = filter f (dict_keys (dict_set d k v)).
Proof.
  intros He Hf. rewrite dict_keys_set.
  destruct (str_in k (dict_keys d)); [exact He |].
  rewrite filter_app. simpl. now rewrite Hf, app_nil_r.
Qed.

Lemma keys_set_NoDup {V} (d : dict V) (k : string) (v : V) :
  NoDup (dict_keys d) -> NoDup (dict_keys (dict_set d k v)).
Proof.
  intros Hd. rewrite dict_keys_set.
  destruct (str_in k (dict_keys d)) eqn:E; [exact Hd |].
  apply NoDup_snoc; [exact Hd | now apply str_in_false].
Qed.

Section Partition.
Context {F : Type} {num : Numeric F}.
Variable env : Env F.

Lemma partitioned_register (n : string) (h : Histogram F) (o : obj F) :
  partitioned o ->
  partitioned
    (with_store (if arg_contains n (data (store o)) || arg_is_all (data (store o))
                 then register_data n h else register_histo n h) o).
Proof.
  unfold partitioned. intros (Hnd & Hd & Hh).
  destruct (arg_contains n (data (store o)) || arg_is_all (data (store o))) eqn:E;
    cbn [store with_store data samples_dict data_dict histos_dict
         register_data register_histo].
  - split; [now apply keys_set_NoDup |]. split.
    + now apply keys_set_filter.
    + apply keys_set_filter_out; [exact Hh | now rewrite E].
  - split; [now apply keys_set_NoDup |]. split.
    + now apply keys_set_filter_out.
    + apply keys_set_filter; [exact Hh | now rewrite E].
Qed.

Lemma load_sample_partitioned (n : string) (o : obj F) :
  partitioned o -> partitioned (snd (load_sample env n o)).
Proof.
  intros Hp. destruct (pickle_load env (dir o ++ n ++ ".pkl")%string) as [| | h] eqn:E.
  - rewrite load_sample_stops by (unfold stops_loading; now rewrite E). exact Hp.
  - rewrite load_sample_stops by (unfold stops_loading; now rewrite E). exact Hp.
  - rewrite (load_sample_loads env n h o E). now apply partitioned_register.
Qed.

Lemma load_loop_partitioned (names : list string) :
  forall o : obj F,
    partitioned o -> partitioned (snd (for_break names (load_sample env) o)).
Proof.
  induction names as [|n names IH]; intros o Hp; [exact Hp |].
  cbn [for_break]. unfold bind at 1.
  pose proof (load_sample_partitioned n o Hp) as H1.
  destruct (load_sample env n o) as [[[|] | e] o1]; cbn [snd] in *.
  - now apply IH.
  - exact H1.
  - exact H1.
Qed.

Lemma loaded_empty_partitioned (o : obj F) :
  loaded o = ([], [], [], [], []) -> partitioned o.
Proof.
  unfold loaded, partitioned. intros H. injection H as Hs Hh Hd _ _.
  rewrite Hs, Hh, Hd. cbn. repeat split. constructor.
Qed.

(** Whatever its arguments, [check_input] ends in the loading loop over
    some names (none when it only logs), started from an object with the
    dictionaries it found. *)
Lemma check_input_shape (o : obj F) :
  exists (o1 : obj F) (names : list string),
    loaded o1 = loaded o /\
    snd (check_input env o) = snd (for_break names (load_sample env) o1).
Proof.
  unfold check_input. unfold bind at 1. unfold gets at 1.
  destruct (arg_truthy (samples (store o)));
    [| exists (snd (@logging_error F "Enter a non-empty list of samples to plot." o)), [];
       split; reflexivity].
  unfold bind at 1.
  pose proof (type_checker_loaded (samples (store o)) o) as Ht.
  destruct (type_checker (samples (store o)) o) as [[[|] | e] oa]; cbn [snd] in Ht.
  - unfold bind at 1.
    pose proof (check_data_names_loaded (samples (store o)) oa) as Hc.
    destruct (check_data_names (samples (store o)) oa) as [[[] | e] ob]; cbn [snd] in Hc.
    + unfold bind at 1.
      destruct (arg_is_list (samples (store o))).
      * unfold ret at 1. unfold bind at 1. unfold gets at 1.
        exists ob, (arg_names (samples (store ob))). split; [congruence | reflexivity].
      * unfold modify at 1. unfold bind at 1. unfold gets at 1.
        eexists _, _. split; [| reflexivity].
        transitivity (loaded ob); [reflexivity | congruence].
    + exists ob, []. split; [congruence | reflexivity].
  - exists (snd (@logging_error F "Sample entry must be strings" oa)), [].
    split; [exact Ht | reflexivity].
  - exists oa, []. split; [exact Ht | reflexivity].
Qed.

Lemma check_input_partitioned (o : obj F) :
  loaded o = ([], [], [], [], []) -> partitioned (snd (check_input env o)).
Proof.
  intros He. destruct (check_input_shape o) as (o1 & names & Hl & ->).
  apply load_loop_partitioned, loaded_empty_partitioned. congruence.
Qed.

(** What follows [check_input] in the constructor does not touch the
    attributes the loader wrote. *)
Lemma Hist1D_init_store (o : obj F) :
  store (snd (Hist1D_init env o)) = store (snd (check_input env o)).
Proof.
  unfold Hist1D_init. unfold bind at 1.
  destruct (check_input env o) as [[[] | e] o1]; [| reflexivity].
  cbn [snd].
  match goal with
  | |- store (snd (?m o1)) = _ =>
      assert (Hp : preserves (@store F) m);
      [| exact (Hp o1)]
  end.
  frame; [apply assign_colors_store | apply store_data_store].
Qed.

End Partition.

Lemma dict_len_keys {V} (d : dict V) : dict_len d = List.length (dict_keys d).
Proof. unfold dict_len, dict_keys. now rewrite length_map. Qed.

Section PartitionCounts.
Context {F : Type} {num : Numeric F}.
Variable env : Env F.

Lemma partitioned_counts (o : obj F) :
  partitioned o ->
  dict_len (histos_dict (store o)) + dict_len (data_dict (store o))
  = dict_len (samples_dict (store o)) /\
  (forall k, In k (dict_keys (histos_dict (store o))) ->
             In k (dict_keys (data_dict (store o))) -> False) /\
  (forall k, In k (dict_keys (samples_dict (store o))) <->
             In k (dict_keys (histos_dict (store o)))
             \/ In k (dict_keys (data_dict (store o)))).
Proof.
  unfold partitioned. intros (_ & Hd & Hh).
  rewrite !dict_len_keys, Hd, Hh. split; [| split].
  - rewrite Nat.add_comm. apply filter_length.
  - intros k H1 H2. apply filter_In in H1 as [_ H1]. apply filter_In in H2 as [_ H2].
    rewrite H2 in H1. discriminate.
  - intros k. rewrite !filter_In.
    destruct (arg_contains k (data (store o)) || arg_is_all (data (store o)));
      simpl; intuition congruence.
Qed.

Lemma check_input_keys (directory : string) (names : list string)
    (dat : pyarg) (errs : option string) (stack : bool)
    (markers : list string) (mpl : dict rcval) (lg : list string) :
  NoDup names ->
  Forall (fun n => exists h, loads env directory n h) names ->
  dict_keys (samples_dict (store (snd (check_input env
    (new_Hist1D directory (AList (map PStr names)) dat errs stack markers mpl lg)))))
  = names.
Proof.
  intros Hnd Hall. destruct names as [|n0 names'] eqn:En; [reflexivity |].
  rewrite <- En in *.
  set (o := new_Hist1D directory (AList (map PStr names)) dat errs stack markers mpl lg).
  assert (Hne : names <> []) by (rewrite En; discriminate).
  rewrite (check_input_loop env o names eq_refl Hne).
  pose proof (check_data_names_dir (AList (map PStr names)) o) as Hdir.
  pose proof (check_data_names_loaded (AList (map PStr names)) o) as Hld.
  set (o1 := snd (check_data_names (AList (map PStr names)) o)) in *.
  change (dir o) with directory in Hdir.
  unfold loaded in Hld. injection Hld as Hsd _ _ _ _.
  change (samples_dict (store o)) with (@nil (string * Histogram F)) in Hsd.
  rewrite load_all_keys.
  - now rewrite Hsd.
  - now rewrite Hdir.
  - now rewrite Hsd.
Qed.

End PartitionCounts.

(** C3, as amended.  Let the constructor be given [N] distinct names
    that all name files holding a histogram.  Then
    [len(histos_dict) + len(data_dict) == N] and [len(samples_dict) == N]:
    [samples_dict] holds every loaded sample under its name, in the order
    given; no name is a key of both [histos_dict] and [data_dict]; and
    every given name is a key of one of the two. *)
Theorem loaded_roles_partition F (num : Numeric F) (env : Env F)
    (directory : string) (names : list string)
    (dat : pyarg) (errs : option string) (stack : bool)
    (markers : list string) (mpl : dict rcval) (lg : list string)
    (Hnd : NoDup names)
    (Hall : Forall (fun n => exists h, loads env directory n h) names) :
  let o' := snd (Hist1D_init env
                   (new_Hist1D directory (AList (map PStr names)) dat errs stack
                               markers mpl lg)) in
  dict_len (histos_dict (store o')) + dict_len (data_dict (store o'))
  = List.length names /\
  dict_len (samples_dict (store o')) = List.length names /\
  dict_keys (samples_dict (store o')) = names /\
  (forall k, In k (dict_keys (histos_dict (store o'))) ->
             In k (dict_keys (data_dict (store o'))) -> False) /\
  (forall k, In k names <->
             In k (dict_keys (histos_dict (store o')))
             \/ In k (dict_keys (data_dict (store o')))).
Proof.
  intros o'. subst o'. rewrite Hist1D_init_store.
  set (o := new_Hist1D directory (AList (map PStr names)) dat errs stack markers mpl lg).
  pose proof (check_input_partitioned env o eq_refl) as Hp.
  pose proof (check_input_keys env directory names dat errs stack markers mpl lg
                Hnd Hall) as Hk.
  fold o in Hk.
  destruct (partitioned_counts (snd (check_input env o)) Hp) as (Hsum & Hdis & Hcov).
  assert (Hlen : dict_len (samples_dict (store (snd (check_input env o))))
                 = List.length names) by (now rewrite dict_len_keys, Hk).
  split; [congruence |]. split; [exact Hlen |]. split; [exact Hk |].
  split; [exact Hdis |].
  intros k. rewrite <- Hcov, Hk. reflexivity.
Qed.

Lemma loaded_roles_partition_witness :
  NoDup ["a"; "b"]%string /\
  Forall (fun n => exists h, loads example_env EmptyString n h) ["a"; "b"]%string /\
  let o' := snd (Hist1D_init example_env
                   (example_new (AList [PStr "a"; PStr "b"]) (AStr "b") None)) in
  dict_len (histos_dict (store o')) + dict_len (data_dict (store o')) = 2 /\
  dict_len (samples_dict (store o')) = 2.
Proof.
  assert (Hnd : NoDup ["a"; "b"]%string).
  { constructor; [intros [H | []]; discriminate |].
    constructor; [intros [] | constructor]. }
  assert (Hall : Forall (fun n => exists h, loads example_env EmptyString n h)
                        ["a"; "b"]%string).
  { repeat constructor; eexists; reflexivity. }
  split; [exact Hnd |]. split; [exact Hall |].
  pose proof (loaded_roles_partition float _ example_env EmptyString
                ["a"; "b"]%string (AStr "b") None false ["."; "o"]%string
                default_rcps [] Hnd Hall) as H.
  cbv zeta in H. destruct H as (H1 & H2 & _).
  intros o'. split; [exact H1 | exact H2].
Defined.

(** C3, as stated, fails: with [samples=['a']] and [data='all'] the
    constructor returns, one sample was given, and
    [len(samples_dict) + len(data_dict)] is 2, because [samples_dict]
    holds the data-role sample as well. *)
Lemma samples_dict_counts_data_too :
  let r := Hist1D_init example_env
             (example_new (AList [PStr "a"]) (AStr "all") None) in
  fst r = Ok tt /\
  dict_len (samples_dict (store (snd r))) + dict_len (data_dict (store (snd r))) = 2 /\
  dict_len (samples_dict (store (snd r))) + dict_len (data_dict (store (snd r)))
  <> List.length ["a"%string].
Proof.
  cbv zeta. split; [vm_compute; reflexivity |].
  split; [vm_compute; reflexivity | vm_compute; discriminate].
Qed.

(** ** The error bars *)

Lemma drawn_drawn {F} (a b : list (draw_call F)) (o : obj F) :
  drawn b (drawn a o) = drawn (a ++ b) o.
Proof. unfold drawn, with_canvas. cbn. now rewrite app_assoc. Qed.

Lemma drawn_nil {F} (o : obj F) : drawn [] o = o.
Proof. destruct o. unfold drawn, with_canvas. cbn. now rewrite app_nil_r. Qed.

Lemma map_outcome_length {A B} (f : A -> outcome B) (l : list A) (r : list B) :
  map_outcome f l = Ok r -> List.length r = List.length l.
Proof.
  revert r. induction l as [|x l IH]; intros r H; simpl in H.
  - now injection H as <-.
  - destruct (f x); [| discriminate]. simpl in H.
    destruct (map_outcome f l) as [ys |]; [| discriminate].
    simpl in H. injection H as <-. simpl. now rewrite (IH ys).
Qed.

Section ErrBars.
Context {F : Type} {num : Numeric F}.

Lemma get_samples_colors_run (d : dict (Histogram F)) (o : obj F) (cols : list color) :
  map_outcome (dict_index (colors_dict (style o))) (dict_keys d) = Ok cols ->
  exists cr, get_samples_colors d o = (Ok (dict_values d, cr), o)
             /\ as_color_list cr = cols.
Proof.
  intros H. unfold get_samples_colors, bind, gets, lift. rewrite H.
  destruct cols as [|c [|c' cols]].
  - now exists (ColorList []).
  - now exists (OneColor c).
  - now exists (ColorList (c :: c' :: cols)).
Qed.

Lemma errs_loop_run (ax : axes_id) (ratio : bool) (centers widths : list F)
    (hs : list (Histogram F)) :
  forall (seen rest : list color) (o : obj F),
    List.length rest = List.length hs ->
    for_each (combine (seq (List.length seen) (List.length hs)) hs)
             (errs_loop_body ax ratio centers widths (seen ++ rest)) o
    = (Ok tt, drawn (loop_bars ax ratio centers widths hs rest) o).
Proof.
  induction hs as [|H hs IH]; intros seen rest o Hlen.
  - cbn. now rewrite drawn_nil.
  - destruct rest as [|c rest]; [discriminate |].
    cbn [List.length seq combine for_each].
    unfold bind at 1. unfold errs_loop_body at 1. cbn [errbars].
    unfold bind at 1. unfold lift at 1. unfold list_index at 1.
    rewrite nth_error_app2, Nat.sub_diag by apply Nat.le_refl.
    cbn [nth_error]. unfold draw at 1, modify at 1.
    replace (seen ++ c :: rest)%list with ((seen ++ [c]) ++ rest)%list
      by (now rewrite <- app_assoc).
    replace (S (List.length seen)) with (List.length (seen ++ [c])%list)
      by (rewrite length_app; simpl; apply Nat.add_1_r).
    rewrite IH by (simpl in Hlen; congruence).
    f_equal.
    exact (drawn_drawn
             [err_bar ax ratio centers widths (NpArray (h_values H)) (Some c)
                      (if color_is_black c then Some "Uncertainty"%string else None)]
             (loop_bars ax ratio centers widths hs rest) o).
Qed.

(** What [histbins_errs] does when the colours are found and, in stack
    mode, the total exists. *)
Lemma histbins_errs_run (ax : axes_id) (ratio : bool) (o : obj F)
    (cols : list color) (h0 : Histogram F) (hs : list (Histogram F)) :
  dict_values (histos_dict (store o)) = h0 :: hs ->
  map_outcome (dict_index (colors_dict (style o)))
              (dict_keys (histos_dict (store o))) = Ok cols ->
  histbins_errs ax ratio o
  = if is_stack o then
      match get_stackvalues (h0 :: hs) with
      | Ok vals =>
          (Ok tt, drawn [err_bar ax ratio (h_centers h0) (h_widths h0) vals None
                                 (Some "Uncertainty"%string)] o)
      | Raise e => (Raise e, o)
      end
    else
      (Ok tt, drawn (loop_bars ax ratio (h_centers h0) (h_widths h0) (h0 :: hs) cols) o).
Proof.
  intros Hvals Hcols. unfold histbins_errs.
  unfold bind at 1. unfold gets at 1. unfold bind at 1.
  destruct (get_samples_colors_run _ o cols Hcols) as (cr & Hrun & Hcr).
  rewrite Hrun. cbn [fst snd]. rewrite Hvals, Hcr.
  unfold bind at 1. unfold lift at 1. cbn [list_first].
  unfold bind at 1. unfold gets at 1.
  destruct (is_stack o).
  - unfold bind at 1. unfold lift at 1.
    destruct (get_stackvalues (h0 :: hs)) as [vals | e]; reflexivity.
  - unfold enumerate.
    apply (errs_loop_run ax ratio (h_centers h0) (h_widths h0) (h0 :: hs) [] cols o).
    rewrite (map_outcome_length _ _ _ Hcols).
    unfold dict_keys, dict_values in *.
    rewrite <- Hvals, !length_map. reflexivity.
Qed.

End ErrBars.

Section ErrBands.
Context {F : Type} {num : Numeric F}.

Lemma zip_with_map_same {A} (f g : A -> F) (xs : list A) :
  zip_with num_add (map f xs) (map g xs) = map (fun x => num_add (f x) (g x)) xs.
Proof. induction xs as [|x xs IH]; simpl; [reflexivity | now rewrite IH]. Qed.

Lemma np_add_map (f g : F -> F) (v : npval F) :
  np_add (np_map f v) (np_map g v) = np_map (fun x => num_add (f x) (g x)) v.
Proof. destruct v as [x | xs]; simpl; [reflexivity | now rewrite zip_with_map_same]. Qed.

Lemma np_map_ext (f g : F -> F) (v : npval F) :
  (forall x, f x = g x) -> np_map f v = np_map g v.
Proof.
  intros H. destruct v as [x | xs]; simpl; [now rewrite H |].
  f_equal. apply map_ext. exact H.
Qed.

Lemma np_nth_map (f : F -> F) (v : npval F) (i : nat) :
  np_nth (np_map f v) i = option_map f (np_nth v i).
Proof.
  destruct v as [x | xs]; simpl; [destruct i; reflexivity | apply nth_error_map].
Qed.

Lemma loop_bars_each (ax : axes_id) (ratio : bool) (centers widths : list F)
    (P : npval F -> draw_call F -> Prop) :
  (forall vals ec lbl, P vals (err_bar ax ratio centers widths vals ec lbl)) ->
  forall hs cols,
    List.length cols = List.length hs ->
    Forall2 P (map (fun h => NpArray (h_values h)) hs)
              (loop_bars ax ratio centers widths hs cols).
Proof.
  intros HP. induction hs as [|h hs IH]; intros [|c cols] Hlen; try discriminate.
  - constructor.
  - simpl. constructor; [apply HP | apply IH; simpl in Hlen; congruence].
Qed.

(** One bar per value sequence that [histbins_errs] works on, each the
    bar of [errbars] over that sequence. *)
Lemma histbins_errs_bars (ax : axes_id) (ratio : bool) (o : obj F)
    (cols : list color) (ins : list (npval F))
    (P : npval F -> draw_call F -> Prop) :
  histos_dict (store o) <> [] ->
  map_outcome (dict_index (colors_dict (style o)))
              (dict_keys (histos_dict (store o))) = Ok cols ->
  err_inputs o = Ok ins ->
  (forall ctr w vals ec lbl, P vals (err_bar ax ratio ctr w vals ec lbl)) ->
  exists bars,
    histbins_errs ax ratio o = (Ok tt, drawn bars o) /\ Forall2 P ins bars.
Proof.
  intros Hne Hcols Hins HP.
  destruct (dict_values (histos_dict (store o))) as [|h0 hs] eqn:Hvals.
  { destruct (histos_dict (store o)); [congruence | discriminate]. }
  rewrite (histbins_errs_run ax ratio o cols h0 hs Hvals Hcols).
  unfold err_inputs in Hins. rewrite Hvals in Hins.
  destruct (is_stack o).
  - destruct (get_stackvalues (h0 :: hs)) as [vals | e]; [| discriminate].
    simpl in Hins. injection Hins as <-.
    eexists. split; [reflexivity |]. constructor; [apply HP | constructor].
  - injection Hins as <-.
    eexists. split; [reflexivity |].
    change (NpArray (h_values h0) :: map (fun h => NpArray (h_values h)) hs)
      with (map (fun h : Histogram F => NpArray (h_values h)) (h0 :: hs)).
    apply loop_bars_each; [intros; apply HP |].
    rewrite (map_outcome_length _ _ _ Hcols).
    unfold dict_keys, dict_values in *. rewrite <- Hvals, !length_map. reflexivity.
Qed.

End ErrBands.




(** ** Zero bins in ratio mode *)

Lemma float_eqb_zero (v : float) :
  PrimFloat.eqb v 0%float = true -> v = 0%float \/ v = (-0)%float.
Proof.
  rewrite eqb_spec. intros H.
  rewrite <- (SF2Prim_Prim2SF v).
  change (Prim2SF 0%float) with (S754_zero false) in H.
  destruct (Prim2SF v) as [s | s | | s m e]; simpl in H;
    try discriminate; try (destruct s; discriminate).
  destruct s; [right | left]; reflexivity.
Qed.

Lemma errbars_at_ratio_zero (v : float) :
  PrimFloat.eqb v 0%float = true -> errbars_at true v = (nan, nan).
Proof. intros H. destruct (float_eqb_zero v H) as [-> | ->]; reflexivity. Qed.

(** C2, as amended.  On binary64 numbers, for an object with at least one
    histogram whose colours are assigned (and whose total exists, in
    stack mode): [histbins_errs] in ratio mode returns normally, no
    division error is raised or logged, and in every bar it draws every
    bin, of value [v], has the height [2 * ((sqrt v + v)/v - 1)] and the
    bottom [1 - ((sqrt v + v)/v - 1)], computed with numpy's division;
    for a bin whose value equals 0 both are [nan]. *)
Theorem histbins_errs_ratio_zero_bin (o : obj float) (ax : axes_id)
    (cols : list color) (ins : list (npval float))
    (Hne : histos_dict (store o) <> [])
    (Hcols : map_outcome (dict_index (colors_dict (style o)))
                         (dict_keys (histos_dict (store o))) = Ok cols)
    (Hins : err_inputs o = Ok ins) :
  exists bars,
    histbins_errs ax true o = (Ok tt, drawn bars o) /\
    errlog (drawn bars o) = errlog o /\
    Forall2 (fun vals bar =>
               exists ctr heights w bottom ec lbl,
                 bar = Bar ax ctr heights w bottom ec lbl /\
                 forall i v,
                   np_nth vals i = Some v ->
                   np_nth heights i
                   = Some (2 * ((PrimFloat.sqrt v + v) / v - 1))%float /\
                   np_nth bottom i
                   = Some (1 - ((PrimFloat.sqrt v + v) / v - 1))%float /\
                   (PrimFloat.eqb v 0%float = true ->
                    np_nth heights i = Some nan /\ np_nth bottom i = Some nan))
            ins bars.
Proof.
  destruct (histbins_errs_bars ax true o cols ins
              (fun vals bar =>
                 exists ctr heights w bottom ec lbl,
                   bar = Bar ax ctr heights w bottom ec lbl /\
                   forall i v,
                     np_nth vals i = Some v ->
                     np_nth heights i
                     = Some (2 * ((PrimFloat.sqrt v + v) / v - 1))%float /\
                     np_nth bottom i
                     = Some (1 - ((PrimFloat.sqrt v + v) / v - 1))%float /\
                     (PrimFloat.eqb v 0%float = true ->
                      np_nth heights i = Some nan /\ np_nth bottom i = Some nan))
              Hne Hcols Hins) as (bars & Hrun & Hall).
  - intros ctr w vals ec lbl. unfold err_bar, errbars. cbn [fst snd].
    do 6 eexists. split; [reflexivity |].
    intros i v Hv. rewrite !np_nth_map, Hv. cbn [option_map].
    split; [reflexivity |]. split; [reflexivity |].
    intros Hz. now rewrite (errbars_at_ratio_zero v Hz).
  - exists bars. split; [exact Hrun |]. split; [reflexivity | exact Hall].
Qed.

Lemma histbins_errs_ratio_zero_bin_witness :
  histos_dict (store example_obj) <> [] /\
  err_inputs example_obj = Ok [NpArray [4; 0; 9]%float] /\
  exists bars,
    histbins_errs BotAx true example_obj = (Ok tt, drawn bars example_obj) /\
    Forall2 (fun vals bar =>
               exists ctr heights w bottom ec lbl,
                 bar = Bar BotAx ctr heights w bottom ec lbl /\
                 forall i v,
                   np_nth vals i = Some v ->
                   np_nth heights i
                   = Some (2 * ((PrimFloat.sqrt v + v) / v - 1))%float /\
                   np_nth bottom i
                   = Some (1 - ((PrimFloat.sqrt v + v) / v - 1))%float /\
                   (PrimFloat.eqb v 0%float = true ->
                    np_nth heights i = Some nan /\ np_nth bottom i = Some nan))
            [NpArray [4; 0; 9]%float] bars.
Proof.
  assert (Hne : histos_dict (store example_obj) <> []) by discriminate.
  assert (Hins : err_inputs example_obj = Ok [NpArray [4; 0; 9]%float]) by reflexivity.
  split; [exact Hne |]. split; [exact Hins |].
  destruct (histbins_errs_ratio_zero_bin example_obj BotAx [Named "black"]
              [NpArray [4; 0; 9]%float] Hne eq_refl Hins) as (bars & Hrun & _ & Hall).
  exists bars. split; [exact Hrun | exact Hall].
Defined.

(** C2, as stated, fails: the histogram of [a.pkl] has the bin values
    4, 0, 9; in ratio mode [histbins_errs] returns normally, logs nothing,
    and the bar it draws has [nan] as height and as bottom in the bin
    whose value is 0. *)
Lemma zero_bin_draws_nan_without_error :
  h_values (hist_of [4; 0; 9]%float) = [4; 0; 9]%float /\
  dict_values (histos_dict (store example_obj)) = [hist_of [4; 0; 9]%float] /\
  fst (histbins_errs BotAx true example_obj) = Ok tt /\
  errlog (snd (histbins_errs BotAx true example_obj)) = errlog example_obj /\
  exists ctr heights w bottom ec lbl,
    canvas (snd (histbins_errs BotAx true example_obj))
    = (canvas example_obj ++ [Bar BotAx ctr (NpArray heights) w (NpArray bottom) ec lbl])%list
    /\ nth_error heights 1 = Some nan /\ nth_error bottom 1 = Some nan.
Proof.
  split; [reflexivity |]. split; [reflexivity |].
  split; [vm_compute; reflexivity |]. split; [vm_compute; reflexivity |].
  do 6 eexists. split; [vm_compute; reflexivity |].
  split; reflexivity.
Qed.

(** ** Digits and the shape of a formatted number *)

Lemma digit_cases (d : Z) :
  (0 <= d < 10)%Z ->
  d = 0%Z \/ d = 1%Z \/ d = 2%Z \/ d = 3%Z \/ d = 4%Z \/ d = 5%Z \/ d = 6%Z
  \/ d = 7%Z \/ d = 8%Z \/ d = 9%Z.
Proof. lia. Qed.

Ltac by_digit d H :=
  destruct (digit_cases d H) as
    [-> | [-> | [-> | [-> | [-> | [-> | [-> | [-> | [-> | ->]]]]]]]]];
  reflexivity.

Lemma digit_char_not_dot (d : Z) :
  (0 <= d < 10)%Z -> Ascii.eqb (digit_char d) "."%char = false.
Proof. intros H. by_digit d H. Qed.

Lemma digit_char_is_zero (d : Z) :
  (0 <= d < 10)%Z ->
  str_eqb (String (digit_char d) EmptyString) "0" = Z.eqb d 0.
Proof. intros H. by_digit d H. Qed.

Lemma mod10_digit (n : Z) : (0 <= n mod 10 < 10)%Z.
Proof. apply Z.mod_pos_bound. lia. Qed.

Lemma digits_loop_no_dot (fuel : nat) :
  forall (n : Z) (acc : string),
    str_has "." (digits_loop fuel n acc) = str_has "." acc.
Proof.
  induction fuel as [|fuel IH]; intros n acc; cbn [digits_loop]; [reflexivity |].
  destruct (n / 10 =? 0)%Z.
  - cbn [str_has]. now rewrite digit_char_not_dot by apply mod10_digit.
  - rewrite IH. cbn [str_has]. now rewrite digit_char_not_dot by apply mod10_digit.
Qed.

Lemma str_of_Z_no_dot (n : Z) : str_has "." (str_of_Z n) = false.
Proof. unfold str_of_Z. now rewrite digits_loop_no_dot. Qed.

Lemma str_has_app (c : ascii) (a b : string) :
  str_has c (a ++ b) = str_has c a || str_has c b.
Proof.
  induction a as [|x a IH]; simpl; [reflexivity |].
  now rewrite IH, orb_assoc.
Qed.

Lemma str_app_assoc (a b c : string) : (a ++ (b ++ c) = (a ++ b) ++ c)%string.
Proof. induction a as [|x a IH]; simpl; [reflexivity | now rewrite IH]. Qed.

Lemma split_at_none (c : ascii) (s : string) :
  str_has c s = false -> split_at c s = (s, []).
Proof.
  induction s as [|a s IH]; simpl; [reflexivity |].
  intros H. apply orb_false_iff in H as [Ha Hs].
  now rewrite (IH Hs), Ha.
Qed.

Lemma split_at_first (c : ascii) (a b : string) :
  str_has c a = false ->
  split_at c (a ++ String c b) = (a, fst (split_at c b) :: snd (split_at c b)).
Proof.
  induction a as [|x a IH]; simpl; intros H.
  - rewrite Ascii.eqb_refl. now destruct (split_at c b).
  - apply orb_false_iff in H as [Hx Ha].
    now rewrite (IH Ha), Hx.
Qed.

Lemma str_split_two (c : ascii) (a b : string) :
  str_has c a = false -> str_has c b = false ->
  str_split c (a ++ String c b) = [a; b].
Proof.
  intros Ha Hb. unfold str_split.
  now rewrite (split_at_first c a b Ha), (split_at_none c b Hb).
Qed.

Lemma mod100_units (q : Z) : ((q mod 100) mod 10 = q mod 10)%Z.
Proof. Z.div_mod_to_equations. lia. Qed.

Lemma mod100_tens (q : Z) : (((q mod 100) / 10) mod 10 = (q / 10) mod 10)%Z.
Proof. Z.div_mod_to_equations. lia. Qed.

(** The two decimals that the code reads off a two-decimal rendering are
    the digits of the tens and of the units of the rounded hundredths. *)
Lemma decimals_of_digits (neg : bool) (q : Z) :
  decimals_of (format_digits 2 neg q)
  = Ok (String (digit_char ((q / 10) mod 10)) EmptyString,
        String (digit_char (q mod 10)) EmptyString).
Proof.
  unfold decimals_of, format_digits.
  cbn [fixed_digits Z.of_nat Pos.of_succ_nat Pos.succ].
  set (d2 := digit_char (q mod 10 ^ 2 mod 10)).
  set (d1 := digit_char (q mod 10 ^ 2 / 10 mod 10)).
  rewrite str_app_assoc.
  rewrite str_split_two.
  - cbn [list_index nth_error obind str_index String.get]. subst d1 d2.
    change (10 ^ 2)%Z with 100%Z. now rewrite mod100_tens, mod100_units.
  - rewrite str_has_app, str_of_Z_no_dot. now destruct neg.
  - subst d1 d2. cbn [str_has].
    now rewrite !digit_char_not_dot by apply mod10_digit.
Qed.

Lemma decimals_of_number (x : float) :
  is_number x ->
  decimals_of (format_fixed 2 x)
  = Ok (String (digit_char (first_decimal x)) EmptyString,
        String (digit_char (second_decimal x)) EmptyString).
Proof.
  unfold is_number, format_fixed, first_decimal, second_decimal, hundredths, format_spec.
  destruct (Prim2SF x) as [s | s | | s m e]; intros H; try contradiction.
  - apply decimals_of_digits.
  - apply decimals_of_digits.
Qed.

(** ** The precision of the tick labels *)

Lemma need_loop_flags (l : list float) :
  forall need1 : bool,
    Forall is_number l ->
    exists need1',
      need_loop (map (format_fixed 2) l) need1
      = Ok (need1', existsb (fun x => negb (second_decimal x =? 0)%Z) l) /\
      (existsb (fun x => negb (second_decimal x =? 0)%Z) l = false ->
       need1' = need1 || existsb (fun x => negb (first_decimal x =? 0)%Z) l).
Proof.
  induction l as [|x l IH]; intros need1 Hall.
  - exists need1. split; [reflexivity |]. intros _. now rewrite orb_false_r.
  - inversion Hall as [|? ? Hx Hl]; subst.
    cbn [map need_loop existsb]. rewrite (decimals_of_number x Hx).
    cbn [obind fst snd].
    rewrite !digit_char_is_zero by apply mod10_digit.
    fold (first_decimal x). fold (second_decimal x).
    destruct (second_decimal x =? 0)%Z; cbn [negb orb].
    + destruct (IH (if negb (first_decimal x =? 0)%Z then true else need1) Hl)
        as (n' & Hrun & Hn').
      exists n'. split; [exact Hrun |].
      intros Hnone. rewrite (Hn' Hnone).
      destruct (first_decimal x =? 0)%Z, need1; reflexivity.
    + exists need1. split; [reflexivity | discriminate].
Qed.

Lemma removelast_map {A B} (f : A -> B) (l : list A) :
  removelast (map f l) = map f (removelast l).
Proof.
  induction l as [|x l IH]; [reflexivity |].
  destruct l as [|y l]; [reflexivity |].
  cbn [map removelast] in *. now rewrite IH.
Qed.

Lemma interior_map {A B} (f : A -> B) (l : list A) :
  interior (map f l) = map f (interior l).
Proof.
  unfold interior. destruct l as [|x l]; [reflexivity |].
  cbn [map tl]. apply removelast_map.
Qed.

Lemma format_labels_precision (ticks : list float) :
  Forall is_number (interior ticks) ->
  format_labels ticks = Ok (map (format_fixed (spec_precision ticks)) ticks).
Proof.
  intros Hall. unfold format_labels, spec_precision. rewrite interior_map.
  destruct (need_loop_flags (interior ticks) false Hall) as (n' & Hrun & Hn').
  rewrite Hrun. cbn [obind fst snd].
  destruct (existsb (fun x => negb (second_decimal x =? 0)%Z) (interior ticks));
    [reflexivity |].
  rewrite (Hn' eq_refl). cbn [orb].
  destruct (existsb (fun x => negb (first_decimal x =? 0)%Z) (interior ticks));
    reflexivity.
Qed.

Lemma blank_edges_blanked (edges : bool) (labels : list string) :
  labels <> [] ->
  blank_edges edges labels = Ok (if edges then labels else blanked labels).
Proof.
  intros Hne. unfold blank_edges. destruct edges; [reflexivity |].
  destruct labels as [|l0 rest]; [congruence | reflexivity].
Qed.

Lemma tick_labels_spec (ticks : list float) (edges : bool) :
  ticks <> [] -> Forall is_number (interior ticks) ->
  tick_labels ticks edges = Ok (spec_labels ticks edges).
Proof.
  intros Hne Hall. unfold tick_labels, spec_labels.
  rewrite (format_labels_precision ticks Hall). cbn [obind].
  apply blank_edges_blanked. destruct ticks; [congruence | discriminate].
Qed.

(** [custom_yaxis] stores the ticks of [np.arange] and the labels that
    lines 912 to 938 compute from them. *)
Lemma custom_yaxis_run {F} (env : Env F) (o : obj F) (yl : list float)
    (step lo hi : float) (edges : bool) (ls : list string) :
  list_first yl = Ok lo -> list_last yl = Ok hi ->
  tick_labels (np_arange env lo (PrimFloat.add hi step) step) edges = Ok ls ->
  exists o',
    custom_yaxis env yl (Some step) edges o = (Ok tt, o') /\
    ybotrange (rp o') = np_arange env lo (PrimFloat.add hi step) step /\
    ybotlabels (rp o') = ls /\
    custom_ylims (rp o') = true.
Proof.
  intros Hlo Hhi Hls. unfold custom_yaxis.
  unfold bind at 1. unfold modify at 1.
  unfold bind at 1. unfold lift at 1. rewrite Hlo.
  unfold bind at 1. unfold lift at 1. rewrite Hhi.
  unfold bind at 1. unfold ret at 1.
  unfold bind at 1. unfold modify at 1.
  unfold bind at 1. unfold gets at 1.
  cbn [rp with_rp ybotrange set_ybotrange].
  unfold tick_labels in Hls.
  destruct (format_labels (np_arange env lo (PrimFloat.add hi step) step))
    as [l0 | e]; [| discriminate].
  cbn [obind] in Hls.
  unfold bind at 1. unfold lift at 1.
  unfold bind at 1. unfold modify at 1.
  unfold blank_edges in Hls. destruct edges.
  - injection Hls as <-. eexists. split; [reflexivity |]. repeat split.
  - unfold bind at 1. unfold gets at 1.
    cbn [rp with_rp ybotlabels set_ybotlabels].
    destruct (set_first EmptyString l0) as [l1 | e]; [| discriminate].
    cbn [obind] in Hls.
    unfold bind at 1. unfold lift at 1.
    unfold bind at 1. unfold modify at 1.
    unfold bind at 1. unfold lift at 1. rewrite Hls.
    eexists. split; [reflexivity |]. repeat split.
Qed.



(* ================================================================== *)
(** * Part III: further properties of the code *)
(* ================================================================== *)

(** ** The loader, for every argument *)

Lemma returns_for_break {F A} (l : list A) (body : A -> M F bool) :
  (forall x, returns (body x)) -> returns (for_break l body).
Proof.
  intros Hb. induction l as [|x l IH]; simpl.
  - apply returns_ret.
  - apply returns_bind; [apply Hb |]. intros [|]; [exact IH | apply returns_ret].
Qed.

Ltac returns_more :=
  repeat first
    [ returns_step
    | match goal with
      | |- returns (for_break _ _) => apply returns_for_break; intros ?
      end ].

Lemma item_strs_length (l : list pyitem) : List.length (item_strs l) <= List.length l.
Proof.
  induction l as [|a l IH]; simpl; [apply Nat.le_refl |].
  destruct a; simpl; lia.
Qed.

Lemma item_strs_contains (l : list pyitem) (k : string) :
  In k (item_strs l) -> existsb (item_eqb (PStr k)) l = true.
Proof.
  induction l as [|a l IH]; simpl; [contradiction |].
  destruct a as [s | z]; simpl.
  - intros [-> | H]; [now rewrite str_eqb_refl | rewrite (IH H); apply orb_true_r].
  - exact IH.
Qed.

Lemma type_checker_true {F} (a : pyarg) (o oa : obj F) :
  type_checker a o = (Ok true, oa) -> oa = o.
Proof.
  unfold type_checker. destruct a as [l | s].
  - destruct (forallb is_str l); [| discriminate].
    unfold ret. now intros [= <-].
  - unfold ret. now intros [= <-].
Qed.

Section LoaderAlways.
Context {F : Type} {num : Numeric F}.
Variable env : Env F.

Lemma check_input_returns : returns (check_input env).
Proof.
  unfold check_input, check_data_names, type_checker, load_sample. returns_more.
Qed.

Lemma load_sample_samples (n : string) :
  preserves (fun o : obj F => samples (store o)) (load_sample env n).
Proof. unfold load_sample. frame. Qed.

Lemma load_loop_samples (names : list string) :
  preserves (fun o : obj F => samples (store o)) (for_break names (load_sample env)).
Proof. apply preserves_for_break. intros n. apply load_sample_samples. Qed.

(** The loop adds no key that is not one of its names. *)
Lemma load_loop_keys_incl (names : list string) :
  forall (o : obj F) (k : string),
    In k (dict_keys (samples_dict (store (snd (for_break names (load_sample env) o))))) ->
    In k (dict_keys (samples_dict (store o))) \/ In k names.
Proof.
  induction names as [|n names IH]; intros o k Hk; [now left |].
  cbn [for_break] in Hk. unfold bind at 1 in Hk.
  destruct (pickle_load env (dir o ++ n ++ ".pkl")%string) as [| | h] eqn:E.
  - rewrite load_sample_stops in Hk by (unfold stops_loading; now rewrite E).
    now left.
  - rewrite load_sample_stops in Hk by (unfold stops_loading; now rewrite E).
    now left.
  - rewrite (load_sample_loads env n h o E) in Hk.
    apply IH in Hk as [Hk | Hk]; [| right; now right].
    assert (Hs : samples_dict (store (with_store
                   (if arg_contains n (data (store o)) || arg_is_all (data (store o))
                    then register_data n h else register_histo n h) o))
                 = dict_set (samples_dict (store o)) n h).
    { destruct (arg_contains n (data (store o)) || arg_is_all (data (store o)));
        reflexivity. }
    rewrite Hs, dict_keys_set in Hk.
    destruct (str_in n (dict_keys (samples_dict (store o)))); [now left |].
    apply in_app_or in Hk as [Hk | [<- | []]]; [now left | right; now left].
Qed.

(** [check_input] ends in the loading loop over names that are all in
    [self.samples], started with the dictionaries it found. *)
Lemma check_input_names (o : obj F) :
  exists (o1 : obj F) (names : list string),
    loaded o1 = loaded o /\
    snd (check_input env o) = snd (for_break names (load_sample env) o1) /\
    List.length names <= arg_len (samples (store o1)) /\
    (forall k, In k names -> arg_contains k (samples (store o1)) = true).
Proof.
  unfold check_input. unfold bind at 1. unfold gets at 1.
  destruct (arg_truthy (samples (store o))).
  2:{ exists (snd (@logging_error F "Enter a non-empty list of samples to plot." o)), [].
      repeat split; [apply Nat.le_0_l | intros k []]. }
  unfold bind at 1.
  pose proof (type_checker_loaded (samples (store o)) o) as Ht.
  destruct (type_checker (samples (store o)) o) as [[[|] | e] oa] eqn:Etc; cbn [snd] in Ht.
  - unfold bind at 1.
    pose proof (check_data_names_loaded (samples (store o)) oa) as Hc.
    pose proof (check_data_names_samples (samples (store o)) oa) as Hsm.
    assert (Hsa : samples (store oa) = samples (store o)).
    { now rewrite (type_checker_true _ _ _ Etc). }
    destruct (check_data_names (samples (store o)) oa) as [[[] | e] ob];
      cbn [snd] in Hc, Hsm.
    + unfold bind at 1.
      destruct (samples (store o)) as [l | s] eqn:Es; cbn [arg_is_list].
      * unfold ret at 1. unfold bind at 1. unfold gets at 1.
        exists ob, (arg_names (samples (store ob))).
        rewrite Hsm, Hsa. cbn [arg_names arg_len arg_contains].
        split; [congruence |]. split; [reflexivity |].
        split; [apply item_strs_length | apply item_strs_contains].
      * unfold modify at 1. unfold bind at 1. unfold gets at 1.
        eexists _, _. split; [| split; [reflexivity |]].
        -- transitivity (loaded ob); [reflexivity | congruence].
        -- cbn. split; [apply Nat.le_refl |].
           intros k [<- | []]. now rewrite str_eqb_refl.
    + exists ob, []. split; [congruence |]. split; [reflexivity |].
      split; [apply Nat.le_0_l | intros k []].
  - exists (snd (@logging_error F "Sample entry must be strings" oa)), [].
    split; [exact Ht |]. split; [reflexivity |].
    split; [apply Nat.le_0_l | intros k []].
  - exists oa, []. split; [exact Ht |]. split; [reflexivity |].
    split; [apply Nat.le_0_l | intros k []].
Qed.

End LoaderAlways.

(** X2.  After [check_input] on a new object, for every argument: the
    keys of [samples_dict] are distinct, each of them is a name in
    [self.samples], and [samples_dict] has at most [len(self.samples)]
    entries. *)
Theorem check_input_keys_are_samples F (num : Numeric F) (env : Env F)
    (directory : string) (smp dat : pyarg) (errs : option string) (stack : bool)
    (markers : list string) (mpl : dict rcval) (lg : list string) :
  let o' := snd (check_input env
                   (new_Hist1D directory smp dat errs stack markers mpl lg)) in
  NoDup (dict_keys (samples_dict (store o'))) /\
  (forall k, In k (dict_keys (samples_dict (store o'))) ->
             arg_contains k (samples (store o')) = true) /\
  dict_len (samples_dict (store o')) <= arg_len (samples (store o')).
Proof.
  intros o'. subst o'.
  set (o := new_Hist1D directory smp dat errs stack markers mpl lg).
  pose proof (check_input_partitioned env o eq_refl) as (Hnd & _ & _).
  destruct (check_input_names env o) as (o1 & names & Hld & Hrun & Hlen & Hin).
  rewrite Hrun in *.
  pose proof (load_loop_samples env names o1) as Hsm. cbv beta in Hsm.
  assert (Hempty : dict_keys (samples_dict (store o1)) = []).
  { unfold loaded in Hld. injection Hld as -> _ _ _ _. reflexivity. }
  assert (Hincl : forall k,
             In k (dict_keys (samples_dict (store
                     (snd (for_break names (load_sample env) o1))))) -> In k names).
  { intros k Hk. apply load_loop_keys_incl in Hk as [Hk | Hk]; [| exact Hk].
    rewrite Hempty in Hk. destruct Hk. }
  split; [exact Hnd |]. split.
  - intros k Hk. rewrite Hsm. apply Hin, Hincl, Hk.
  - rewrite dict_len_keys, Hsm.
    apply Nat.le_trans with (List.length names); [| exact Hlen].
    apply NoDup_incl_length; [exact Hnd | exact Hincl].
Qed.

(** ** The constructor when nothing was loaded *)

Lemma dict_keys_nil {V} (d : dict V) : dict_keys d = [] -> d = [].
Proof. destruct d; [reflexivity | discriminate]. Qed.

Section ConstructorFails.
Context {F : Type} {num : Numeric F}.
Variable env : Env F.

(** With the three dictionaries empty after [check_input], the colour
    loop has nothing to do and [store_data] finds no first sample. *)
Lemma Hist1D_init_no_first_sample (o : obj F) :
  samples_dict (store (snd (check_input env o))) = [] ->
  histos_dict (store (snd (check_input env o))) = [] ->
  data_dict (store (snd (check_input env o))) = [] ->
  fst (Hist1D_init env o) = Raise StopIteration.
Proof.
  unfold Hist1D_init. unfold bind at 1.
  pose proof (returns_unit _ o (check_input_returns env)) as Hr.
  destruct (check_input env o) as [r o1]. cbn [fst snd] in *. subst r.
  intros Hs Hh Hd.
  unfold assign_colors, store_data, bind, gets, modify. cbn.
  rewrite Hs. cbn. rewrite Hh. cbn. rewrite Hd. reflexivity.
Qed.

Lemma partitioned_nothing (o : obj F) :
  partitioned o -> samples_dict (store o) = [] ->
  histos_dict (store o) = [] /\ data_dict (store o) = [].
Proof.
  intros (_ & Hd & Hh) Hs. rewrite Hs in Hd, Hh. cbn in Hd, Hh.
  split; apply dict_keys_nil; assumption.
Qed.

End ConstructorFails.

(** X3.  The constructor never builds a plot without a sample: when
    [check_input] has loaded nothing, whatever the reason, [store_data]
    raises [StopIteration] and [Hist1D(...)] does not return. *)
Theorem Hist1D_init_nothing_loaded F (num : Numeric F) (env : Env F)
    (directory : string) (smp dat : pyarg) (errs : option string) (stack : bool)
    (markers : list string) (mpl : dict rcval) (lg : list string) :
  samples_dict (store (snd (check_input env
     (new_Hist1D directory smp dat errs stack markers mpl lg)))) = [] ->
  fst (Hist1D_init env (new_Hist1D directory smp dat errs stack markers mpl lg))
  = Raise StopIteration.
Proof.
  intros Hs.
  set (o := new_Hist1D directory smp dat errs stack markers mpl lg) in *.
  pose proof (check_input_partitioned env o eq_refl) as Hp.
  destruct (partitioned_nothing _ Hp Hs) as [Hh Hd].
  now apply Hist1D_init_no_first_sample.
Qed.

(** X4.  When the file of the first sample cannot be read, or holds no
    histogram, the loop breaks at once: one message is logged, the other
    samples are never opened, and the constructor raises
    [StopIteration]. *)
Theorem Hist1D_init_first_file_fails F (num : Numeric F) (env : Env F)
    (directory : string) (bad : string) (post : list string) (dat : pyarg)
    (errs : option string) (stack : bool)
    (markers : list string) (mpl : dict rcval) (lg : list string) :
  stops_loading env directory bad ->
  let o := new_Hist1D directory (AList (map PStr (bad :: post))) dat errs stack
             markers mpl lg in
  let o1 := snd (check_data_names (AList (map PStr (bad :: post))) o) in
  check_input env o
  = (Ok tt, with_errlog (fun l => l ++ [load_error_message env directory bad])%list o1)
  /\ loaded (snd (check_input env o)) = ([], [], [], [], [])
  /\ fst (Hist1D_init env o) = Raise StopIteration.
Proof.
  intros Hbad o o1.
  assert (Hdir : dir o1 = directory)
    by (unfold o1; now rewrite check_data_names_dir).
  assert (Hld : loaded o1 = ([], [], [], [], []))
    by (unfold o1; now rewrite check_data_names_loaded).
  assert (Hci : check_input env o
     = (Ok tt, with_errlog (fun l => l ++ [load_error_message env directory bad])%list o1)).
  { rewrite (check_input_loop env o (bad :: post) eq_refl) by discriminate.
    fold o1. rewrite <- Hdir in Hbad |- *.
    exact (load_abort env [] bad post o1 (Forall_nil _) Hbad). }
  split; [exact Hci |].
  assert (Hl : loaded (snd (check_input env o)) = ([], [], [], [], []))
    by (rewrite Hci; exact Hld).
  split; [exact Hl |].
  unfold loaded in Hl. injection Hl as Hs Hh Hd _ _.
  now apply Hist1D_init_no_first_sample.
Qed.

Lemma Hist1D_init_nothing_loaded_witness :
  samples_dict (store (snd (check_input example_env
     (new_Hist1D EmptyString (AList [PStr "missing"; PStr "a"]) (AList []) None false
                 ["."]%string default_rcps [])))) = [] /\
  fst (Hist1D_init example_env
         (new_Hist1D EmptyString (AList [PStr "missing"; PStr "a"]) (AList []) None false
                     ["."]%string default_rcps []))
  = Raise StopIteration.
Proof.
  assert (H : samples_dict (store (snd (check_input example_env
     (new_Hist1D EmptyString (AList [PStr "missing"; PStr "a"]) (AList []) None false
                 ["."]%string default_rcps [])))) = []) by reflexivity.
  split; [exact H |].
  exact (Hist1D_init_nothing_loaded float _ example_env EmptyString
           (AList [PStr "missing"; PStr "a"]) (AList []) None false
           ["."]%string default_rcps [] H).
Defined.

Lemma Hist1D_init_first_file_fails_witness :
  stops_loading example_env EmptyString "notes" /\
  fst (Hist1D_init example_env
         (new_Hist1D EmptyString (AList [PStr "notes"; PStr "a"; PStr "b"]) (AList [])
                     None false ["."]%string default_rcps []))
  = Raise StopIteration.
Proof.
  assert (Hbad : stops_loading example_env EmptyString "notes") by exact I.
  split; [exact Hbad |].
  pose proof (Hist1D_init_first_file_fails float _ example_env EmptyString
                "notes"%string ["a"; "b"]%string (AList []) None false
                ["."]%string default_rcps [] Hbad) as H.
  cbv zeta in H. destruct H as (_ & _ & H). exact H.
Defined.

(** ** Colours *)

Lemma for_each_ext {F A} (l : list A) (f g : A -> M F unit) :
  (forall x o, f x o = g x o) -> forall o, for_each l f o = for_each l g o.
Proof.
  intros H. induction l as [|x l IH]; intros o; [reflexivity |].
  cbn [for_each]. unfold bind. rewrite H.
  destruct (g x o) as [[[] | e] o1]; [apply IH | reflexivity].
Qed.

Lemma with_style_same {F} (o : obj F) :
  with_style (set_colors_dict (colors_dict (style o))) o = o.
Proof. destruct o as [? ? ? ? ? [] ? ? ? ?]. reflexivity. Qed.

Section ColourLoop.
Context {F : Type} {num : Numeric F}.
Variable env : Env F.
Variable custom : option (list color).

Lemma assign_colors_steps (o : obj F) :
  assign_colors env custom o
  = for_each (enumerate (dict_keys (samples_dict (store o)))) (assign_step env custom) o.
Proof.
  unfold assign_colors. unfold bind at 1. unfold gets at 1.
  apply for_each_ext. intros [i k] o1.
  unfold assign_step, palette.
  destruct custom as [[|c0 cs] |]; unfold bind, gets, lift; cbn -[Nat.ltb color_order];
    try reflexivity;
    destruct ((10 <? arg_len (samples (store o1)))%nat || is_stack o1);
    try reflexivity;
    destruct (colorlist_gen env (arg_len (samples (store o1))) "gist_rainbow" false);
    reflexivity.
Qed.

Lemma assign_step_run (i : nat) (k : string) (o : obj F) (pal : list color) :
  palette env custom o = Ok pal ->
  assign_step env custom (i, k) o
  = match nth_error pal i with
    | Some c => (Ok tt, with_style (fun s =>
                   set_colors_dict (dict_set (colors_dict s) k c) s) o)
    | None => (Raise IndexError, o)
    end.
Proof.
  intros Hp. unfold assign_step. unfold bind at 1. rewrite Hp.
  unfold bind, lift, list_index, set_color, modify.
  destruct (nth_error pal i); reflexivity.
Qed.

Lemma assign_step_cases (p : nat * string) (o : obj F) :
  (exists e, assign_step env custom p o = (Raise e, o)) \/
  (exists c, assign_step env custom p o
             = (Ok tt, with_style (fun s =>
                  set_colors_dict (dict_set (colors_dict s) (snd p) c) s) o)).
Proof.
  destruct p as [i k]. destruct (palette env custom o) as [pal | e] eqn:Hp.
  - rewrite (assign_step_run i k o pal Hp).
    destruct (nth_error pal i) as [c |]; [right; now exists c | left; now exists IndexError].
  - left. exists e. unfold assign_step. unfold bind at 1. now rewrite Hp.
Qed.

(** A list long enough: the loop returns, and the key at place [i] gets
    the colour at place [j + i]. *)
Lemma colour_loop_ok (pal : list color) (keys : list string) :
  forall (j : nat) (o : obj F),
    palette env custom o = Ok pal -> NoDup keys ->
    j + List.length keys <= List.length pal ->
    exists cd' : dict color,
      for_each (combine (seq j (List.length keys)) keys) (assign_step env custom) o
      = (Ok tt, with_style (set_colors_dict cd') o) /\
      (forall i k, nth_error keys i = Some k -> dict_get cd' k = nth_error pal (j + i)) /\
      (forall k, ~ In k keys -> dict_get cd' k = dict_get (colors_dict (style o)) k).
Proof.
  induction keys as [|k ks IH]; intros j o Hp Hnd Hlen.
  - exists (colors_dict (style o)). cbn. rewrite with_style_same.
    split; [reflexivity |]. split; [| reflexivity].
    intros [|i] k H; discriminate.
  - cbn [List.length] in Hlen.
    destruct (nth_error pal j) as [c |] eqn:Ec;
      [| apply nth_error_None in Ec; lia].
    inversion Hnd as [| ? ? Hk Hnd']; subst.
    cbn [List.length seq combine for_each]. unfold bind at 1.
    rewrite (assign_step_run j k o pal Hp), Ec.
    destruct (IH (S j) (with_style (fun s =>
                set_colors_dict (dict_set (colors_dict s) k c) s) o))
      as (cd' & Hrun & Hpos & Hrest); [exact Hp | exact Hnd' | lia |].
    exists cd'. split; [rewrite Hrun; reflexivity |]. split.
    + intros [|i] k' Hi; cbn [nth_error] in Hi.
      * injection Hi as <-. rewrite (Hrest k Hk). cbn.
        rewrite dict_get_set_same, Nat.add_0_r. now symmetry.
      * rewrite (Hpos i k' Hi). f_equal. lia.
    + intros k' Hk'. rewrite Hrest by (intros H; apply Hk'; now right).
      cbn. apply dict_get_set_other. intros ->. apply Hk'. now left.
Qed.

(** A list too short: the loop raises [IndexError] at the first key
    without a colour; the keys before it have theirs, the others keep
    what they had. *)
Lemma colour_loop_short (pal : list color) (keys : list string) :
  forall (j : nat) (o : obj F),
    palette env custom o = Ok pal -> NoDup keys ->
    j <= List.length pal -> List.length pal < j + List.length keys ->
    exists cd' : dict color,
      for_each (combine (seq j (List.length keys)) keys) (assign_step env custom) o
      = (Raise IndexError, with_style (set_colors_dict cd') o) /\
      (forall i k, nth_error keys i = Some k -> j + i < List.length pal ->
                   dict_get cd' k = nth_error pal (j + i)) /\
      (forall i k, nth_error keys i = Some k -> List.length pal <= j + i ->
                   dict_get cd' k = dict_get (colors_dict (style o)) k) /\
      (forall k, ~ In k keys -> dict_get cd' k = dict_get (colors_dict (style o)) k).
Proof.
  induction keys as [|k ks IH]; intros j o Hp Hnd Hj Hlen.
  - cbn [List.length] in Hlen. lia.
  - cbn [List.length] in Hlen.
    inversion Hnd as [| ? ? Hk Hnd']; subst.
    cbn [List.length seq combine for_each]. unfold bind at 1.
    rewrite (assign_step_run j k o pal Hp).
    destruct (nth_error pal j) as [c |] eqn:Ec.
    + assert (Hjl : j < List.length pal)
        by (apply nth_error_Some; congruence).
      destruct (IH (S j) (with_style (fun s =>
                  set_colors_dict (dict_set (colors_dict s) k c) s) o))
        as (cd' & Hrun & Hpos & Hkeep & Hrest); [exact Hp | exact Hnd' | lia | lia |].
      exists cd'. split; [rewrite Hrun; reflexivity |]. split; [| split].
      * intros [|i] k' Hi Hlt; cbn [nth_error] in Hi.
        -- injection Hi as <-. rewrite (Hrest k Hk). cbn.
           rewrite dict_get_set_same, Nat.add_0_r. now symmetry.
        -- rewrite (Hpos i k' Hi) by lia. f_equal. lia.
      * intros [|i] k' Hi Hge; cbn [nth_error] in Hi; [lia |].
        rewrite (Hkeep i k' Hi) by lia. cbn.
        apply dict_get_set_other. intros ->. apply Hk.
        eapply nth_error_In, Hi.
      * intros k' Hk'. rewrite Hrest by (intros H; apply Hk'; now right).
        cbn. apply dict_get_set_other. intros ->. apply Hk'. now left.
    + apply nth_error_None in Ec.
      exists (colors_dict (style o)). rewrite with_style_same.
      split; [reflexivity |]. split; [| split].
      * intros i k' _ Hlt. lia.
      * reflexivity.
      * reflexivity.
Qed.

(** Whatever the list, when the loop returns every key it went through
    has a colour, and no key has lost one, whether it returns or not. *)
Lemma colour_loop_total (l : list (nat * string)) :
  forall o : obj F,
    let r := for_each l (assign_step env custom) o in
    store (snd r) = store o /\
    (forall k, dict_get (colors_dict (style o)) k <> None ->
               dict_get (colors_dict (style (snd r))) k <> None) /\
    (fst r = Ok tt ->
     forall k, In k (map snd l) -> dict_get (colors_dict (style (snd r))) k <> None).
Proof.
  induction l as [|p l IH]; intros o r; subst r.
  - cbn. split; [reflexivity |]. split; [auto |]. intros _ k [].
  - cbn [for_each]. unfold bind at 1 2 3 4.
    destruct (assign_step_cases p o) as [[e He] | [c Hc]].
    + rewrite He. cbn. split; [reflexivity |]. split; [auto | discriminate].
    + rewrite Hc.
      set (o1 := with_style (fun s =>
                   set_colors_dict (dict_set (colors_dict s) (snd p) c) s) o).
      destruct (IH o1) as (Hst & Hkeep & Hall). cbv zeta in Hall.
      assert (Hgrow : forall k, dict_get (colors_dict (style o)) k <> None ->
                                dict_get (colors_dict (style o1)) k <> None).
      { intros k Hk. cbn. destruct (String.eqb_spec k (snd p)) as [-> | Hne].
        - rewrite dict_get_set_same. discriminate.
        - now rewrite dict_get_set_other. }
      split; [rewrite Hst; reflexivity |]. split.
      * intros k Hk. apply Hkeep, Hgrow, Hk.
      * intros Hok k [<- | Hk]; [| now apply Hall].
        apply Hkeep. cbn. rewrite dict_get_set_same. discriminate.
Qed.

Lemma enumerate_keys {A} (l : list A) : map snd (enumerate l) = l.
Proof.
  unfold enumerate. generalize 0. induction l as [|x l IH]; intros j; cbn;
    [reflexivity | now rewrite IH].
Qed.

(** [assign_colors] in every outcome: the loaded samples stay as they
    are, no colour is lost, and a normal return leaves every loaded
    sample with a colour. *)
Lemma assign_colors_total (o : obj F) :
  let r := assign_colors env custom o in
  store (snd r) = store o /\
  (forall k, dict_get (colors_dict (style o)) k <> None ->
             dict_get (colors_dict (style (snd r))) k <> None) /\
  (fst r = Ok tt -> all_colored (snd r)).
Proof.
  intros r. subst r. rewrite assign_colors_steps.
  destruct (colour_loop_total (enumerate (dict_keys (samples_dict (store o)))) o)
    as (Hst & Hkeep & Hall). cbv zeta in Hall.
  split; [exact Hst |]. split; [exact Hkeep |].
  intros Hok k Hk. rewrite Hst in Hk. apply Hall; [exact Hok |].
  now rewrite enumerate_keys.
Qed.

End ColourLoop.

Section ColourFacts.
Context {F : Type} {num : Numeric F}.
Variable env : Env F.

Lemma store_data_style : preserves (@style F) (@store_data F).
Proof. unfold store_data. frame. Qed.

Lemma type_checker_style (a : pyarg) : preserves (@style F) (@type_checker F a).
Proof. unfold type_checker. frame. Qed.

(** The constructor after [check_input]: the three defaults, the colours,
    then [store_data]. *)
Lemma Hist1D_init_tail (o : obj F) :
  Hist1D_init env o
  = let o1 := snd (check_input env o) in
    let o2 := with_style (set_legend_ncols 1)
                (with_style (set_need_grid false)
                   (with_style (set_shape (if is_stack o1 then "full" else "hollow")%string)
                      o1)) in
    match assign_colors env None o2 with
    | (Ok _, o3) => store_data o3
    | (Raise e, o3) => (Raise e, o3)
    end.
Proof.
  unfold Hist1D_init. unfold bind at 1.
  pose proof (returns_unit _ o (check_input_returns env)) as Hr.
  destruct (check_input env o) as [r o1]. cbn [fst snd] in *. subst r.
  reflexivity.
Qed.

Lemma color_options_store (colors : pyarg) (colormap : string) (reverse : bool) :
  preserves (@store F) (color_options env colors colormap reverse).
Proof.
  unfold color_options, type_checker. frame; apply assign_colors_store.
Qed.

Lemma color_options_kept (colors : pyarg) (colormap : string) (reverse : bool)
    (o : obj F) :
  colors_kept o (snd (color_options env colors colormap reverse o)).
Proof.
  assert (Hrefl : forall o1 : obj F, colors_kept o1 o1) by (intros o1 k H; exact H).
  assert (Hlog : forall msg (o1 : obj F), colors_kept o1 (snd (logging_error msg o1)))
    by (intros msg o1 k H; exact H).
  assert (Hasg : forall custom (o1 : obj F),
             colors_kept o1 (snd (assign_colors env custom o1))).
  { intros custom o1.
    destruct (assign_colors_total env custom o1) as (_ & Hk & _). exact Hk. }
  unfold color_options. unfold bind at 1.
  destruct (arg_truthy colors).
  - pose proof (type_checker_style colors o) as Hs.
    destruct (type_checker colors o) as [[okc | e] o1]; cbn [snd] in Hs.
    + assert (Hk1 : colors_kept o o1) by (intros k; now rewrite Hs).
      assert (Htrans : forall o2, colors_kept o1 o2 -> colors_kept o o2)
        by (intros o2 H k Hk; apply H, Hk1, Hk).
      destruct okc.
      * unfold bind at 1. unfold gets at 1.
        destruct (negb _); apply Htrans; [apply Hlog | apply Hasg].
      * unfold bind at 1.
        destruct (str_truthy colormap).
        -- pose proof (type_checker_style (AStr colormap) o1) as Hs2.
           destruct (type_checker (AStr colormap) o1) as [[okm | e] o2]; cbn [snd] in Hs2.
           ++ assert (Hk2 : colors_kept o o2)
                by (intros k Hk; rewrite Hs2; apply Hk1, Hk).
              destruct okm; [| exact Hk2].
              destruct (str_in colormap (mpl_colormaps env)).
              ** unfold bind at 1. unfold gets at 1. unfold bind at 1. unfold lift at 1.
                 destruct (colorlist_gen env _ colormap reverse) as [cl | e];
                   [| exact Hk2].
                 intros k Hk. apply Hasg, Hk2, Hk.
              ** intros k Hk. apply Hlog, Hk2, Hk.
           ++ intros k Hk. cbn [snd]. rewrite Hs2. apply Hk1, Hk.
        -- unfold ret. exact Hk1.
    + intros k Hk. cbn [snd]. now rewrite Hs.
  - unfold ret at 1. unfold bind at 1.
    destruct (str_truthy colormap).
    + pose proof (type_checker_style (AStr colormap) o) as Hs2.
      destruct (type_checker (AStr colormap) o) as [[okm | e] o2]; cbn [snd] in Hs2.
      * assert (Hk2 : colors_kept o o2) by (intros k; now rewrite Hs2).
        destruct okm; [| exact Hk2].
        destruct (str_in colormap (mpl_colormaps env)).
        -- unfold bind at 1. unfold gets at 1. unfold bind at 1. unfold lift at 1.
           destruct (colorlist_gen env _ colormap reverse) as [cl | e];
             [| exact Hk2].
           intros k Hk. apply Hasg, Hk2, Hk.
        -- intros k Hk. apply Hlog, Hk2, Hk.
      * intros k Hk. cbn [snd]. now rewrite Hs2.
    + apply Hrefl.
Qed.

Lemma map_outcome_index (cd : dict color) (keys : list string) :
  (exists cols, map_outcome (dict_index cd) keys = Ok cols /\
                Forall2 (fun k c => dict_get cd k = Some c) keys cols) \/
  (map_outcome (dict_index cd) keys = Raise KeyError /\
   exists k, In k keys /\ dict_get cd k = None).
Proof.
  induction keys as [|k keys IH]; cbn [map_outcome].
  - left. exists []. split; [reflexivity | constructor].
  - assert (Hd : dict_index cd k = match dict_get cd k with
                                   | Some v => Ok v
                                   | None => Raise KeyError
                                   end) by reflexivity.
    rewrite !Hd. clear Hd.
    destruct (dict_get cd k) as [c |] eqn:Ek; cbn [obind].
    + destruct IH as [(cols & -> & Hall) | (-> & k' & Hin & Hk')]; cbn [obind].
      * left. exists (c :: cols). split; [reflexivity | now constructor].
      * right. split; [reflexivity |]. exists k'. split; [now right | exact Hk'].
    + right. split; [reflexivity |]. exists k. split; [now left | exact Ek].
Qed.

End ColourFacts.

(** X5.  [assign_colors] works by position: when the list it takes the
    colours from (the custom list if it is not empty, else the colour-map
    list or [color_order]) is at least as long as [samples_dict], the call
    returns, the i-th loaded sample gets the i-th colour of that list,
    every other entry of [colors_dict] keeps its value, and nothing else
    of the object changes. *)
Theorem assign_colors_positional F (num : Numeric F) (env : Env F)
    (custom : option (list color)) (pal : list color) (o : obj F) :
  palette env custom o = Ok pal ->
  NoDup (dict_keys (samples_dict (store o))) ->
  dict_len (samples_dict (store o)) <= List.length pal ->
  exists cd' : dict color,
    assign_colors env custom o = (Ok tt, with_style (set_colors_dict cd') o) /\
    (forall i k, nth_error (dict_keys (samples_dict (store o))) i = Some k ->
                 dict_get cd' k = nth_error pal i) /\
    (forall k, ~ In k (dict_keys (samples_dict (store o))) ->
               dict_get cd' k = dict_get (colors_dict (style o)) k).
Proof.
  intros Hp Hnd Hlen. rewrite assign_colors_steps. unfold enumerate.
  rewrite dict_len_keys in Hlen.
  exact (colour_loop_ok env custom pal (dict_keys (samples_dict (store o))) 0 o
           Hp Hnd Hlen).
Qed.

(** X6.  With fewer colours than loaded samples [assign_colors] raises
    [IndexError], and not before it has changed the object: the samples
    that come first have their new colour, the others keep the colour
    they had. *)
Theorem assign_colors_short_list F (num : Numeric F) (env : Env F)
    (custom : option (list color)) (pal : list color) (o : obj F) :
  palette env custom o = Ok pal ->
  NoDup (dict_keys (samples_dict (store o))) ->
  List.length pal < dict_len (samples_dict (store o)) ->
  exists cd' : dict color,
    assign_colors env custom o = (Raise IndexError, with_style (set_colors_dict cd') o) /\
    (forall i k, nth_error (dict_keys (samples_dict (store o))) i = Some k ->
                 i < List.length pal -> dict_get cd' k = nth_error pal i) /\
    (forall i k, nth_error (dict_keys (samples_dict (store o))) i = Some k ->
                 List.length pal <= i ->
                 dict_get cd' k = dict_get (colors_dict (style o)) k).
Proof.
  intros Hp Hnd Hlen. rewrite assign_colors_steps. unfold enumerate.
  rewrite dict_len_keys in Hlen.
  destruct (colour_loop_short env custom pal (dict_keys (samples_dict (store o))) 0 o
              Hp Hnd (Nat.le_0_l _) Hlen) as (cd' & Hrun & Hpos & Hkeep & _).
  exists cd'. split; [exact Hrun |]. split; [exact Hpos | exact Hkeep].
Qed.

(** X7.  An object that the constructor returns has a colour for every
    loaded sample. *)
Theorem Hist1D_init_all_colored F (num : Numeric F) (env : Env F) (o : obj F) :
  fst (Hist1D_init env o) = Ok tt -> all_colored (snd (Hist1D_init env o)).
Proof.
  rewrite Hist1D_init_tail. cbv zeta.
  set (o2 := with_style (set_legend_ncols 1) _).
  destruct (assign_colors_total env None o2) as (_ & _ & Hall). cbv zeta in Hall.
  destruct (assign_colors env None o2) as [[[] | e] o3]; [| discriminate].
  intros _ k Hk. rewrite store_data_store in Hk. rewrite store_data_style.
  now apply Hall.
Qed.

(** X8.  [color_options] never takes a colour away and never touches the
    loaded samples: whatever its arguments, and also when it raises, an
    object in which every loaded sample has a colour stays so. *)
Theorem color_options_keeps_colored F (num : Numeric F) (env : Env F)
    (colors : pyarg) (colormap : string) (reverse : bool) (o : obj F) :
  all_colored o -> all_colored (snd (color_options env colors colormap reverse o)).
Proof.
  intros Hall k Hk. rewrite color_options_store in Hk.
  apply color_options_kept, Hall, Hk.
Qed.

(** X9.  [get_samples_colors(d)] either returns the values of [d] with
    the colour of each key, in the order of [d], or some key of [d] has no
    entry in [colors_dict] and it raises [KeyError]; the object is not
    changed. *)
Theorem get_samples_colors_cases F (num : Numeric F) (d : dict (Histogram F))
    (o : obj F) :
  (exists cr, get_samples_colors d o = (Ok (dict_values d, cr), o) /\
              Forall2 (fun k c => dict_get (colors_dict (style o)) k = Some c)
                      (dict_keys d) (as_color_list cr)) \/
  (get_samples_colors d o = (Raise KeyError, o) /\
   exists k, In k (dict_keys d) /\ dict_get (colors_dict (style o)) k = None).
Proof.
  destruct (map_outcome_index (colors_dict (style o)) (dict_keys d))
    as [(cols & Hm & Hall) | (Hm & Hk)].
  - left. destruct (get_samples_colors_run d o cols Hm) as (cr & Hrun & Hcr).
    exists cr. split; [exact Hrun | now rewrite Hcr].
  - right. split; [| exact Hk].
    unfold get_samples_colors, bind, gets, lift. now rewrite Hm.
Qed.

Lemma example_two_keys : dict_keys (samples_dict (store example_two)) = ["a"; "b"]%string.
Proof. reflexivity. Qed.

Lemma NoDup_a_b : NoDup ["a"; "b"]%string.
Proof.
  constructor; [intros [H | []]; discriminate |].
  constructor; [intros [] | constructor].
Qed.

Lemma assign_colors_positional_witness :
  exists cd' : dict color,
    assign_colors example_env (Some [Named "red"; Named "green"; Named "navy"]%string)
                  example_two
    = (Ok tt, with_style (set_colors_dict cd') example_two) /\
    dict_get cd' "a" = Some (Named "red") /\
    dict_get cd' "b" = Some (Named "green").
Proof.
  assert (Hp : palette example_env (Some [Named "red"; Named "green"; Named "navy"]%string)
                       example_two
               = Ok [Named "red"; Named "green"; Named "navy"]%string) by reflexivity.
  assert (Hnd : NoDup (dict_keys (samples_dict (store example_two))))
    by (rewrite example_two_keys; exact NoDup_a_b).
  assert (Hlen : dict_len (samples_dict (store example_two))
                 <= List.length [Named "red"; Named "green"; Named "navy"]%string)
    by (vm_compute; lia).
  destruct (assign_colors_positional float _ example_env
              (Some [Named "red"; Named "green"; Named "navy"]%string)
              [Named "red"; Named "green"; Named "navy"]%string example_two Hp Hnd Hlen)
    as (cd' & Hrun & Hpos & _).
  exists cd'. split; [exact Hrun |]. split.
  - exact (Hpos 0 "a"%string eq_refl).
  - exact (Hpos 1 "b"%string eq_refl).
Defined.

Lemma assign_colors_short_list_witness :
  exists cd' : dict color,
    assign_colors example_env (Some [Named "red"]%string) example_two
    = (Raise IndexError, with_style (set_colors_dict cd') example_two) /\
    dict_get cd' "a" = Some (Named "red") /\
    dict_get cd' "b" = dict_get (colors_dict (style example_two)) "b".
Proof.
  assert (Hp : palette example_env (Some [Named "red"]%string) example_two
               = Ok [Named "red"]%string) by reflexivity.
  assert (Hnd : NoDup (dict_keys (samples_dict (store example_two))))
    by (rewrite example_two_keys; exact NoDup_a_b).
  assert (Hlen : List.length [Named "red"]%string
                 < dict_len (samples_dict (store example_two)))
    by (vm_compute; lia).
  destruct (assign_colors_short_list float _ example_env
              (Some [Named "red"]%string) [Named "red"]%string example_two Hp Hnd Hlen)
    as (cd' & Hrun & Hpos & Hkeep).
  exists cd'. split; [exact Hrun |]. split.
  - exact (Hpos 0 "a"%string eq_refl (Nat.lt_0_succ 0)).
  - exact (Hkeep 1 "b"%string eq_refl (Nat.le_refl 1)).
Defined.

Lemma Hist1D_init_all_colored_witness :
  fst (Hist1D_init example_env
         (example_new (AList [PStr "a"; PStr "b"]) (AList []) None)) = Ok tt /\
  all_colored example_two.
Proof.
  assert (H : fst (Hist1D_init example_env
                     (example_new (AList [PStr "a"; PStr "b"]) (AList []) None)) = Ok tt)
    by reflexivity.
  split; [exact H |].
  exact (Hist1D_init_all_colored float _ example_env
           (example_new (AList [PStr "a"; PStr "b"]) (AList []) None) H).
Defined.

Lemma color_options_keeps_colored_witness :
  all_colored example_two /\
  all_colored (snd (color_options example_env (AList [PStr "red"]) "viridis" true
                      example_two)).
Proof.
  assert (H : all_colored example_two).
  { intros k Hk. rewrite example_two_keys in Hk.
    destruct Hk as [<- | [<- | []]]; vm_compute; discriminate. }
  split; [exact H |].
  exact (color_options_keeps_colored float _ example_env (AList [PStr "red"])
           "viridis"%string true example_two H).
Defined.

Section ColourOptions.
Context {F : Type} {num : Numeric F}.
Variable env : Env F.

(** [color_options] with a non-empty list of strings comes down to the
    comparison of the two lengths. *)
Lemma color_options_list (cs : list string) (colormap : string) (reverse : bool)
    (o : obj F) :
  cs <> [] ->
  color_options env (AList (map PStr cs)) colormap reverse o
  = if Nat.eqb (List.length cs) (arg_len (samples (store o)))
    then assign_colors env (Some (map Named cs)) o
    else logging_error "Length mismatch between color list and total samples list" o.
Proof.
  intros Hne. unfold color_options.
  assert (Ht : arg_truthy (AList (map PStr cs)) = true)
    by (destruct cs; [congruence | reflexivity]).
  rewrite Ht. unfold type_checker. rewrite forallb_is_str_names.
  unfold bind at 1. unfold ret at 1. cbn [arg_is_list arg_len arg_names].
  unfold bind at 1. unfold gets at 1.
  rewrite length_map, item_strs_names.
  destruct (Nat.eqb (List.length cs) (arg_len (samples (store o)))); reflexivity.
Qed.

End ColourOptions.

(** X10.  [color_options(colors=[...])] with as many colour names as
    [self.samples] has entries returns and gives the i-th loaded sample
    the i-th name; the colour map, if one is given too, is not looked
    at. *)
Theorem color_options_positional F (num : Numeric F) (env : Env F)
    (cs : list string) (colormap : string) (reverse : bool) (o : obj F) :
  cs <> [] ->
  List.length cs = arg_len (samples (store o)) ->
  NoDup (dict_keys (samples_dict (store o))) ->
  dict_len (samples_dict (store o)) <= arg_len (samples (store o)) ->
  exists cd' : dict color,
    color_options env (AList (map PStr cs)) colormap reverse o
    = (Ok tt, with_style (set_colors_dict cd') o) /\
    (forall i k, nth_error (dict_keys (samples_dict (store o))) i = Some k ->
                 dict_get cd' k = option_map Named (nth_error cs i)) /\
    (forall k, ~ In k (dict_keys (samples_dict (store o))) ->
               dict_get cd' k = dict_get (colors_dict (style o)) k).
Proof.
  intros Hne Hlen Hnd Hle.
  rewrite (color_options_list env cs colormap reverse o Hne).
  rewrite Hlen, Nat.eqb_refl. rewrite assign_colors_steps. unfold enumerate.
  assert (Hp : palette env (Some (map Named cs)) o = Ok (map Named cs))
    by (destruct cs; [congruence | reflexivity]).
  destruct (colour_loop_ok env (Some (map Named cs)) (map Named cs)
              (dict_keys (samples_dict (store o))) 0 o Hp Hnd)
    as (cd' & Hrun & Hpos & Hrest).
  { rewrite length_map, Hlen, <- dict_len_keys. exact Hle. }
  exists cd'. split; [exact Hrun |]. split; [| exact Hrest].
  intros i k Hi. rewrite (Hpos i k Hi). cbn [Nat.add]. apply nth_error_map.
Qed.

(** X11.  [color_options(colors=[...])] with a number of colour names
    other than [len(self.samples)] logs the length mismatch and changes
    nothing else, also when a valid colour map is given with it. *)
Theorem color_options_length_mismatch F (num : Numeric F) (env : Env F)
    (cs : list string) (colormap : string) (reverse : bool) (o : obj F) :
  cs <> [] ->
  List.length cs <> arg_len (samples (store o)) ->
  color_options env (AList (map PStr cs)) colormap reverse o
  = (Ok tt,
     with_errlog (fun l =>
       l ++ ["Length mismatch between color list and total samples list"%string])%list o).
Proof.
  intros Hne Hlen.
  rewrite (color_options_list env cs colormap reverse o Hne).
  apply Nat.eqb_neq in Hlen. rewrite Hlen. reflexivity.
Qed.

Lemma color_options_positional_witness :
  exists cd' : dict color,
    color_options example_env (AList (map PStr ["red"; "navy"]%string)) "viridis" false
                  example_two
    = (Ok tt, with_style (set_colors_dict cd') example_two) /\
    dict_get cd' "b" = Some (Named "navy").
Proof.
  assert (Hne : ["red"; "navy"]%string <> []) by discriminate.
  assert (Hlen : List.length ["red"; "navy"]%string
                 = arg_len (samples (store example_two))) by reflexivity.
  assert (Hnd : NoDup (dict_keys (samples_dict (store example_two))))
    by (rewrite example_two_keys; exact NoDup_a_b).
  assert (Hle : dict_len (samples_dict (store example_two))
                <= arg_len (samples (store example_two))) by (vm_compute; lia).
  destruct (color_options_positional float _ example_env ["red"; "navy"]%string
              "viridis"%string false example_two Hne Hlen Hnd Hle)
    as (cd' & Hrun & Hpos & _).
  exists cd'. split; [exact Hrun |].
  exact (Hpos 1 "b"%string eq_refl).
Defined.

Lemma color_options_length_mismatch_witness :
  fst (color_options example_env (AList (map PStr ["red"]%string)) "viridis" false
         example_two) = Ok tt /\
  colors_dict (style (snd (color_options example_env (AList (map PStr ["red"]%string))
                             "viridis" false example_two)))
  = colors_dict (style example_two).
Proof.
  assert (Hne : ["red"]%string <> []) by discriminate.
  assert (Hlen : List.length ["red"]%string <> arg_len (samples (store example_two)))
    by (vm_compute; lia).
  rewrite (color_options_length_mismatch float _ example_env ["red"]%string
             "viridis"%string false example_two Hne Hlen).
  split; reflexivity.
Defined.

(** ** When the constructor returns *)

Lemma filter_negb_nil {A} (f : A -> bool) (l : list A) :
  filter (fun x => negb (f x)) l = [] -> filter f l = l.
Proof.
  induction l as [|x l IH]; cbn; [reflexivity |].
  destruct (f x); cbn; [intros H; now rewrite IH | discriminate].
Qed.

Lemma dict_keys_set_In {V} (d : dict V) (k : string) (v : V) :
  In k (dict_keys (dict_set d k v)).
Proof.
  rewrite dict_keys_set. destruct (str_in k (dict_keys d)) eqn:E.
  - now apply str_in_In.
  - apply in_or_app. right. now left.
Qed.

Lemma dict_keys_set_mono {V} (d : dict V) (k k' : string) (v : V) :
  In k' (dict_keys d) -> In k' (dict_keys (dict_set d k v)).
Proof.
  intros H. rewrite dict_keys_set. destruct (str_in k (dict_keys d)); [exact H |].
  apply in_or_app. now left.
Qed.

Section ConstructorReturns.
Context {F : Type} {num : Numeric F}.
Variable env : Env F.

Lemma check_input_is_stack : preserves (@is_stack F) (check_input env).
Proof. unfold check_input, check_data_names, type_checker, load_sample. frame. Qed.

Lemma load_sample_registers (n : string) (h : Histogram F) (o : obj F) :
  loads env (dir o) n h ->
  exists o1, load_sample env n o = (Ok true, o1) /\
             samples_dict (store o1) = dict_set (samples_dict (store o)) n h.
Proof.
  intros Hl. rewrite (load_sample_loads env n h o Hl).
  eexists. split; [reflexivity |].
  destruct (arg_contains n (data (store o)) || arg_is_all (data (store o))); reflexivity.
Qed.

(** The loop never removes a key. *)
Lemma load_loop_keys_mono (names : list string) :
  forall (o : obj F) (k : string),
    In k (dict_keys (samples_dict (store o))) ->
    In k (dict_keys (samples_dict (store (snd (for_break names (load_sample env) o))))).
Proof.
  induction names as [|n names IH]; intros o k Hk; [exact Hk |].
  cbn [for_break]. unfold bind at 1.
  destruct (pickle_load env (dir o ++ n ++ ".pkl")%string) as [| | h] eqn:E.
  - rewrite load_sample_stops by (unfold stops_loading; now rewrite E). exact Hk.
  - rewrite load_sample_stops by (unfold stops_loading; now rewrite E). exact Hk.
  - destruct (load_sample_registers n h o E) as (o1 & -> & Hs).
    apply IH. rewrite Hs. now apply dict_keys_set_mono.
Qed.

Lemma partitioned_store (o o' : obj F) :
  store o' = store o -> partitioned o -> partitioned o'.
Proof. unfold partitioned. intros ->. auto. Qed.

(** [store_data] finds a first sample as soon as one sample is loaded. *)
Lemma store_data_returns (o : obj F) :
  partitioned o -> samples_dict (store o) <> [] -> fst (store_data o) = Ok tt.
Proof.
  intros (_ & Hd & Hh) Hne.
  assert (Hfirst : forall d : dict (Histogram F), d <> [] ->
            exists h, obind (dict_first_key d) (dict_index d) = Ok h).
  { intros [|[k v] d] Hd0; [congruence |]. exists v.
    cbn [dict_first_key obind]. unfold dict_index. cbn [dict_get].
    now rewrite str_eqb_refl. }
  unfold store_data. unfold bind at 1. unfold gets at 1.
  unfold bind at 1.
  destruct (histos_dict (store o)) as [|kv hd] eqn:Ehd; cbn [nonempty].
  - assert (Hdd : data_dict (store o) <> []).
    { cbn in Hh. symmetry in Hh. apply filter_negb_nil in Hh.
      rewrite Hh in Hd. intros Hnil. rewrite Hnil in Hd. cbn in Hd.
      symmetry in Hd. apply dict_keys_nil in Hd. contradiction. }
    destruct (Hfirst _ Hdd) as [h Hh0].
    unfold bind at 1. unfold gets at 1. unfold bind at 1. unfold lift at 1.
    destruct (dict_first_key (data_dict (store o))) as [k |] eqn:Ek;
      [| discriminate].
    cbn [obind] in Hh0. unfold lift at 1. rewrite Hh0.
    match goal with
    | |- fst (?m o) = Ok tt => apply (returns_unit m o)
    end.
    repeat returns_step.
  - assert (Hhd : kv :: hd <> []) by discriminate.
    destruct (Hfirst _ Hhd) as [h Hh0].
    unfold bind at 1. unfold lift at 1.
    destruct (dict_first_key (kv :: hd)) as [k |] eqn:Ek; [| discriminate].
    cbn [obind] in Hh0. unfold lift at 1. rewrite Hh0.
    match goal with
    | |- fst (?m o) = Ok tt => apply (returns_unit m o)
    end.
    repeat returns_step.
Qed.

(** The number of loaded samples is at most the number of names. *)
Lemma check_input_bounded (o : obj F) :
  loaded o = ([], [], [], [], []) ->
  dict_len (samples_dict (store (snd (check_input env o))))
  <= arg_len (samples (store (snd (check_input env o)))).
Proof.
  intros He.
  pose proof (check_input_partitioned env o He) as (Hnd & _ & _).
  destruct (check_input_names env o) as (o1 & names & Hld & Hrun & Hlen & _).
  rewrite Hrun in *.
  pose proof (load_loop_samples env names o1) as Hsm. cbv beta in Hsm.
  assert (Hempty : dict_keys (samples_dict (store o1)) = []).
  { rewrite He in Hld. unfold loaded in Hld. injection Hld as -> _ _ _ _. reflexivity. }
  rewrite dict_len_keys, Hsm.
  apply Nat.le_trans with (List.length names); [| exact Hlen].
  apply NoDup_incl_length; [exact Hnd |].
  intros k Hk. apply load_loop_keys_incl in Hk as [Hk | Hk]; [| exact Hk].
  rewrite Hempty in Hk. destruct Hk.
Qed.

(** With at most ten names and no stack, the constructor returns as soon
    as the first name loads. *)
Lemma Hist1D_init_first_loads (o : obj F) (n : string) (rest : list string)
    (h : Histogram F) :
  loaded o = ([], [], [], [], []) ->
  samples (store o) = AList (map PStr (n :: rest)) ->
  List.length (n :: rest) <= 10 ->
  is_stack o = false ->
  loads env (dir o) n h ->
  fst (Hist1D_init env o) = Ok tt.
Proof.
  intros He Hsm Hlen Hst Hl.
  pose proof (check_input_partitioned env o He) as Hpart.
  pose proof (check_input_bounded o He) as Hbound.
  pose proof (check_input_is_stack o) as Hstack. cbv beta in Hstack.
  assert (Hrun : check_input env o
     = for_break (n :: rest) (load_sample env)
         (snd (check_data_names (AList (map PStr (n :: rest))) o)))
    by (apply check_input_loop; [exact Hsm | discriminate]).
  set (o0 := snd (check_data_names (AList (map PStr (n :: rest))) o)) in *.
  assert (Hdir0 : dir o0 = dir o) by (unfold o0; now rewrite check_data_names_dir).
  assert (Hsm0 : samples (store o0) = AList (map PStr (n :: rest)))
    by (unfold o0; now rewrite check_data_names_samples).
  assert (Hsm1 : samples (store (snd (check_input env o))) = AList (map PStr (n :: rest))).
  { rewrite Hrun. now rewrite (load_loop_samples env (n :: rest) o0). }
  assert (Hin : In n (dict_keys (samples_dict (store (snd (check_input env o)))))).
  { rewrite Hrun. rewrite <- Hdir0 in Hl.
    destruct (load_sample_registers n h o0 Hl) as (o0' & Hstep & Hs).
    rewrite (for_break_continue n rest (load_sample env) o0 o0' Hstep).
    apply load_loop_keys_mono. rewrite Hs. apply dict_keys_set_In. }
  rewrite Hist1D_init_tail. cbv zeta.
  set (o1 := snd (check_input env o)) in *.
  set (o2 := with_style (set_legend_ncols 1) _).
  assert (Hst2 : store o2 = store o1) by reflexivity.
  assert (Hp : palette env None o2 = Ok color_order).
  { unfold palette.
    replace (samples (store o2)) with (AList (map PStr (n :: rest)))
      by (symmetry; exact Hsm1).
    replace (is_stack o2) with false
      by (symmetry; transitivity (is_stack o1); [reflexivity | congruence]).
    cbn [arg_len]. rewrite length_map.
    assert (Hlt : (10 <? List.length (n :: rest))%nat = false)
      by (apply Nat.ltb_ge; exact Hlen).
    now rewrite Hlt. }
  destruct Hpart as (Hnd & Hpd & Hph).
  assert (Hle : 0 + List.length (dict_keys (samples_dict (store o2)))
                <= List.length color_order).
  { rewrite Hst2, <- dict_len_keys. cbn [Nat.add].
    apply Nat.le_trans with (arg_len (samples (store o1))); [exact Hbound |].
    rewrite Hsm1. cbn [arg_len]. rewrite length_map. exact Hlen. }
  rewrite assign_colors_steps. unfold enumerate.
  destruct (colour_loop_ok env None color_order
              (dict_keys (samples_dict (store o2))) 0 o2 Hp Hnd Hle)
    as (cd' & Hloop & _).
  rewrite Hloop.
  apply store_data_returns.
  - apply partitioned_store with o1; [reflexivity | repeat split; assumption].
  - change (samples_dict (store o1) <> []). intros Hnil. rewrite Hnil in Hin.
    destruct Hin.
Qed.

(** The constructor raises [StopIteration] when the first name does not
    load. *)
Lemma Hist1D_init_first_stops (o : obj F) (n : string) (rest : list string) :
  loaded o = ([], [], [], [], []) ->
  samples (store o) = AList (map PStr (n :: rest)) ->
  stops_loading env (dir o) n ->
  fst (Hist1D_init env o) = Raise StopIteration.
Proof.
  intros He Hsm Hbad.
  assert (Hrun : check_input env o
     = for_break (n :: rest) (load_sample env)
         (snd (check_data_names (AList (map PStr (n :: rest))) o)))
    by (apply check_input_loop; [exact Hsm | discriminate]).
  set (o0 := snd (check_data_names (AList (map PStr (n :: rest))) o)) in *.
  assert (Hdir0 : dir o0 = dir o) by (unfold o0; now rewrite check_data_names_dir).
  assert (Hld : loaded o0 = ([], [], [], [], []))
    by (unfold o0; rewrite check_data_names_loaded; exact He).
  rewrite <- Hdir0 in Hbad.
  pose proof (load_abort env [] n rest o0 (Forall_nil _) Hbad) as Ha.
  cbn [app] in Ha. rewrite Ha in Hrun.
  assert (Hl : loaded (snd (check_input env o)) = ([], [], [], [], []))
    by (rewrite Hrun; exact Hld).
  unfold loaded in Hl. injection Hl as Hs Hh Hd _ _.
  now apply Hist1D_init_no_first_sample.
Qed.

End ConstructorReturns.

(** X12.  For a list of at most ten sample names and no stack, the
    constructor raises [StopIteration] exactly when nothing is loaded from
    the first name: when the list is empty, or the file of the first name
    cannot be read or does not hold a histogram.  The files of the later
    names do not decide it. *)
Theorem Hist1D_init_stops_iff F (num : Numeric F) (env : Env F)
    (directory : string) (names : list string) (dat : pyarg) (errs : option string)
    (markers : list string) (mpl : dict rcval) (lg : list string) :
  List.length names <= 10 ->
  let r := fst (Hist1D_init env
                  (new_Hist1D directory (AList (map PStr names)) dat errs false
                     markers mpl lg)) in
  r = Raise StopIteration <->
  ~ (exists n rest h, names = n :: rest /\ loads env directory n h).
Proof.
  intros Hlen r. subst r.
  set (o := new_Hist1D directory (AList (map PStr names)) dat errs false markers mpl lg).
  destruct names as [|n rest].
  - assert (Hr : fst (Hist1D_init env o) = Raise StopIteration) by reflexivity.
    rewrite Hr. split; [| reflexivity].
    intros _ (n & rest & h & Hn & _). discriminate.
  - destruct (pickle_load env (directory ++ n ++ ".pkl")%string) as [| | h] eqn:E.
    + assert (Hr : fst (Hist1D_init env o) = Raise StopIteration).
      { apply (Hist1D_init_first_stops env o n rest eq_refl eq_refl).
        unfold stops_loading. cbn [dir o new_Hist1D]. now rewrite E. }
      rewrite Hr. split; [| reflexivity].
      intros _ (n' & rest' & h & Hn & Hl). injection Hn as <- <-.
      unfold loads in Hl. congruence.
    + assert (Hr : fst (Hist1D_init env o) = Raise StopIteration).
      { apply (Hist1D_init_first_stops env o n rest eq_refl eq_refl).
        unfold stops_loading. cbn [dir o new_Hist1D]. now rewrite E. }
      rewrite Hr. split; [| reflexivity].
      intros _ (n' & rest' & h & Hn & Hl). injection Hn as <- <-.
      unfold loads in Hl. congruence.
    + assert (Hr : fst (Hist1D_init env o) = Ok tt).
      { apply (Hist1D_init_first_loads env o n rest h eq_refl eq_refl Hlen eq_refl).
        exact E. }
      rewrite Hr. split; [discriminate |].
      intros Hno. exfalso. apply Hno. exists n, rest, h.
      split; [reflexivity | exact E].
Qed.

Lemma Hist1D_init_stops_iff_witness :
  List.length ["missing"; "a"; "b"]%string <= 10 /\
  fst (Hist1D_init example_env
         (new_Hist1D EmptyString (AList (map PStr ["missing"; "a"; "b"]%string))
            (AList []) None false ["."]%string default_rcps []))
  = Raise StopIteration.
Proof.
  assert (Hlen : List.length ["missing"; "a"; "b"]%string <= 10) by (cbn; lia).
  split; [exact Hlen |].
  pose proof (Hist1D_init_stops_iff float _ example_env EmptyString
                ["missing"; "a"; "b"]%string (AList []) None ["."]%string
                default_rcps [] Hlen) as H.
  cbv zeta in H. apply H.
  intros (n & rest & h & Hn & Hl). injection Hn as <- <-.
  vm_compute in Hl. discriminate.
Defined.

(** ** What [store_data] records *)

Lemma filter_fst_length {A B} (p : A -> bool) (l : list (A * B)) :
  List.length (filter (fun kv => p (fst kv)) l) = List.length (filter p (map fst l)).
Proof.
  induction l as [|[a b] l IH]; cbn; [reflexivity |].
  destruct (p a); cbn; now rewrite IH.
Qed.

Section StoreData.
Context {F : Type} {num : Numeric F}.
Variable env : Env F.

Lemma check_input_meta : preserves (@meta F) (check_input env).
Proof. unfold check_input, check_data_names, type_checker, load_sample. frame. Qed.

Lemma assign_colors_meta (custom : option (list color)) :
  preserves (@meta F) (assign_colors env custom).
Proof. unfold assign_colors, set_color. frame. Qed.

(** The loop of [store_data] over the items of [samples_dict]. *)
Lemma store_data_loop (sd : dict (Histogram F)) :
  forall o : obj F,
    let role := fun kv : string * Histogram F =>
                  arg_contains (fst kv) (data (store o)) || arg_is_all (data (store o)) in
    let r := for_each sd (fun kv =>
               let '(samplename, sample) := kv in
               modify (with_meta (push_name_label (str_or_empty (h_name sample))
                                                  (str_or_empty (h_label sample)))) ;;
               dat <- gets (fun o => data (store o)) ;;
               if arg_contains samplename dat || arg_is_all dat
               then modify (with_meta (push_scatterlabel (h_label sample)))
               else modify (with_meta (push_histolabel (h_label sample)))) o in
    fst r = Ok tt /\ store (snd r) = store o /\ style (snd r) = style o /\
    values (meta (snd r)) = values (meta o) /\
    names (meta (snd r))
    = (names (meta o) ++ map (fun kv => str_or_empty (h_name (snd kv))) sd)%list /\
    labels (meta (snd r))
    = (labels (meta o) ++ map (fun kv => str_or_empty (h_label (snd kv))) sd)%list /\
    scatterlabels (meta (snd r))
    = (scatterlabels (meta o) ++ map (fun kv => h_label (snd kv)) (filter role sd))%list /\
    histolabels (meta (snd r))
    = (histolabels (meta o)
       ++ map (fun kv => h_label (snd kv)) (filter (fun kv => negb (role kv)) sd))%list.
Proof.
  induction sd as [|[k h] sd IH]; intros o role r; subst r.
  - cbn. rewrite !app_nil_r. repeat split; reflexivity.
  - match goal with
    | |- context [for_each _ ?b] => set (body := b) in *
    end.
    assert (Hb : body (k, h) o
                 = (Ok tt,
                    with_meta (if role (k, h) then push_scatterlabel (h_label h)
                               else push_histolabel (h_label h))
                      (with_meta (push_name_label (str_or_empty (h_name h))
                                                  (str_or_empty (h_label h))) o))).
    { subst body role. unfold bind, modify, gets. cbn [store with_meta data fst].
      destruct (arg_contains k (data (store o)) || arg_is_all (data (store o)));
        reflexivity. }
    cbn [for_each]. unfold bind. rewrite Hb.
    match goal with
    | |- context [for_each sd body ?o1] =>
        destruct (IH o1) as (Hok & Hst & Hsty & Hv & Hn & Hl & Hs & Hh)
    end.
    cbv zeta in Hok, Hst, Hsty, Hv, Hn, Hl, Hs, Hh.
    rewrite Hok, Hst, Hsty, Hv, Hn, Hl, Hs, Hh.
    cbn [filter map]. subst role. cbn [fst snd store with_meta data].
    destruct (arg_contains k (data (store o)) || arg_is_all (data (store o)));
      cbn [negb map meta with_meta names labels values scatterlabels histolabels
           push_name_label push_scatterlabel push_histolabel style store];
      rewrite <- ?app_assoc; repeat split; reflexivity.
Qed.

End StoreData.

Section StoreDataMeta.
Context {F : Type} {num : Numeric F}.
Variable env : Env F.

(** What a call of [store_data] that returns has written. *)
Lemma store_data_meta (o : obj F) :
  fst (store_data o) = Ok tt ->
  let o' := snd (store_data o) in
  let sd := samples_dict (store o) in
  let role := fun kv : string * Histogram F =>
                arg_contains (fst kv) (data (store o)) || arg_is_all (data (store o)) in
  store o' = store o /\ style o' = style o /\
  values (meta o') = map (@h_values F) (dict_values sd) /\
  names (meta o')
  = (names (meta o) ++ map (fun kv => str_or_empty (h_name (snd kv))) sd)%list /\
  labels (meta o')
  = (labels (meta o) ++ map (fun kv => str_or_empty (h_label (snd kv))) sd)%list /\
  scatterlabels (meta o')
  = (scatterlabels (meta o) ++ map (fun kv => h_label (snd kv)) (filter role sd))%list /\
  histolabels (meta o')
  = (histolabels (meta o)
     ++ map (fun kv => h_label (snd kv)) (filter (fun kv => negb (role kv)) sd))%list.
Proof.
  intros Hok. cbv zeta. remember (store_data o) as r eqn:Er.
  unfold store_data in Er. unfold bind at 1 in Er. unfold gets at 1 in Er.
  unfold bind at 1 in Er.
  match type of Er with
  | r = match ?first o with _ => _ end =>
      assert (Hpure : snd (first o) = o);
      [| destruct (first o) as [[h | e] o1]; cbn [snd] in Hpure; subst o1;
         [| subst r; discriminate] ]
  end.
  { unfold bind, gets, lift. destruct (nonempty (histos_dict (store o)));
      repeat match goal with
             | |- context [match ?x with _ => _ end] => destruct x
             end; reflexivity. }
  unfold bind at 1 in Er. unfold modify at 1 in Er. unfold bind at 1 in Er.
  unfold gets at 1 in Er. unfold bind at 1 in Er. unfold modify at 1 in Er.
  cbn [store with_meta] in Er.
  match type of Er with
  | r = for_each (samples_dict (store o)) _ ?o4 =>
      destruct (store_data_loop (samples_dict (store o)) o4)
        as (_ & Hst & Hsty & Hv & Hn & Hl & Hs & Hh)
  end.
  cbv zeta in Hst, Hsty, Hv, Hn, Hl, Hs, Hh. rewrite <- Er in *.
  repeat split; [exact Hst | exact Hsty | exact Hv | exact Hn | exact Hl | exact Hs
                | exact Hh].
Qed.

End StoreDataMeta.

(** X13.  In an object that the constructor returns, [names], [labels]
    and [values] hold one entry for each loaded sample, in loading order;
    [histolabels] has as many entries as [histos_dict] and
    [scatterlabels] as many as [data_dict]. *)
Theorem Hist1D_init_labels_aligned F (num : Numeric F) (env : Env F)
    (directory : string) (smp dat : pyarg) (errs : option string) (stack : bool)
    (markers : list string) (mpl : dict rcval) (lg : list string) :
  fst (Hist1D_init env (new_Hist1D directory smp dat errs stack markers mpl lg))
  = Ok tt ->
  let o' := snd (Hist1D_init env
                   (new_Hist1D directory smp dat errs stack markers mpl lg)) in
  let hs := dict_values (samples_dict (store o')) in
  names (meta o') = map (fun h => str_or_empty (h_name h)) hs /\
  labels (meta o') = map (fun h => str_or_empty (h_label h)) hs /\
  values (meta o') = map (@h_values F) hs /\
  List.length (histolabels (meta o')) = dict_len (histos_dict (store o')) /\
  List.length (scatterlabels (meta o')) = dict_len (data_dict (store o')).
Proof.
  set (o := new_Hist1D directory smp dat errs stack markers mpl lg).
  pose proof (check_input_partitioned env o eq_refl) as Hpart.
  pose proof (check_input_meta env o) as Hmeta. cbv beta in Hmeta.
  rewrite Hist1D_init_tail. cbv zeta.
  set (o1 := snd (check_input env o)) in *.
  set (o2 := with_style (set_legend_ncols 1) _).
  pose proof (assign_colors_store env None o2) as Hst3.
  pose proof (assign_colors_meta env None o2) as Hm3.
  destruct (assign_colors env None o2) as [[[] | e] o3]; [| discriminate].
  cbn [snd] in Hst3, Hm3.
  assert (Hst31 : store o3 = store o1) by (rewrite Hst3; reflexivity).
  assert (Hm30 : meta o3 = meta o) by (rewrite Hm3; exact Hmeta).
  intros Hok.
  destruct (store_data_meta o3 Hok) as (Hst & _ & Hv & Hn & Hl & Hs & Hh).
  cbv zeta in Hst, Hv, Hn, Hl, Hs, Hh. cbv zeta.
  rewrite Hst, Hv, Hn, Hl, Hs, Hh, Hm30, Hst31. cbn [meta o new_Hist1D names labels
    scatterlabels histolabels app].
  destruct Hpart as (_ & Hpd & Hph). cbv zeta in Hpd, Hph.
  unfold dict_values. rewrite !map_map.
  split; [reflexivity |]. split; [reflexivity |]. split; [reflexivity |].
  rewrite !length_map, !dict_len_keys, Hpd, Hph.
  unfold dict_keys.
  split; apply filter_fst_length
    with (p := fun k => negb (arg_contains k (data (store o1)) || arg_is_all (data (store o1))))
    || apply filter_fst_length
    with (p := fun k => arg_contains k (data (store o1)) || arg_is_all (data (store o1))).
Qed.

Lemma Hist1D_init_labels_aligned_witness :
  fst (Hist1D_init example_env
         (new_Hist1D EmptyString (AList [PStr "a"; PStr "b"]) (AStr "b") None false
            ["."]%string default_rcps [])) = Ok tt /\
  let o' := snd (Hist1D_init example_env
                   (new_Hist1D EmptyString (AList [PStr "a"; PStr "b"]) (AStr "b") None
                      false ["."]%string default_rcps [])) in
  List.length (names (meta o')) = 2 /\
  List.length (histolabels (meta o')) = dict_len (histos_dict (store o')) /\
  List.length (scatterlabels (meta o')) = dict_len (data_dict (store o')).
Proof.
  assert (H : fst (Hist1D_init example_env
         (new_Hist1D EmptyString (AList [PStr "a"; PStr "b"]) (AStr "b") None false
            ["."]%string default_rcps [])) = Ok tt) by reflexivity.
  split; [exact H |].
  pose proof (Hist1D_init_labels_aligned float _ example_env EmptyString
                (AList [PStr "a"; PStr "b"]) (AStr "b") None false ["."]%string
                default_rcps [] H) as Ha.
  cbv zeta in Ha. destruct Ha as (Hn & _ & _ & Hh & Hs).
  cbv zeta. split; [rewrite Hn; reflexivity |]. split; [exact Hh | exact Hs].
Defined.

(** ** An accepted grid string *)

Lemma grid_strings_truthy (a l : string) :
  In (a, l) grid_strings -> str_truthy (a ++ l) = true.
Proof.
  intros Hin. simpl in Hin.
  repeat (destruct Hin as [Hin | Hin]; [injection Hin as <- <-; reflexivity |]).
  contradiction.
Qed.

Section GridAccepted.
Context {F : Type} {num : Numeric F}.
Variable env : Env F.

Lemma plot_options_grid_accepts (a l : string) (o : obj F) :
  In (a, l) grid_strings ->
  plot_options_grid (a ++ l) o
  = (Ok tt, with_style (set_need_grid true) (with_style (set_grid a l) o)).
Proof.
  intros Hin. unfold plot_options_grid. rewrite (grid_strings_truthy a l Hin).
  unfold bind at 1. rewrite (gridstring_accepts F o a l Hin). reflexivity.
Qed.

Lemma draw_grid_draws (ax : axes_id) (a l : string) (o : obj F) :
  grid_attrs o = (true, Some a, Some l) ->
  @draw_grid F ax o = (Ok tt, drawn [Grid ax a l] o).
Proof.
  unfold grid_attrs. intros H. injection H as Hng Hax Hln.
  unfold draw_grid, bind, gets, getattr. cbn. rewrite Hng, Hax, Hln. reflexivity.
Qed.

(** The grid attributes after [plot_options] are those after its grid
    block. *)
Lemma plot_options_grid_attrs (shp : option string) (gs : string)
    (marker : option string) (markersize : option float) (legendcols : option Z)
    (rcp_kw : dict rcval) (o : obj F) :
  exists o1 : obj F,
    grid_attrs o1 = grid_attrs o /\
    (fst (plot_options_grid gs o1) = Ok tt ->
     grid_attrs (snd (plot_options env shp gs marker markersize legendcols rcp_kw o))
     = grid_attrs (snd (plot_options_grid gs o1))) /\
    (forall e, fst (plot_options_grid gs o1) = Raise e ->
     fst (plot_options env shp gs marker markersize legendcols rcp_kw o) = Raise e).
Proof.
  unfold plot_options. unfold bind at 1 3.
  pose proof (plot_options_shape_returns shp o) as Hs.
  pose proof (plot_options_shape_grid shp o) as Hg.
  destruct (plot_options_shape shp o) as [r o1]. cbn [fst snd] in Hs, Hg. subst r.
  exists o1. split; [exact Hg |].
  unfold bind at 1 2.
  destruct (plot_options_grid gs o1) as [[[] | e] o2]; cbn [fst snd].
  - split; [| discriminate]. intros _.
    apply (plot_options_rest_grid env shp marker markersize legendcols rcp_kw o2).
  - split; [discriminate |]. intros e' H. exact H.
Qed.

End GridAccepted.

(** X14.  After [plot_options] with an axis name followed by a line
    style, whatever the other options are and whether or not the call
    returns, the grid is on with that axis and that line style; drawing
    the grid then calls [ax.grid] with them, and a [hist_plot] that
    returns has made that call. *)
Theorem plot_options_grid_accepted F (num : Numeric F) (env : Env F)
    (o : obj F) (shp : option string) (a l : string) (marker : option string)
    (markersize : option float) (legendcols : option Z) (rcp_kw : dict rcval)
    (ax : axes_id) :
  In (a, l) grid_strings ->
  let o' := snd (plot_options env shp (a ++ l) marker markersize legendcols rcp_kw o) in
  grid_attrs o' = (true, Some a, Some l) /\
  @draw_grid F ax o' = (Ok tt, drawn [Grid ax a l] o') /\
  (fst (hist_plot ax o') = Ok tt ->
   In (Grid ax a l) (canvas (snd (hist_plot ax o')))).
Proof.
  intros Hin o'.
  assert (Hg : grid_attrs o' = (true, Some a, Some l)).
  { destruct (plot_options_grid_attrs env shp (a ++ l) marker markersize legendcols
                rcp_kw o) as (o1 & _ & Hok & _).
    rewrite (plot_options_grid_accepts a l o1 Hin) in Hok.
    subst o'. rewrite (Hok eq_refl). reflexivity. }
  split; [exact Hg |]. split; [now apply draw_grid_draws |].
  remember (hist_plot ax o') as r eqn:Er.
  unfold hist_plot in Er. unfold bind at 1 in Er.
  pose proof (hist_plot_body_grid ax o') as Hb.
  destruct (hist_plot_body ax o') as [[[] | e] ob]; [| subst r; discriminate].
  cbn [snd] in Hb. intros _.
  unfold bind at 1 in Er.
  rewrite (draw_grid_draws ax a l ob) in Er by (rewrite Hb; exact Hg).
  subst r.
  unfold hist_plot_finish, set_explabel, bind, gets, raise, draw, modify, drawn.
  cbn -[has_label_text].
  destruct (has_label_text (hep_style (style ob)));
    cbn [snd canvas with_canvas]; rewrite ?in_app_iff; cbn [In]; auto 20.
Qed.

Lemma plot_options_grid_accepted_witness :
  In ("y", ":")%string grid_strings /\
  let o' := snd (plot_options example_env None "y:" None None None [] example_obj) in
  grid_attrs o' = (true, Some "y", Some ":")%string /\
  In (Grid MainAx "y" ":") (canvas (snd (hist_plot MainAx o'))).
Proof.
  assert (Hin : In ("y", ":")%string grid_strings)
    by (apply grid_strings_In; cbn; auto).
  split; [exact Hin |].
  pose proof (plot_options_grid_accepted float _ example_env example_obj None
                "y"%string ":"%string None None None [] MainAx Hin) as H.
  cbv zeta in H. destruct H as (Hg & _ & Hh).
  cbv zeta. split; [exact Hg |]. apply Hh. reflexivity.
Defined.

(** X15.  [plot_options] has no way to switch the grid off: once
    [need_grid] is [True] it stays so through every later call, whatever
    the arguments and whether or not the call returns. *)
Theorem plot_options_never_clears_grid F (num : Numeric F) (env : Env F)
    (o : obj F) (shp : option string) (gs : string) (marker : option string)
    (markersize : option float) (legendcols : option Z) (rcp_kw : dict rcval) :
  need_grid (style o) = true ->
  need_grid (style (snd (plot_options env shp gs marker markersize legendcols
                           rcp_kw o))) = true.
Proof.
  intros Hng.
  unfold plot_options. unfold bind at 1.
  pose proof (plot_options_shape_returns shp o) as Hs.
  pose proof (plot_options_shape_grid shp o) as Hg.
  destruct (plot_options_shape shp o) as [r o1]. cbn [fst snd] in Hs, Hg. subst r.
  assert (Hng1 : need_grid (style o1) = true).
  { unfold grid_attrs in Hg. injection Hg as -> _ _. exact Hng. }
  unfold bind at 1. unfold plot_options_grid.
  destruct (str_truthy gs).
  - unfold bind at 1.
    assert (Hc : need_grid (style (snd (gridstring_converter gs o1))) = true).
    { unfold gridstring_converter, bind, lift.
      destruct (str_head gs); [| exact Hng1].
      repeat match goal with
             | |- context [if ?b then _ else _] => destruct b
             end; exact Hng1. }
    destruct (gridstring_converter gs o1) as [[[] | e] o2]; cbn [snd] in Hc.
    + unfold modify at 1.
      pose proof (plot_options_rest_grid env shp marker markersize legendcols rcp_kw
                    (with_style (set_need_grid true) o2)) as Hr.
      unfold grid_attrs in Hr. injection Hr as -> _ _. reflexivity.
    + exact Hc.
  - unfold ret at 1.
    pose proof (plot_options_rest_grid env shp marker markersize legendcols rcp_kw o1)
      as Hr.
    unfold grid_attrs in Hr. injection Hr as -> _ _. exact Hng1.
Qed.

Lemma plot_options_never_clears_grid_witness :
  let o := snd (plot_options example_env None "x--" None None None [] example_obj) in
  need_grid (style o) = true /\
  need_grid (style (snd (plot_options example_env (Some "full"%string) EmptyString None
                           None None [] o))) = true.
Proof.
  cbv zeta.
  assert (H : need_grid (style (snd (plot_options example_env None "x--" None None None
                                       [] example_obj))) = true) by reflexivity.
  split; [exact H |].
  exact (plot_options_never_clears_grid float _ example_env _ (Some "full"%string)
           EmptyString None None None [] H).
Defined.

(** ** Error bars without a histogram *)

Section ErrsWithoutHistos.
Context {F : Type} {num : Numeric F}.

Lemma scatterdata_plotter_store (ax : axes_id) :
  preserves (@store F) (@scatterdata_plotter F ax).
Proof. unfold scatterdata_plotter, get_samples_colors, rcps_index. frame. Qed.

Lemma scatterdata_plotter_errors (ax : axes_id) :
  preserves (@errors F) (@scatterdata_plotter F ax).
Proof. unfold scatterdata_plotter, get_samples_colors, rcps_index. frame. Qed.

Lemma histbins_errs_no_histos (ax : axes_id) (ratio : bool) (o : obj F) :
  histos_dict (store o) = [] ->
  histbins_errs ax ratio o = (Raise IndexError, o).
Proof.
  intros H. unfold histbins_errs. unfold bind at 1. unfold gets at 1. rewrite H.
  unfold bind at 1. unfold get_samples_colors, bind, gets, lift. reflexivity.
Qed.

End ErrsWithoutHistos.

(** X16.  With no sample in the histogram role, [histbins_errs] raises
    [IndexError] at [histlist[0]] and draws nothing; so with [errors] set
    to 'hist' or 'all' and every sample plotted as data, [hist_plot]
    cannot return. *)
Theorem histbins_errs_without_histos F (num : Numeric F) (ax : axes_id)
    (ratio : bool) (o : obj F) :
  histos_dict (store o) = [] ->
  histbins_errs ax ratio o = (Raise IndexError, o) /\
  (opt_str_is (errors o) "hist" || opt_str_is (errors o) "all" = true ->
   exists e, fst (hist_plot ax o) = Raise e).
Proof.
  intros H. split; [now apply histbins_errs_no_histos |].
  intros He. unfold hist_plot. unfold bind at 1.
  unfold hist_plot_body. unfold bind at 1. unfold gets at 1. rewrite H.
  cbn [nonempty]. unfold bind at 1. unfold ret at 1.
  unfold bind at 1. unfold gets at 1. unfold bind at 1.
  assert (Hsc : forall m : M F unit,
            preserves (@store F) m -> preserves (@errors F) m ->
            exists e,
              fst (match
                     match m o with
                     | (Ok _, o') =>
                         (errs <- gets (@errors F) ;;
                          (if opt_str_is errs "hist" || opt_str_is errs "all"
                           then histbins_errs ax false else ret tt) ;;
                          _ <- rcps_index "font.size" ;;
                          draw (Decoration ax "tick_params") ;;
                          draw (Decoration ax "ticklabel_format")) o'
                     | (Raise e, o') => (Raise e, o')
                     end
                   with
                   | (Ok _, o') => (draw_grid ax ;; hist_plot_finish ax) o'
                   | (Raise e, o') => (Raise e, o')
                   end) = Raise e).
  { intros m Hst Her. specialize (Hst o). specialize (Her o).
    destruct (m o) as [[[] | e] o1]; cbn [snd] in Hst, Her.
    - unfold bind at 1. unfold gets at 1. rewrite Her, He.
      unfold bind at 1.
      rewrite histbins_errs_no_histos by (rewrite Hst; exact H).
      now exists IndexError.
    - now exists e. }
  destruct (arg_truthy (data (store o))).
  - apply Hsc; [apply scatterdata_plotter_store | apply scatterdata_plotter_errors].
  - apply Hsc; [apply preserves_ret | apply preserves_ret].
Qed.

Lemma histbins_errs_without_histos_witness :
  let o := snd (Hist1D_init example_env
                  (example_new (AList [PStr "a"]) (AList [PStr "a"]) (Some "hist"%string))) in
  histos_dict (store o) = [] /\
  histbins_errs MainAx false o = (Raise IndexError, o) /\
  fst (hist_plot MainAx o) = Raise IndexError.
Proof.
  cbv zeta.
  assert (H : histos_dict (store (snd (Hist1D_init example_env
                (example_new (AList [PStr "a"]) (AList [PStr "a"]) (Some "hist"%string)))))
              = []) by reflexivity.
  split; [exact H |].
  split; [| reflexivity].
  exact (proj1 (histbins_errs_without_histos float _ MainAx false _ H)).
Defined.

(** ** The reference of a ratio plot *)

Lemma dict_set_fresh {V} (d : dict V) (k : string) (v : V) :
  ~ In k (dict_keys d) -> dict_set d k v = (d ++ [(k, v)])%list.
Proof.
  induction d as [|[k' v'] d IH]; cbn; [reflexivity |].
  intros Hk. destruct (str_eqb k k') eqn:E.
  - apply str_eqb_eq in E. subst. exfalso. apply Hk. now left.
  - rewrite IH; [reflexivity |]. intros H. apply Hk. now right.
Qed.

Lemma dict_get_notin {V} (d : dict V) (k : string) :
  ~ In k (dict_keys d) -> dict_get d k = None.
Proof.
  induction d as [|[k' v'] d IH]; cbn; [reflexivity |].
  intros Hk. destruct (str_eqb k k') eqn:E.
  - apply str_eqb_eq in E. subst. exfalso. apply Hk. now left.
  - apply IH. intros H. apply Hk. now right.
Qed.

Lemma filter_keys_all {V} (d : dict V) (r : string) :
  ~ In r (dict_keys d) ->
  filter (fun kv => negb (str_eqb (fst kv) r)) d = d /\
  filter (fun kv => str_eqb (fst kv) r) d = [].
Proof.
  induction d as [|[k v] d IH]; cbn; [now split |].
  intros Hr. destruct (str_eqb k r) eqn:E.
  - apply str_eqb_eq in E. subst. exfalso. apply Hr. now left.
  - cbn. destruct IH as [H1 H2]; [intros H; apply Hr; now right |].
    now rewrite H1, H2.
Qed.

Section ReferenceFacts.
Context {F : Type} {num : Numeric F}.

Lemma ratiovalues_calculator_errlog :
  preserves (@errlog F) (@ratiovalues_calculator F num).
Proof. unfold ratiovalues_calculator. frame. Qed.

(** [check_reference] with a reference that is one of the names in
    [self.samples]. *)
Lemma check_reference_run (o : obj F) (ref : string) :
  reference (rp o) = Some ref -> ref <> EmptyString ->
  arg_contains ref (samples (store o)) = true ->
  NoDup (dict_keys (samples_dict (store o))) ->
  numerators (rp o) = [] -> denominator (rp o) = [] ->
  let o' := snd (check_reference o) in
  fst (check_reference o) = Ok tt /\
  numerators (rp o')
  = filter (fun kv => negb (str_eqb (fst kv) ref)) (samples_dict (store o)) /\
  denominator (rp o')
  = filter (fun kv => str_eqb (fst kv) ref) (samples_dict (store o)) /\
  dvals (rp o') = match dict_get (samples_dict (store o)) ref with
                  | Some h => NpArray (h_values h)
                  | None => dvals (rp o)
                  end /\
  errlog o' = errlog o /\ store o' = store o.
Proof.
  intros Href Hne Hin Hnd Hnum Hden. cbv zeta.
  remember (check_reference o) as r eqn:Er.
  unfold check_reference in Er. unfold bind at 1 in Er. unfold gets at 1 in Er.
  rewrite Href in Er.
  assert (Ht : opt_str_truthy (Some ref) = true)
    by (destruct ref; [congruence | reflexivity]).
  rewrite Ht in Er. unfold bind at 1 in Er. unfold gets at 1 in Er.
  cbn [str_or_empty] in Er. rewrite Hin in Er.
  unfold bind at 1 in Er. unfold gets at 1 in Er.
  match type of Er with
  | r = for_each _ ?b o => set (body := b) in Er
  end.
  assert (Hloop : forall (sd : dict (Histogram F)) (o1 : obj F),
    NoDup (dict_keys sd) ->
    (forall k, In k (dict_keys sd) -> ~ In k (dict_keys (numerators (rp o1)))) ->
    (denominator (rp o1) = [] \/ ~ In ref (dict_keys sd)) ->
    fst (for_each sd body o1) = Ok tt /\
    numerators (rp (snd (for_each sd body o1)))
    = (numerators (rp o1) ++ filter (fun kv => negb (str_eqb (fst kv) ref)) sd)%list /\
    denominator (rp (snd (for_each sd body o1)))
    = (denominator (rp o1) ++ filter (fun kv => str_eqb (fst kv) ref) sd)%list /\
    dvals (rp (snd (for_each sd body o1)))
    = match dict_get sd ref with
      | Some h => NpArray (h_values h)
      | None => dvals (rp o1)
      end /\
    errlog (snd (for_each sd body o1)) = errlog o1 /\
    store (snd (for_each sd body o1)) = store o1).
  { induction sd as [|[k h] sd IH]; intros o1 Hnd1 Hfresh Hd.
    - cbn. rewrite !app_nil_r. repeat split; reflexivity.
    - cbn [dict_keys map fst] in Hnd1. apply NoDup_cons_iff in Hnd1 as [Hk Hnd1].
      cbn [for_each]. unfold bind.
      destruct (str_eqb k ref) eqn:Ek.
      + apply str_eqb_eq in Ek. subst k.
        assert (Hden1 : denominator (rp o1) = []).
        { destruct Hd as [Hd | Hd]; [exact Hd |]. exfalso. apply Hd. now left. }
        assert (Hb : body (ref, h) o1
                     = (Ok tt,
                        with_rp (set_dvals (NpArray (h_values h)))
                          (with_rp (set_denominator [(ref, h)]) o1))).
        { subst body. cbn beta iota. rewrite str_eqb_refl.
          unfold bind, modify, gets, lift, with_rp.
          cbn [rp denominator set_denominator].
          rewrite Hden1. cbn [dict_set dict_first_key]. unfold dict_index.
          cbn [dict_get]. rewrite str_eqb_refl. reflexivity. }
        rewrite Hb.
        match goal with
        | |- context [for_each sd body ?o2] =>
            destruct (IH o2 Hnd1) as (Hok & Hn & Hdn & Hdv & Hlg & Hst)
        end.
        * intros k' Hk'. cbn. apply Hfresh. now right.
        * right. exact Hk.
        * rewrite Hok, Hn, Hdn, Hdv, Hlg, Hst.
          cbn [filter fst negb]. rewrite str_eqb_refl. cbn [negb dict_get].
          rewrite str_eqb_refl.
          rewrite (dict_get_notin sd ref Hk).
          cbn [rp with_rp numerators denominator dvals set_dvals set_denominator
               errlog store].
          rewrite Hden1. repeat split; reflexivity.
      + assert (Hkf : ~ In k (dict_keys (numerators (rp o1))))
          by (apply Hfresh; now left).
        assert (Hb : body (k, h) o1
                     = (Ok tt,
                        with_rp (set_numerators (numerators (rp o1) ++ [(k, h)])%list)
                          o1)).
        { subst body. cbn beta iota. rewrite Ek.
          unfold modify. f_equal. unfold with_rp. f_equal.
          unfold set_numerators. f_equal. now apply dict_set_fresh. }
        rewrite Hb.
        match goal with
        | |- context [for_each sd body ?o2] =>
            destruct (IH o2 Hnd1) as (Hok & Hn & Hdn & Hdv & Hlg & Hst)
        end.
        * intros k' Hk'. cbn [rp with_rp numerators set_numerators].
          unfold dict_keys. rewrite map_app. intros Hin'.
          apply in_app_or in Hin' as [Hin' | [<- | []]].
          -- revert Hin'. apply Hfresh. now right.
          -- apply Hk. exact Hk'.
        * destruct Hd as [Hd | Hd]; [left; exact Hd |].
          right. intros H. apply Hd. now right.
        * rewrite Hok, Hn, Hdn, Hdv, Hlg, Hst.
          cbn [filter fst negb]. rewrite Ek. cbn [negb dict_get].
          assert (Ek' : str_eqb ref k = false).
          { destruct (str_eqb ref k) eqn:E; [| reflexivity].
            apply str_eqb_eq in E. subst. now rewrite str_eqb_refl in Ek. }
          rewrite Ek'.
          cbn [rp with_rp numerators denominator dvals set_numerators errlog store].
          rewrite <- app_assoc. repeat split; reflexivity. }
  destruct (Hloop (samples_dict (store o)) o Hnd) as (Hok & Hn & Hdn & Hdv & Hlg & Hst).
  - intros k _. rewrite Hnum. intros [].
  - left. exact Hden.
  - rewrite <- Er in *. rewrite Hnum in Hn. rewrite Hden in Hdn.
    repeat split; assumption.
Qed.

End ReferenceFacts.

(** X17.  When the reference is one of the names in [self.samples],
    [check_reference] returns without logging; the numerators are the
    loaded samples other than the reference, in loading order, the
    denominator is the reference sample if it was loaded, and [dvals]
    holds its bin values. *)
Theorem check_reference_splits F (num : Numeric F) (o : obj F) (ref : string) :
  reference (rp o) = Some ref -> ref <> EmptyString ->
  arg_contains ref (samples (store o)) = true ->
  NoDup (dict_keys (samples_dict (store o))) ->
  numerators (rp o) = [] -> denominator (rp o) = [] ->
  let o' := snd (check_reference o) in
  fst (check_reference o) = Ok tt /\
  numerators (rp o')
  = filter (fun kv => negb (str_eqb (fst kv) ref)) (samples_dict (store o)) /\
  denominator (rp o')
  = filter (fun kv => str_eqb (fst kv) ref) (samples_dict (store o)) /\
  dvals (rp o') = match dict_get (samples_dict (store o)) ref with
                  | Some h => NpArray (h_values h)
                  | None => dvals (rp o)
                  end /\
  errlog o' = errlog o.
Proof.
  intros Href Hne Hin Hnd Hnum Hden.
  destruct (check_reference_run o ref Href Hne Hin Hnd Hnum Hden)
    as (Hok & Hn & Hd & Hdv & Hlg & _).
  cbv zeta. repeat split; assumption.
Qed.

(** X18.  When the reference is one of the names in [self.samples] but
    was not loaded (the loading loop broke before it), the ratio is taken
    against nothing: [check_reference] and [ratiovalues_calculator] both
    return, no message is logged, the denominator is empty, and every
    loaded sample gets an empty ratio series. *)
Theorem unloaded_reference_empty_ratios F (num : Numeric F) (o : obj F)
    (ref : string) :
  reference (rp o) = Some ref -> ref <> EmptyString ->
  arg_contains ref (samples (store o)) = true ->
  dict_get (samples_dict (store o)) ref = None ->
  NoDup (dict_keys (samples_dict (store o))) ->
  numerators (rp o) = [] -> denominator (rp o) = [] -> dvals (rp o) = NpArray [] ->
  let o' := snd ((check_reference ;; ratiovalues_calculator) o) in
  fst ((check_reference ;; ratiovalues_calculator) o) = Ok tt /\
  errlog o' = errlog o /\
  denominator (rp o') = [] /\
  forall k h, In (k, h) (samples_dict (store o)) ->
              dict_get (ratiovalues (rp o')) k = Some [].
Proof.
  intros Href Hne Hin Hno Hnd Hnum Hden Hdv0.
  destruct (check_reference_run o ref Href Hne Hin Hnd Hnum Hden)
    as (Hok & Hn & Hd & Hdv & Hlg & Hst).
  cbv zeta in Hn, Hd, Hdv, Hlg, Hst. cbv zeta.
  assert (Hnotin : ~ In ref (dict_keys (samples_dict (store o)))).
  { intros H. apply in_map_iff in H as ([k h] & Hk & Hkh). cbn in Hk. subst k.
    revert Hno Hkh. generalize (samples_dict (store o)).
    induction d as [|[k' h'] d IH]; cbn; [tauto |].
    destruct (str_eqb ref k') eqn:E; [discriminate |].
    intros Hg [Heq | Hkh]; [| now apply IH].
    injection Heq as -> _. now rewrite str_eqb_refl in E. }
  destruct (filter_keys_all (samples_dict (store o)) ref Hnotin) as [Hall Hnone].
  rewrite Hall in Hn. rewrite Hnone in Hd. rewrite Hno, Hdv0 in Hdv.
  remember ((check_reference ;; ratiovalues_calculator) o) as rr eqn:Err.
  unfold bind in Err.
  destruct (check_reference o) as [r o1]. cbn [fst snd] in *. subst r.
  pose proof (ratiovalues_calculator_errlog o1) as Hlg2. cbv beta in Hlg2.
  assert (Hden2 : denominator (rp (snd (ratiovalues_calculator o1))) = []).
  { rewrite <- Hd.
    assert (Hp : preserves (fun o : obj F => denominator (rp o))
                           (@ratiovalues_calculator F num))
      by (unfold ratiovalues_calculator; frame).
    apply Hp. }
  remember (ratiovalues_calculator o1) as r2 eqn:Er2.
  unfold ratiovalues_calculator in Er2.
  unfold bind at 1 in Er2. unfold modify at 1 in Er2. unfold bind at 1 in Er2.
  unfold gets at 1 in Er2. cbn [rp with_rp numerators set_ratiovalues] in Er2.
  destruct (ratio_loop_run [] (numerators (rp o1))
              (with_rp (set_ratiovalues []) o1))
    as (o2 & Hrun & Hser & _).
  { cbn. exact Hdv. }
  { rewrite Hn. exact Hnd. }
  rewrite Hrun in Er2. subst r2. subst rr. cbn [fst snd] in *.
  split; [reflexivity |]. split; [congruence |]. split; [exact Hden2 |].
  intros k h Hkh. rewrite Hn in Hser. rewrite (Hser k h Hkh).
  unfold ratio_of. now rewrite combine_nil.
Qed.

Lemma check_reference_splits_witness :
  let o := ratio_start (Some "b"%string) example_two in
  dict_keys (numerators (rp (snd (check_reference o)))) = ["a"%string] /\
  dict_keys (denominator (rp (snd (check_reference o)))) = ["b"%string] /\
  dvals (rp (snd (check_reference o))) = NpArray [2; 0; 3]%float.
Proof.
  cbv zeta.
  assert (Href : reference (rp (ratio_start (Some "b"%string) example_two))
                 = Some "b"%string) by reflexivity.
  assert (Hne : "b"%string <> EmptyString) by discriminate.
  assert (Hin : arg_contains "b" (samples (store (ratio_start (Some "b"%string)
                                                     example_two))) = true)
    by reflexivity.
  assert (Hnd : NoDup (dict_keys (samples_dict (store (ratio_start (Some "b"%string)
                                                         example_two)))))
    by exact NoDup_a_b.
  destruct (check_reference_splits float _ (ratio_start (Some "b"%string) example_two)
              "b"%string Href Hne Hin Hnd eq_refl eq_refl)
    as (_ & Hn & Hd & Hdv & _).
  rewrite Hn, Hd, Hdv. repeat split; reflexivity.
Defined.

Lemma unloaded_reference_empty_ratios_witness :
  dict_get (samples_dict (store example_broken)) "b" = None /\
  fst ((check_reference ;; ratiovalues_calculator) example_broken) = Ok tt /\
  errlog (snd ((check_reference ;; ratiovalues_calculator) example_broken))
  = errlog example_broken /\
  dict_get (ratiovalues (rp (snd ((check_reference ;; ratiovalues_calculator)
                                    example_broken)))) "a" = Some [].
Proof.
  assert (Hno : dict_get (samples_dict (store example_broken)) "b" = None)
    by reflexivity.
  assert (Hne : "b"%string <> EmptyString) by discriminate.
  assert (Hnd : NoDup (dict_keys (samples_dict (store example_broken)))).
  { change (NoDup ["a"%string]). constructor; [intros [] | constructor]. }
  split; [exact Hno |].
  destruct (unloaded_reference_empty_ratios float _ example_broken "b"%string
              eq_refl Hne eq_refl Hno Hnd eq_refl eq_refl eq_refl)
    as (Hok & Hlg & _ & Hser).
  split; [exact Hok |]. split; [exact Hlg |].
  apply (Hser "a"%string (hist_of [4; 0; 9]%float)). now left.
Defined.

(** ** Series of different lengths, and a denominator that is no series *)

Section RatioEdges.
Context {F : Type} {num : Numeric F}.

Lemma ratio_of_length_min (ns ds : list F) :
  List.length (ratio_of ns ds) = Nat.min (List.length ns) (List.length ds).
Proof.
  unfold ratio_of. rewrite ratio_loop_map. cbn [app].
  now rewrite length_map, length_combine.
Qed.

End RatioEdges.

(** X19.  [ratiovalues_calculator] pairs the bins with [zip]: a numerator
    and a denominator of different lengths raise nothing, and the stored
    series has the length of the shorter of the two. *)
Theorem ratiovalues_calculator_truncates F (num : Numeric F) (o : obj F)
    (ds : list F) :
  dvals (rp o) = NpArray ds ->
  NoDup (dict_keys (numerators (rp o))) ->
  exists o',
    ratiovalues_calculator o = (Ok tt, o') /\
    forall k sample, In (k, sample) (numerators (rp o)) ->
      exists series,
        dict_get (ratiovalues (rp o')) k = Some series /\
        List.length series
        = Nat.min (List.length (h_values sample)) (List.length ds).
Proof.
  intros Hdv Hnd. unfold ratiovalues_calculator.
  unfold bind at 1. unfold modify at 1. unfold bind at 1. unfold gets at 1.
  cbn [rp with_rp numerators set_ratiovalues].
  destruct (ratio_loop_run ds (numerators (rp o))
              (with_rp (set_ratiovalues []) o) Hdv Hnd)
    as (o' & Hrun & Hin & _).
  exists o'. split; [exact Hrun |].
  intros k sample Hk. exists (ratio_of (h_values sample) ds).
  split; [now apply Hin | apply ratio_of_length_min].
Qed.

Lemma ratiovalues_calculator_truncates_witness :
  let o := with_rp (set_dvals (NpArray [2; 4]%float))
             (with_rp (set_numerators [("a"%string, hist_of [4; 0; 9]%float)])
                example_two) in
  exists o',
    ratiovalues_calculator o = (Ok tt, o') /\
    exists series,
      dict_get (ratiovalues (rp o')) "a" = Some series /\ List.length series = 2.
Proof.
  cbv zeta.
  assert (Hnd : NoDup (dict_keys (numerators (rp
            (with_rp (set_dvals (NpArray [2; 4]%float))
               (with_rp (set_numerators [("a"%string, hist_of [4; 0; 9]%float)])
                  example_two)))))).
  { change (NoDup ["a"%string]). constructor; [intros [] | constructor]. }
  destruct (ratiovalues_calculator_truncates float _
              (with_rp (set_dvals (NpArray [2; 4]%float))
                 (with_rp (set_numerators [("a"%string, hist_of [4; 0; 9]%float)])
                    example_two))
              [2; 4]%float eq_refl Hnd)
    as (o' & Hrun & Hser).
  exists o'. split; [exact Hrun |].
  destruct (Hser "a"%string (hist_of [4; 0; 9]%float)) as (series & Hs & Hl);
    [now left |].
  exists series. split; [exact Hs | exact Hl].
Defined.

(** X20.  With [reference='total'], one data sample and no sample in the
    histogram role, [check_reference] takes the sum over no histogram,
    which is the number 0.0, as [dvals]; [ratiovalues_calculator] then
    raises [TypeError] at [zip], after it has stored an empty series for
    the first numerator. *)
Theorem total_reference_without_histos F (num : Numeric F) (o : obj F)
    (k : string) (h : Histogram F) (rest : dict (Histogram F)) :
  reference (rp o) = Some "total"%string ->
  arg_contains "total" (samples (store o)) = false ->
  arg_truthy (data (store o)) && Nat.eqb (arg_len (data (store o))) 1 = true ->
  histos_list (store o) = [] ->
  data_dict (store o) = (k, h) :: rest ->
  let o1 := snd (check_reference o) in
  fst (check_reference o) = Ok tt /\
  dvals (rp o1) = NpScalar num_zero /\
  numerators (rp o1) = (k, h) :: rest /\
  ratiovalues_calculator o1
  = (Raise TypeError, with_rp (set_ratiovalues [(k, [])]) o1).
Proof.
  intros Href Hin Hdat Hhl Hdd. cbv zeta.
  assert (Hrun : check_reference o
                 = (Ok tt, with_rp (set_dvals (NpScalar num_zero))
                             (with_rp (set_numerators ((k, h) :: rest)) o))).
  { unfold check_reference. unfold bind at 1. unfold gets at 1. rewrite Href.
    cbn [opt_str_truthy]. unfold bind at 1. unfold gets at 1.
    cbn [str_or_empty]. rewrite Hin. cbn [opt_str_is].
    rewrite str_eqb_refl. unfold bind at 1. unfold gets at 1. rewrite Hdat.
    unfold bind, gets, modify, lift. cbn [store with_rp]. rewrite Hdd, Hhl.
    reflexivity. }
  rewrite Hrun. cbn [fst snd].
  split; [reflexivity |]. split; [reflexivity |]. split; [reflexivity |].
  unfold ratiovalues_calculator, bind, modify, gets, raise.
  cbn [rp with_rp numerators set_numerators set_dvals set_ratiovalues for_each dvals].
  unfold bind, modify, gets, raise. reflexivity.
Qed.

Lemma total_reference_without_histos_witness :
  fst (check_reference example_total) = Ok tt /\
  fst (ratiovalues_calculator (snd (check_reference example_total))) = Raise TypeError.
Proof.
  destruct (total_reference_without_histos float _ example_total "a"%string
              (hist_of [4; 0; 9]%float) [] eq_refl eq_refl eq_refl eq_refl eq_refl)
    as (Hok & _ & _ & Hrun).
  split; [exact Hok |]. rewrite Hrun. reflexivity.
Defined.

(** ** Settings of the plotting library *)

Lemma forallb_same {A} (f g : A -> bool) (l : list A) :
  (forall x, f x = g x) -> forallb f l = forallb g l.
Proof. intros H. induction l as [|x l IH]; cbn; [reflexivity | now rewrite H, IH]. Qed.

Lemma NoDup_app_disjoint {A} (l1 l2 : list A) :
  NoDup (l1 ++ l2) -> forall x, In x l1 -> In x l2 -> False.
Proof.
  induction l1 as [|a l1 IH]; cbn; intros Hnd x H1 H2; [exact H1 |].
  apply NoDup_cons_iff in Hnd as [Ha Hnd]. destruct H1 as [-> | H1].
  - apply Ha. apply in_or_app. now right.
  - exact (IH Hnd x H1 H2).
Qed.

Lemma rc_known_set (g : dict rcval) (k k' : string) (v : rcval) :
  rc_known g k = true -> rc_known (dict_set g k v) k' = rc_known g k'.
Proof.
  unfold rc_known. intros Hk.
  destruct (String.eqb_spec k' k) as [-> | Hne].
  - rewrite dict_get_set_same. destruct (dict_get g k); [reflexivity | discriminate].
  - now rewrite dict_get_set_other.
Qed.

Lemma rc_known_keys (g : dict rcval) (k : string) (v : rcval) :
  rc_known g k = true -> dict_keys (dict_set g k v) = dict_keys g.
Proof.
  unfold rc_known. intros Hk. rewrite dict_keys_set.
  destruct (str_in k (dict_keys g)) eqn:E; [reflexivity |].
  apply str_in_false in E. rewrite (dict_get_notin g k E) in Hk. discriminate.
Qed.

Section RcParams.
Context {F : Type}.
Variable env : Env F.

Lemma rc_update_get (settings : dict rcval) :
  forall g : dict rcval,
    NoDup (dict_keys settings) ->
    (forall k v, In (k, v) settings ->
       dict_get (rc_update env g settings) k = Some (rc_stored env k v)) /\
    (forall k, ~ In k (dict_keys settings) ->
               dict_get (rc_update env g settings) k = dict_get g k).
Proof.
  induction settings as [|[k0 v0] settings IH]; intros g Hnd.
  - split; [intros k v [] | reflexivity].
  - cbn [dict_keys map fst] in Hnd. apply NoDup_cons_iff in Hnd as [Hk0 Hnd].
    destruct (IH (dict_set g k0 (rc_stored env k0 v0)) Hnd) as [Hin Hout].
    unfold rc_update in *. cbn [fold_left fst snd]. split.
    + intros k v [Heq | Hkv].
      * injection Heq as <- <-. rewrite (Hout k0 Hk0). apply dict_get_set_same.
      * now apply Hin.
    + intros k Hk. cbn [dict_keys map fst] in Hk.
      rewrite Hout by (intros H; apply Hk; now right).
      apply dict_get_set_other. intros ->. apply Hk. now left.
Qed.

Lemma rc_ok_set (g : dict rcval) (k : string) (v : rcval) (kv : string * rcval) :
  rc_known g k = true -> rc_ok env (dict_set g k v) kv = rc_ok env g kv.
Proof. intros Hk. unfold rc_ok. now rewrite rc_known_set. Qed.

Lemma rc_update_keys (settings : dict rcval) :
  forall g : dict rcval,
    forallb (rc_ok env g) settings = true ->
    dict_keys (rc_update env g settings) = dict_keys g.
Proof.
  induction settings as [|[k v] settings IH]; intros g Hall; [reflexivity |].
  cbn [forallb] in Hall. apply andb_true_iff in Hall as [Hkv Hall].
  unfold rc_ok in Hkv. cbn [fst snd] in Hkv. apply andb_true_iff in Hkv as [Hk _].
  unfold rc_update. cbn [fold_left fst snd].
  transitivity (dict_keys (dict_set g k (rc_stored env k v)));
    [| now apply rc_known_keys].
  apply IH. rewrite <- Hall. apply forallb_same. intros kv. now apply rc_ok_set.
Qed.

(** One pass of the loop of [config_rcParams]. *)
Lemma config_rcParams_step (kv : string * rcval) (rest : dict rcval) (o : obj F) :
  config_rcParams env (kv :: rest) o
  = if rc_known (mpl_rcParams o) (fst kv) then
      if rc_valid env (fst kv) (snd kv)
      then config_rcParams env rest
             (with_mpl (fun g => dict_set g (fst kv) (rc_stored env (fst kv) (snd kv)))
                       o)
      else (Raise ValueError, o)
    else (Raise KeyError, o).
Proof.
  unfold config_rcParams at 1. cbn [for_each]. unfold bind at 1 2. unfold gets at 1.
  unfold rc_known.
  destruct (dict_get (mpl_rcParams o) (fst kv)); [| reflexivity].
  destruct (rc_valid env (fst kv) (snd kv)); reflexivity.
Qed.

(** Every assignment goes through. *)
Lemma config_rcParams_all (settings : dict rcval) :
  forall o : obj F,
    forallb (rc_ok env (mpl_rcParams o)) settings = true ->
    config_rcParams env settings o
    = (Ok tt, with_mpl (fun g => rc_update env g settings) o).
Proof.
  induction settings as [|[k v] settings IH]; intros o Hall.
  - destruct o. reflexivity.
  - cbn [forallb] in Hall. apply andb_true_iff in Hall as [Hkv Hall].
    unfold rc_ok in Hkv. cbn [fst snd] in Hkv. apply andb_true_iff in Hkv as [Hk Hv].
    rewrite config_rcParams_step. cbn [fst snd]. rewrite Hk, Hv.
    rewrite IH; [reflexivity |].
    cbn [mpl_rcParams with_mpl]. rewrite <- Hall.
    apply forallb_same. intros kv. now apply rc_ok_set.
Qed.

(** The loop stops at the first assignment that is refused. *)
Lemma config_rcParams_refused (pre : dict rcval) (kv : string * rcval)
    (post : dict rcval) :
  forall o : obj F,
    forallb (rc_ok env (mpl_rcParams o)) pre = true ->
    rc_ok env (mpl_rcParams o) kv = false ->
    config_rcParams env (pre ++ kv :: post) o
    = (Raise (if rc_known (mpl_rcParams o) (fst kv) then ValueError else KeyError),
       with_mpl (fun g => rc_update env g pre) o).
Proof.
  induction pre as [|[k v] pre IH]; intros o Hall Hbad.
  - cbn [app]. rewrite config_rcParams_step. unfold rc_ok in Hbad.
    destruct (rc_known (mpl_rcParams o) (fst kv)); cbn [andb] in Hbad.
    + rewrite Hbad. destruct o. reflexivity.
    + destruct o. reflexivity.
  - cbn [forallb] in Hall. apply andb_true_iff in Hall as [Hkv Hall].
    unfold rc_ok in Hkv. cbn [fst snd] in Hkv. apply andb_true_iff in Hkv as [Hk Hv].
    cbn [app]. rewrite config_rcParams_step. cbn [fst snd]. rewrite Hk, Hv.
    rewrite IH.
    + cbn [mpl_rcParams with_mpl].
      rewrite (rc_known_set _ k (fst kv) (rc_stored env k v) Hk).
      reflexivity.
    + cbn [mpl_rcParams with_mpl]. rewrite <- Hall.
      apply forallb_same. intros kv'. now apply rc_ok_set.
    + cbn [mpl_rcParams with_mpl]. now rewrite rc_ok_set.
Qed.

End RcParams.

(** X21.  When every key of the settings is a key of [mpl.rcParams] and
    every value is accepted, [config_rcParams] returns, each key of the
    settings holds what its validator made of the new value (the value
    itself, or a conversion of it: the string ['12'] becomes the number
    [12.0] under ['font.size']), every other key holds its old value, and
    the set of keys of [mpl.rcParams] is what it was. *)
Theorem config_rcParams_applies F (env : Env F) (settings : dict rcval) (o : obj F) :
  NoDup (dict_keys settings) ->
  forallb (rc_ok env (mpl_rcParams o)) settings = true ->
  let o' := snd (config_rcParams env settings o) in
  config_rcParams env settings o
  = (Ok tt, with_mpl (fun g => rc_update env g settings) o) /\
  dict_keys (mpl_rcParams o') = dict_keys (mpl_rcParams o) /\
  (forall k v, In (k, v) settings ->
     dict_get (mpl_rcParams o') k = Some (rc_stored env k v)) /\
  (forall k, ~ In k (dict_keys settings) ->
             dict_get (mpl_rcParams o') k = dict_get (mpl_rcParams o) k).
Proof.
  intros Hnd Hall. cbv zeta. rewrite (config_rcParams_all env settings o Hall).
  cbn [snd mpl_rcParams with_mpl].
  destruct (rc_update_get env settings (mpl_rcParams o) Hnd) as [Hin Hout].
  split; [reflexivity |]. split; [now apply rc_update_keys |].
  split; [exact Hin | exact Hout].
Qed.

(** X22.  [config_rcParams] is not all-or-nothing: at the first key that
    [mpl.rcParams] does not know it raises [KeyError], at the first value
    it refuses [ValueError]; the settings before that one have been
    applied, each as its validator converted it, that one and those after
    it have not. *)
Theorem config_rcParams_stops_midway F (env : Env F) (pre : dict rcval)
    (k : string) (v : rcval) (post : dict rcval) (o : obj F) :
  NoDup (dict_keys (pre ++ (k, v) :: post)) ->
  forallb (rc_ok env (mpl_rcParams o)) pre = true ->
  rc_ok env (mpl_rcParams o) (k, v) = false ->
  let o' := snd (config_rcParams env (pre ++ (k, v) :: post) o) in
  fst (config_rcParams env (pre ++ (k, v) :: post) o)
  = Raise (if rc_known (mpl_rcParams o) k then ValueError else KeyError) /\
  (forall k' v', In (k', v') pre ->
     dict_get (mpl_rcParams o') k' = Some (rc_stored env k' v')) /\
  (forall k', In k' (k :: dict_keys post) ->
              dict_get (mpl_rcParams o') k' = dict_get (mpl_rcParams o) k').
Proof.
  intros Hnd Hall Hbad. cbv zeta.
  rewrite (config_rcParams_refused env pre (k, v) post o Hall Hbad).
  cbn [fst snd mpl_rcParams with_mpl].
  unfold dict_keys in Hnd. rewrite map_app in Hnd. cbn [map fst] in Hnd.
  assert (Hpre : NoDup (dict_keys pre)) by (now apply NoDup_app_remove_r in Hnd).
  destruct (rc_update_get env pre (mpl_rcParams o) Hpre) as [Hin Hout].
  split; [reflexivity |]. split; [exact Hin |].
  intros k' Hk'. apply Hout. intros Hk'pre.
  exact (NoDup_app_disjoint _ _ Hnd k' Hk'pre Hk').
Qed.

Lemma config_rcParams_applies_witness :
  let settings := [("font.size", RcStr "12"); ("lines.marker", RcStr "o")]%string in
  config_rcParams example_env settings example_obj
  = (Ok tt, with_mpl (fun g => rc_update example_env g settings) example_obj) /\
  dict_get (mpl_rcParams (snd (config_rcParams example_env settings example_obj)))
           "font.size" = Some (RcNum 12) /\
  dict_get (mpl_rcParams (snd (config_rcParams example_env settings example_obj)))
           "lines.marker" = Some (RcStr "o").
Proof.
  cbv zeta.
  assert (Hnd : NoDup (dict_keys [("font.size", RcStr "12");
                                  ("lines.marker", RcStr "o")]%string)).
  { constructor; [intros [H | []]; discriminate |].
    constructor; [intros [] | constructor]. }
  assert (Hall : forallb (rc_ok example_env (mpl_rcParams example_obj))
                         [("font.size", RcStr "12"); ("lines.marker", RcStr "o")]%string
                 = true) by reflexivity.
  destruct (config_rcParams_applies float example_env
              [("font.size", RcStr "12"); ("lines.marker", RcStr "o")]%string
              example_obj Hnd Hall) as (Hrun & _ & Hin & _).
  split; [exact Hrun |]. split.
  - exact (Hin "font.size"%string (RcStr "12") (or_introl eq_refl)).
  - exact (Hin "lines.marker"%string (RcStr "o") (or_intror (or_introl eq_refl))).
Defined.

Lemma config_rcParams_stops_midway_witness :
  let settings := [("lines.linewidth", RcNum 2); ("font.size", RcStr "abc");
                   ("lines.marker", RcStr "o")]%string in
  let o' := snd (config_rcParams example_env settings example_obj) in
  fst (config_rcParams example_env settings example_obj) = Raise ValueError /\
  dict_get (mpl_rcParams o') "lines.linewidth" = Some (RcNum 2) /\
  dict_get (mpl_rcParams o') "lines.marker"
  = dict_get (mpl_rcParams example_obj) "lines.marker".
Proof.
  cbv zeta.
  assert (Hnd : NoDup (dict_keys [("lines.linewidth", RcNum 2);
                                  ("font.size", RcStr "abc");
                                  ("lines.marker", RcStr "o")]%string)).
  { constructor; [intros [H | [H | []]]; discriminate |].
    constructor; [intros [H | []]; discriminate |].
    constructor; [intros [] | constructor]. }
  assert (Hall : forallb (rc_ok example_env (mpl_rcParams example_obj))
                         [("lines.linewidth", RcNum 2)]%string = true) by reflexivity.
  assert (Hbad : rc_ok example_env (mpl_rcParams example_obj)
                       ("font.size"%string, RcStr "abc") = false) by reflexivity.
  destruct (config_rcParams_stops_midway float example_env
              [("lines.linewidth", RcNum 2)]%string "font.size"%string (RcStr "abc")
              [("lines.marker", RcStr "o")]%string example_obj Hnd Hall Hbad)
    as (Hraise & Hin & Hout).
  split; [exact Hraise |]. split.
  - exact (Hin "lines.linewidth"%string (RcNum 2) (or_introl eq_refl)).
  - apply Hout. right. now left.
Defined.

(** ** What [plot_options] hands to the plotting library *)

Section MarkerOptions.
Context {F : Type} {num : Numeric F}.
Variable env : Env F.

Lemma bind_proj_eq {A B C} (P : obj F -> C) (m : M F A) (k1 k2 : A -> M F B)
    (o : obj F) :
  (forall a o1, P (snd (k1 a o1)) = P (snd (k2 a o1))) ->
  P (snd (bind m k1 o)) = P (snd (bind m k2 o)).
Proof.
  intros H. unfold bind. destruct (m o) as [[a | e] o1]; [apply H | reflexivity].
Qed.

Lemma assign_colors_mpl (custom : option (list color)) :
  preserves (@mpl_rcParams F) (assign_colors env custom).
Proof. unfold assign_colors, set_color. frame. Qed.

End MarkerOptions.

(** X23.  The marker, the marker size and the number of legend columns
    given to [plot_options] never reach [mpl.rcParams] in that call:
    [self.rcps] is copied to [mpl.rcParams] before they are stored, so
    [mpl.rcParams] after the call is the same whatever their values. *)
Theorem plot_options_marker_not_configured F (num : Numeric F) (env : Env F)
    (o : obj F) (shp : option string) (gs : string)
    (marker marker' : option string) (markersize markersize' : option float)
    (legendcols legendcols' : option Z) (rcp_kw : dict rcval) :
  mpl_rcParams (snd (plot_options env shp gs marker markersize legendcols rcp_kw o))
  = mpl_rcParams (snd (plot_options env shp gs marker' markersize' legendcols'
                         rcp_kw o)).
Proof.
  unfold plot_options, plot_options_rest.
  do 6 (apply bind_proj_eq; intros ? ?).
  match goal with
  | |- mpl_rcParams (snd (?m1 ?o1)) = mpl_rcParams (snd (?m2 ?o1)) =>
      assert (H1 : preserves (@mpl_rcParams F) m1);
      [| assert (H2 : preserves (@mpl_rcParams F) m2);
         [| now rewrite H1, H2 ] ]
  end.
  - unfold set_rc. frame; apply assign_colors_mpl.
  - unfold set_rc. frame; apply assign_colors_mpl.
Qed.

(** ** Ticks of the ratio panel: the calls that do not return *)

(** X24.  [ratio_options] (and [custom_yaxis]) without a step never
    returns: it raises [IndexError] when [ylims] is empty, as with the
    default arguments, and [TypeError] at [ylims[-1] + step] otherwise.
    [custom_ylims] has been set to [True] before that, with the old ticks
    and labels left in place. *)
Theorem ratio_options_without_step F (env : Env F) (o : obj F) (yl : list float)
    (edges : bool) :
  let r := ratio_options env yl None edges o in
  fst r = Raise (match yl with [] => IndexError | _ :: _ => TypeError end) /\
  custom_ylims (rp (snd r)) = true /\
  ylims (rp (snd r)) = yl /\
  ybotrange (rp (snd r)) = ybotrange (rp o) /\
  ybotlabels (rp (snd r)) = ybotlabels (rp o).
Proof.
  cbv zeta. unfold ratio_options, custom_yaxis.
  unfold bind at 1 3 5 7 9. unfold modify at 1 2 3 4 5.
  destruct yl as [|x yl].
  - repeat split; reflexivity.
  - assert (Hlast : exists hi, list_last (x :: yl) = Ok hi).
    { unfold list_last. destruct (rev (x :: yl)) as [|y l] eqn:E.
      - apply (f_equal (@List.length float)) in E. rewrite length_rev in E.
        discriminate.
      - now exists y. }
    destruct Hlast as [hi Hhi].
    unfold bind, lift, raise. cbn [list_first]. rewrite Hhi.
    repeat split; reflexivity.
Qed.

(** X25.  When [np.arange] gives no tick, the labels are the empty list:
    with [edges] set the call returns with no tick and no label, and
    without it the call raises [IndexError] at [self.ybotlabels[0] = '']. *)
Theorem custom_yaxis_no_ticks F (env : Env F) (o : obj F) (yl : list float)
    (step lo hi : float) (edges : bool) :
  list_first yl = Ok lo -> list_last yl = Ok hi ->
  np_arange env lo (PrimFloat.add hi step) step = [] ->
  let r := custom_yaxis env yl (Some step) edges o in
  fst r = (if edges then Ok tt else Raise IndexError) /\
  custom_ylims (rp (snd r)) = true /\
  ybotrange (rp (snd r)) = [] /\
  ybotlabels (rp (snd r)) = [].
Proof.
  intros Hlo Hhi Hno. cbv zeta. unfold custom_yaxis.
  unfold bind, modify, lift, ret, gets. rewrite Hlo, Hhi.
  cbn [rp with_rp ybotrange set_ybotrange]. rewrite Hno.
  destruct edges; repeat split; reflexivity.
Qed.

Lemma custom_yaxis_no_ticks_witness :
  np_arange example_env 3 (PrimFloat.add 1 0.5) 0.5 = [] /\
  fst (custom_yaxis example_env [3; 1]%float (Some 0.5%float) false example_ratio_obj)
  = Raise IndexError.
Proof.
  assert (Hno : np_arange example_env 3 (PrimFloat.add 1 0.5) 0.5 = []) by reflexivity.
  split; [exact Hno |].
  exact (proj1 (custom_yaxis_no_ticks float example_env example_ratio_obj [3; 1]%float
                  0.5%float 3%float 1%float false eq_refl eq_refl Hno)).
Defined.

(** ** Axis labels *)

Lemma dict_has_set {V} (d : dict V) (k k' : string) (v : V) :
  dict_has d k = true -> dict_has (dict_set d k v) k' = dict_has d k'.
Proof.
  unfold dict_has. intros Hk.
  destruct (String.eqb_spec k' k) as [-> | Hne].
  - rewrite dict_get_set_same. destruct (dict_get d k); [reflexivity | discriminate].
  - now rewrite dict_get_set_other.
Qed.

Lemma dict_has_keys {V} (d : dict V) (k : string) (v : V) :
  dict_has d k = true -> dict_keys (dict_set d k v) = dict_keys d.
Proof.
  unfold dict_has. intros Hk. rewrite dict_keys_set.
  destruct (str_in k (dict_keys d)) eqn:E; [reflexivity |].
  apply str_in_false in E. rewrite (dict_get_notin d k E) in Hk. discriminate.
Qed.

(** One turn of the loop keeps the keys of both dictionaries. *)
Lemma set_axislabel_keys (t : Titles) (kv : string * string) :
  dict_keys (xtitles_dict (set_axislabel t kv)) = dict_keys (xtitles_dict t) /\
  dict_keys (ytitles_dict (set_axislabel t kv)) = dict_keys (ytitles_dict t) /\
  (forall k, dict_has (xtitles_dict (set_axislabel t kv)) k
             = dict_has (xtitles_dict t) k) /\
  (forall k, dict_has (ytitles_dict (set_axislabel t kv)) k
             = dict_has (ytitles_dict t) k) /\
  fontsize (set_axislabel t kv) = fontsize t.
Proof.
  unfold set_axislabel.
  destruct (dict_has (xtitles_dict t) (fst kv)) eqn:Ex; cbn.
  - repeat split; try reflexivity; [now apply dict_has_keys |].
    intros k. now apply dict_has_set.
  - destruct (dict_has (ytitles_dict t) (fst kv)) eqn:Ey; cbn.
    + repeat split; try reflexivity; [now apply dict_has_keys |].
      intros k. now apply dict_has_set.
    + repeat split; reflexivity.
Qed.

Lemma set_axislabels_loop (kw : dict string) :
  forall t : Titles,
    let t' := fold_left set_axislabel kw t in
    dict_keys (xtitles_dict t') = dict_keys (xtitles_dict t) /\
    dict_keys (ytitles_dict t') = dict_keys (ytitles_dict t) /\
    fontsize t' = fontsize t /\
    (NoDup (dict_keys kw) ->
     (forall k v, In (k, v) kw ->
        (dict_has (xtitles_dict t) k = true -> dict_get (xtitles_dict t') k = Some v) /\
        (dict_has (xtitles_dict t) k = false -> dict_has (ytitles_dict t) k = true ->
         dict_get (ytitles_dict t') k = Some v)) /\
     (forall k, ~ In k (dict_keys kw) ->
        dict_get (xtitles_dict t') k = dict_get (xtitles_dict t) k /\
        dict_get (ytitles_dict t') k = dict_get (ytitles_dict t) k)).
Proof.
  induction kw as [|[k0 v0] kw IH]; intros t t'; subst t'.
  - cbn. split; [reflexivity |]. split; [reflexivity |]. split; [reflexivity |].
    intros _. split; [intros k v [] | intros k _; split; reflexivity].
  - cbn [fold_left].
    destruct (set_axislabel_keys t (k0, v0)) as (Hx & Hy & Hhx & Hhy & Hf).
    destruct (IH (set_axislabel t (k0, v0))) as (Hx' & Hy' & Hf' & Hv').
    cbv zeta in Hv'.
    split; [congruence |]. split; [congruence |]. split; [congruence |].
    intros Hnd. cbn [dict_keys map fst] in Hnd.
    apply NoDup_cons_iff in Hnd as [Hk0 Hnd].
    destruct (Hv' Hnd) as [Hin Hout].
    assert (Hstep : forall k, k <> k0 ->
              dict_get (xtitles_dict (set_axislabel t (k0, v0))) k
              = dict_get (xtitles_dict t) k /\
              dict_get (ytitles_dict (set_axislabel t (k0, v0))) k
              = dict_get (ytitles_dict t) k).
    { intros k Hne. unfold set_axislabel. cbn [fst snd].
      destruct (dict_has (xtitles_dict t) k0); cbn;
        [split; [now apply dict_get_set_other | reflexivity] |].
      destruct (dict_has (ytitles_dict t) k0); cbn;
        [split; [reflexivity | now apply dict_get_set_other] | now split]. }
    split.
    + intros k v [Heq | Hkv].
      * injection Heq as <- <-. destruct (Hout k0 Hk0) as [Hox Hoy].
        rewrite Hox, Hoy. unfold set_axislabel. cbn [fst snd]. split.
        -- intros Hhas. rewrite Hhas. cbn. apply dict_get_set_same.
        -- intros Hno Hhas. rewrite Hno, Hhas. cbn. apply dict_get_set_same.
      * destruct (Hin k v Hkv) as [Hix Hiy]. rewrite Hhx, Hhy in *. now split.
    + intros k Hk. cbn [dict_keys map fst] in Hk.
      destruct (Hout k) as [Hox Hoy]; [intros H; apply Hk; now right |].
      destruct (Hstep k) as [Hsx Hsy]; [intros ->; apply Hk; now left |].
      split; congruence.
Qed.

(** X26.  [set_axislabels] never adds or removes a key of the two title
    dictionaries, whatever keyword arguments it gets: a key that is in
    neither dictionary changes nothing in them.  So reading the title of
    one of the axes that were there, as [set_xtitles] and [set_ytitles]
    do, does not raise [KeyError] afterwards. *)
Theorem set_axislabels_keeps_keys (size : option float) (labels_kw : dict string)
    (t : Titles) :
  let t' := set_axislabels size labels_kw t in
  dict_keys (xtitles_dict t') = dict_keys (xtitles_dict t) /\
  dict_keys (ytitles_dict t') = dict_keys (ytitles_dict t) /\
  (forall k, dict_has (xtitles_dict t) k = true -> exists s, xtitle t' k = Ok s) /\
  (forall k, dict_has (ytitles_dict t) k = true -> exists s, ytitle t' k = Ok s).
Proof.
  cbv zeta. unfold set_axislabels.
  set (t1 := match size with Some _ => _ | None => _ end).
  assert (H1 : xtitles_dict t1 = xtitles_dict t /\ ytitles_dict t1 = ytitles_dict t).
  { subst t1. destruct size as [x |]; [| now split].
    destruct (negb (PrimFloat.eqb x 0)); now split. }
  destruct H1 as [H1x H1y].
  destruct (set_axislabels_loop labels_kw t1) as (Hx & Hy & _ & _).
  rewrite H1x in Hx. rewrite H1y in Hy.
  assert (Hidx : forall (d d' : dict string) k,
            dict_keys d' = dict_keys d -> dict_has d k = true ->
            exists s, dict_index d' k = Ok s).
  { intros d d' k Hk Hhas. unfold dict_index.
    destruct (dict_get d' k) as [s |] eqn:E; [now exists s |].
    exfalso. unfold dict_has in Hhas.
    destruct (dict_get d k) eqn:Ed; [| discriminate].
    assert (Hin : In k (dict_keys d)).
    { destruct (in_dec string_dec k (dict_keys d)) as [H | H]; [exact H |].
      rewrite (dict_get_notin d k H) in Ed. discriminate. }
    rewrite <- Hk in Hin. clear - Hin E.
    induction d' as [|[k' v'] d' IH]; cbn in *; [exact Hin |].
    destruct (str_eqb k k') eqn:Ek; [discriminate |].
    destruct Hin as [-> | Hin]; [now rewrite str_eqb_refl in Ek | now apply IH]. }
  split; [exact Hx |]. split; [exact Hy |]. split.
  - intros k Hk. apply (Hidx (xtitles_dict t) _ k Hx Hk).
  - intros k Hk. apply (Hidx (ytitles_dict t) _ k Hy Hk).
Qed.

(** X27.  [set_axislabels] stores each keyword under its key: in
    [xtitles_dict] when the key is one of its keys, else in
    [ytitles_dict] when it is one of those; the titles of the other axes
    are left as they were. *)
Theorem set_axislabels_assigns (size : option float) (labels_kw : dict string)
    (t : Titles) :
  NoDup (dict_keys labels_kw) ->
  let t' := set_axislabels size labels_kw t in
  (forall k v, In (k, v) labels_kw ->
     (dict_has (xtitles_dict t) k = true -> xtitle t' k = Ok v) /\
     (dict_has (xtitles_dict t) k = false -> dict_has (ytitles_dict t) k = true ->
      ytitle t' k = Ok v)) /\
  (forall k, ~ In k (dict_keys labels_kw) ->
     dict_get (xtitles_dict t') k = dict_get (xtitles_dict t) k /\
     dict_get (ytitles_dict t') k = dict_get (ytitles_dict t) k).
Proof.
  intros Hnd. cbv zeta. unfold set_axislabels.
  set (t1 := match size with Some _ => _ | None => _ end).
  assert (H1 : xtitles_dict t1 = xtitles_dict t /\ ytitles_dict t1 = ytitles_dict t).
  { subst t1. destruct size as [x |]; [| now split].
    destruct (negb (PrimFloat.eqb x 0)); now split. }
  destruct H1 as [H1x H1y].
  destruct (set_axislabels_loop labels_kw t1) as (_ & _ & _ & Hv).
  cbv zeta in Hv. destruct (Hv Hnd) as [Hin Hout].
  rewrite H1x, H1y in *. split.
  - intros k v Hkv. destruct (Hin k v Hkv) as [Hix Hiy].
    unfold xtitle, ytitle, dict_index. split.
    + intros Hh. now rewrite (Hix Hh).
    + intros Hno Hh. now rewrite (Hiy Hno Hh).
  - intros k Hk. exact (Hout k Hk).
Qed.

Lemma set_axislabels_assigns_witness :
  let kw := [("xmain", "mass"); ("ybot", "ratio"); ("zmain", "depth")]%string in
  let t' := set_axislabels (Some 12%float) kw default_titles in
  xtitle t' "xmain" = Ok "mass"%string /\
  ytitle t' "ybot" = Ok "ratio"%string /\
  ytitle t' "ymain" = Ok EmptyString.
Proof.
  cbv zeta.
  assert (Hnd : NoDup (dict_keys [("xmain", "mass"); ("ybot", "ratio");
                                  ("zmain", "depth")]%string)).
  { constructor; [intros [H | [H | []]]; discriminate |].
    constructor; [intros [H | []]; discriminate |].
    constructor; [intros [] | constructor]. }
  destruct (set_axislabels_assigns (Some 12%float)
              [("xmain", "mass"); ("ybot", "ratio"); ("zmain", "depth")]%string
              default_titles Hnd) as [Hin _].
  split; [| split].
  - apply (Hin "xmain"%string "mass"%string); [now left | reflexivity].
  - apply (Hin "ybot"%string "ratio"%string); [right; now left | reflexivity
                                              | reflexivity].
  - reflexivity.
Defined.

(** ** The statements of a render before the grid *)

Lemma filter_In_keys (f : string -> bool) (keys : list string) (k : string) :
  In k (filter f keys) -> In k keys.
Proof. intros H. now apply filter_In in H. Qed.

Section RenderReturns.
Context {F : Type} {num : Numeric F}.

Lemma get_samples_colors_ok (d : dict (Histogram F)) (o : obj F) :
  (forall k, In k (dict_keys d) -> dict_get (colors_dict (style o)) k <> None) ->
  exists cr, get_samples_colors d o = (Ok (dict_values d, cr), o).
Proof.
  intros Hall.
  destruct (map_outcome_index (colors_dict (style o)) (dict_keys d))
    as [(cols & Hm & _) | (_ & k & Hk & Hnone)].
  - destruct (get_samples_colors_run d o cols Hm) as (cr & Hrun & _).
    now exists cr.
  - exfalso. exact (Hall k Hk Hnone).
Qed.

Lemma rcps_index_run (k : string) (o : obj F) :
  dict_get (rcps (style o)) k <> None ->
  exists v, @rcps_index F k o = (Ok v, o).
Proof.
  intros H. unfold rcps_index, bind, gets, lift, dict_index.
  destruct (dict_get (rcps (style o)) k) as [v |]; [now exists v | contradiction].
Qed.

Lemma draw_run (c : draw_call F) (o : obj F) : draw c o = (Ok tt, drawn [c] o).
Proof. reflexivity. Qed.

Lemma histbins_plotter_run (ax : axes_id) (o : obj F) :
  (forall k, In k (dict_keys (histos_dict (store o))) ->
             dict_get (colors_dict (style o)) k <> None) ->
  dict_get (rcps (style o)) "lines.linewidth" <> None ->
  exists calls, histbins_plotter ax o = (Ok tt, drawn calls o) /\
                existsb is_grid_call calls = false.
Proof.
  intros Hall Hlw. unfold histbins_plotter. unfold bind at 1. unfold gets at 1.
  unfold bind at 1.
  destruct (get_samples_colors_ok (histos_dict (store o)) o Hall) as [cr ->].
  unfold bind at 1. unfold gets at 1.
  destruct (rcps_index_run "lines.linewidth" o Hlw) as [v Hv].
  destruct (str_eqb (shape (style o)) "hollow").
  - unfold bind at 1. rewrite Hv, draw_run. eexists [_]. split; reflexivity.
  - destruct (str_eqb (shape (style o)) "full").
    + unfold bind at 1. rewrite Hv, draw_run. eexists [_]. split; reflexivity.
    + exists []. split; [now rewrite drawn_nil | reflexivity].
Qed.

Lemma scatterdata_plotter_run (ax : axes_id) (o : obj F) :
  (forall k, In k (dict_keys (data_dict (store o))) ->
             dict_get (colors_dict (style o)) k <> None) ->
  dict_get (rcps (style o)) "lines.marker" <> None ->
  dict_get (rcps (style o)) "lines.markersize" <> None ->
  exists calls, scatterdata_plotter ax o = (Ok tt, drawn calls o) /\
                existsb is_grid_call calls = false.
Proof.
  intros Hall Hm Hs. unfold scatterdata_plotter. unfold bind at 1. unfold gets at 1.
  unfold bind at 1.
  destruct (get_samples_colors_ok (data_dict (store o)) o Hall) as [cr ->].
  destruct (rcps_index_run "lines.marker" o Hm) as [v Hv].
  destruct (rcps_index_run "lines.markersize" o Hs) as [w Hw].
  unfold bind at 1. rewrite Hv. unfold bind at 1. rewrite Hw, draw_run.
  eexists [_]. split; reflexivity.
Qed.

Lemma existsb_grid_app (a b : list (draw_call F)) :
  existsb is_grid_call a = false -> existsb is_grid_call b = false ->
  existsb is_grid_call (a ++ b) = false.
Proof. intros Ha Hb. now rewrite existsb_app, Ha, Hb. Qed.

End RenderReturns.

(** X28.  On an object in which every loaded sample has a colour, the
    two roles partition the loaded samples (as the constructor leaves
    it), [rcps] has the four keys that a render reads, and no error bars
    on the histograms are asked for, no statement of [hist_plot] before
    the grid raises, the calls into the plotting library being taken to
    succeed: neither colour lookup meets a sample without a colour, these
    statements only add calls to the canvas, none of them a call of
    [ax.grid], and [hist_plot] goes on from there with the grid, the
    legend and the labels. *)
Theorem hist_plot_reaches_grid F (num : Numeric F) (ax : axes_id) (o : obj F) :
  all_colored o -> partitioned o ->
  (forall k, In k ["font.size"; "lines.linewidth"; "lines.marker";
                   "lines.markersize"]%string ->
             dict_get (rcps (style o)) k <> None) ->
  opt_str_is (errors o) "hist" || opt_str_is (errors o) "all" = false ->
  exists calls, hist_plot_body ax o = (Ok tt, drawn calls o) /\
                existsb is_grid_call calls = false /\
                hist_plot ax o = (draw_grid ax ;; hist_plot_finish ax) (drawn calls o).
Proof.
  intros Hcol (_ & Hpd & Hph) Hrc Herr.
  assert (Hh : forall k, In k (dict_keys (histos_dict (store o))) ->
                         dict_get (colors_dict (style o)) k <> None).
  { intros k Hk. apply Hcol. rewrite Hph in Hk. now apply filter_In_keys in Hk. }
  assert (Hd : forall k, In k (dict_keys (data_dict (store o))) ->
                         dict_get (colors_dict (style o)) k <> None).
  { intros k Hk. apply Hcol. rewrite Hpd in Hk. now apply filter_In_keys in Hk. }
  assert (S1 : exists c1,
             (if nonempty (histos_dict (store o)) then histbins_plotter ax else ret tt) o
             = (Ok tt, drawn c1 o) /\ existsb is_grid_call c1 = false).
  { destruct (nonempty (histos_dict (store o))).
    - apply histbins_plotter_run; [exact Hh |]. apply Hrc. cbn. tauto.
    - exists []. split; [unfold ret; now rewrite drawn_nil | reflexivity]. }
  destruct S1 as (c1 & H1 & G1).
  assert (S2 : exists c2,
             (if arg_truthy (data (store o)) then scatterdata_plotter ax else ret tt)
               (drawn c1 o)
             = (Ok tt, drawn c2 (drawn c1 o)) /\ existsb is_grid_call c2 = false).
  { destruct (arg_truthy (data (store o))).
    - apply scatterdata_plotter_run; [exact Hd | |]; apply Hrc; cbn; tauto.
    - exists []. split; [unfold ret; now rewrite drawn_nil | reflexivity]. }
  destruct S2 as (c2 & H2 & G2).
  destruct (rcps_index_run "font.size" (drawn c2 (drawn c1 o))) as [fs Hfs];
    [apply Hrc; cbn; tauto |].
  assert (Hbody : hist_plot_body ax o
                  = (Ok tt, drawn (c1 ++ c2 ++ [Decoration ax "tick_params";
                                                Decoration ax "ticklabel_format"])%list o)).
  { unfold hist_plot_body. unfold bind at 1. unfold gets at 1.
    unfold bind at 1. rewrite H1.
    unfold bind at 1. unfold gets at 1. unfold bind at 1.
    change (data (store (drawn c1 o))) with (data (store o)). rewrite H2.
    unfold bind at 1. unfold gets at 1. unfold bind at 1.
    change (errors (drawn c2 (drawn c1 o))) with (errors o). rewrite Herr.
    unfold ret at 1. unfold bind at 1. rewrite Hfs.
    unfold bind at 1. rewrite draw_run. rewrite draw_run.
    rewrite !drawn_drawn. reflexivity. }
  exists (c1 ++ c2 ++ [Decoration ax "tick_params"; Decoration ax "ticklabel_format"])%list.
  split; [exact Hbody |]. split.
  - apply existsb_grid_app; [exact G1 |].
    apply existsb_grid_app; [exact G2 | reflexivity].
  - unfold hist_plot. unfold bind at 1. rewrite Hbody. reflexivity.
Qed.

Lemma hist_plot_reaches_grid_witness :
  all_colored example_two /\ partitioned example_two /\
  fst (hist_plot_body MainAx example_two) = Ok tt /\
  fst (hist_plot MainAx example_two) = Ok tt.
Proof.
  assert (Hc : all_colored example_two).
  { intros k Hk. rewrite example_two_keys in Hk.
    destruct Hk as [<- | [<- | []]]; vm_compute; discriminate. }
  assert (Hp : partitioned example_two).
  { split; [rewrite example_two_keys; exact NoDup_a_b |]. split; reflexivity. }
  assert (Hrc : forall k, In k ["font.size"; "lines.linewidth"; "lines.marker";
                                "lines.markersize"]%string ->
                          dict_get (rcps (style example_two)) k <> None).
  { intros k [<- | [<- | [<- | [<- | []]]]]; vm_compute; discriminate. }
  split; [exact Hc |]. split; [exact Hp |].
  destruct (hist_plot_reaches_grid float _ MainAx example_two Hc Hp Hrc eq_refl)
    as (calls & Hbody & _ & Hrun).
  split; [now rewrite Hbody |].
  rewrite Hrun. reflexivity.
Defined.

(** ** The shape of the histograms *)

Section ShapeFacts.
Context {F : Type} {num : Numeric F}.
Variable env : Env F.

Lemma plot_options_grid_shape (gs : string) :
  preserves (fun o : obj F => shape (style o)) (@plot_options_grid F gs).
Proof. unfold plot_options_grid, gridstring_converter. frame. Qed.

Lemma plot_options_rest_shape (shp marker : option string)
    (markersize : option float) (legendcols : option Z) (rcp_kw : dict rcval) :
  preserves (fun o : obj F => shape (style o))
            (plot_options_rest env shp marker markersize legendcols rcp_kw).
Proof.
  unfold plot_options_rest, config_rcParams, set_rc, assign_colors, set_color.
  frame.
Qed.

(** The shape after [plot_options] is the shape after its first block. *)
Lemma plot_options_shape_only (shp : option string) (gs : string)
    (marker : option string) (markersize : option float) (legendcols : option Z)
    (rcp_kw : dict rcval) (o : obj F) :
  shape (style (snd (plot_options env shp gs marker markersize legendcols rcp_kw o)))
  = shape (style (snd (@plot_options_shape F shp o))).
Proof.
  unfold plot_options. unfold bind at 1.
  pose proof (plot_options_shape_returns shp o) as Hs.
  destruct (plot_options_shape shp o) as [r o1]. cbn [fst snd] in *. subst r.
  unfold bind at 1.
  pose proof (plot_options_grid_shape gs o1) as Hg. cbv beta in Hg.
  destruct (plot_options_grid gs o1) as [[[] | e] o2]; cbn [snd] in Hg.
  - rewrite <- Hg.
    apply (plot_options_rest_shape shp marker markersize legendcols rcp_kw o2).
  - exact Hg.
Qed.

Lemma opt_str_is_eq (x : option string) (s : string) :
  opt_str_is x s = true -> x = Some s.
Proof.
  destruct x as [t |]; cbn; [| discriminate].
  intros H. apply str_eqb_eq in H. now subst.
Qed.

End ShapeFacts.

(** X29.  [plot_options] keeps the shape one of 'full' and 'hollow':
    any other value is refused, and so is 'full' for a plot that is not a
    stack and has more than one histogram; in both cases the shape stays
    what it was, whatever the other options are. *)
Theorem plot_options_shape_guard F (num : Numeric F) (env : Env F)
    (o : obj F) (shp : option string) (gs : string) (marker : option string)
    (markersize : option float) (legendcols : option Z) (rcp_kw : dict rcval) :
  shape (style o) = "full"%string \/ shape (style o) = "hollow"%string ->
  let o' := snd (plot_options env shp gs marker markersize legendcols rcp_kw o) in
  (shape (style o') = "full"%string \/ shape (style o') = "hollow"%string) /\
  (shp <> Some "full"%string -> shp <> Some "hollow"%string ->
   shape (style o') = shape (style o)) /\
  (is_stack o = false -> 1 < dict_len (histos_dict (store o)) ->
   shp = Some "full"%string -> shape (style o') = shape (style o)).
Proof.
  intros Hinv. cbv zeta. rewrite plot_options_shape_only.
  unfold plot_options_shape, bind, gets, modify, logging_error.
  destruct (opt_str_truthy shp) eqn:Et.
  - destruct (opt_str_is shp "full" && negb (is_stack o)
              && (1 <? dict_len (histos_dict (store o)))%nat) eqn:Eg; cbn [snd].
    + split; [exact Hinv |]. split; reflexivity.
    + destruct (opt_str_is shp "full") eqn:Ef.
      * apply opt_str_is_eq in Ef. subst shp. cbn [orb snd].
        split; [left; reflexivity |]. split; [congruence |].
        intros Hst Hlen _. rewrite Hst in Eg. cbn [negb andb] in Eg.
        apply Nat.ltb_ge in Eg. lia.
      * cbn [orb]. destruct (opt_str_is shp "hollow") eqn:Eh; cbn [snd].
        -- apply opt_str_is_eq in Eh. subst shp.
           split; [right; reflexivity |]. split; [congruence | discriminate].
        -- split; [exact Hinv |]. split; reflexivity.
  - cbn [snd]. split; [exact Hinv |]. split; reflexivity.
Qed.

Lemma plot_options_shape_guard_witness :
  shape (style example_two) = "hollow"%string /\
  shape (style (snd (plot_options example_env (Some "full"%string) EmptyString None None
                       None [] example_two))) = "hollow"%string.
Proof.
  assert (H : shape (style example_two) = "full"%string
              \/ shape (style example_two) = "hollow"%string) by (right; reflexivity).
  split; [reflexivity |].
  destruct (plot_options_shape_guard float _ example_env example_two
              (Some "full"%string) EmptyString None None None [] H) as (_ & _ & Hg).
  rewrite Hg; [reflexivity | reflexivity | vm_compute; lia | reflexivity].
Defined.

(** ** Data names that are no sample *)

Section DataNames.
Context {F : Type}.

Lemma with_errlog_nil (o : obj F) : with_errlog (fun l => l ++ [])%list o = o.
Proof. destruct o. unfold with_errlog. cbn. now rewrite app_nil_r. Qed.

Lemma report_loop (smp : pyarg) (ds : list string) :
  forall o : obj F,
    for_each ds (fun samplename =>
      if negb (arg_contains samplename smp)
      then logging_error ("There is no variable named " ++ samplename
                            ++ " in 'samples'")%string
      else ret tt) o
    = (Ok tt,
       with_errlog (fun l =>
         l ++ map missing_message
                  (filter (fun d => negb (arg_contains d smp)) ds))%list o).
Proof.
  induction ds as [|d ds IH]; intros o.
  - cbn. now rewrite with_errlog_nil.
  - cbn [for_each filter]. unfold bind at 1.
    destruct (negb (arg_contains d smp)).
    + unfold logging_error at 1. unfold modify at 1. rewrite IH.
      unfold with_errlog. cbn. rewrite <- app_assoc. reflexivity.
    + unfold ret at 1. apply IH.
Qed.

End DataNames.

(** X30.  For a non-empty list of data names, [check_data_names] logs one
    message for each name that is not among the samples, in the order of
    the list, and changes nothing else: such a name stays in
    [self.data], and the loading goes on. *)
Theorem check_data_names_reports F (smp : pyarg) (ds : list string) (o : obj F) :
  ds <> [] ->
  data (store o) = AList (map PStr ds) ->
  check_data_names smp o
  = (Ok tt,
     with_errlog (fun l =>
       l ++ map missing_message
                (filter (fun d => negb (arg_contains d smp)) ds))%list o).
Proof.
  intros Hne Hd. unfold check_data_names. unfold bind at 1. unfold gets at 1.
  rewrite Hd.
  assert (Ht : arg_truthy (AList (map PStr ds)) = true)
    by (destruct ds; [congruence | reflexivity]).
  rewrite Ht. unfold type_checker. rewrite forallb_is_str_names.
  unfold bind at 1. unfold ret at 1. cbn [andb arg_is_all negb arg_is_list].
  unfold bind at 1. unfold ret at 1. unfold bind at 1. unfold gets at 1.
  rewrite Hd. cbn [arg_names]. rewrite item_strs_names.
  apply report_loop.
Qed.

Lemma check_data_names_reports_witness :
  let o := example_new (AList [PStr "a"; PStr "b"]) (AList [PStr "b"; PStr "c"]) None in
  errlog (snd (check_data_names (AList [PStr "a"; PStr "b"]) o))
  = ["There is no variable named c in 'samples'"%string] /\
  data (store (snd (check_data_names (AList [PStr "a"; PStr "b"]) o)))
  = AList [PStr "b"; PStr "c"].
Proof.
  cbv zeta.
  assert (Hne : ["b"; "c"]%string <> []) by discriminate.
  rewrite (check_data_names_reports float (AList [PStr "a"; PStr "b"])
             ["b"; "c"]%string
             (example_new (AList [PStr "a"; PStr "b"]) (AList [PStr "b"; PStr "c"]) None)
             Hne eq_refl).
  split; reflexivity.
Defined.
